(** * Elasticsearch index copier: a shallow embedding and its properties

    The development follows [elastic_copier.py] (class [CopyStatistics],
    class [ElasticsearchCopier], [parse_index_mapping], the loop of [main])
    and the older script [elk-simple-copier.py] (class
    [ElasticsearchMigration]).

    Conventions of the embedding.
    - Python [str] is [string]: the bytes of the text in UTF-8.  A character
      is one to four bytes; where the code looks at characters ([strip],
      [repr], the encoding of the console) the model reads them off the
      bytes.
    - Python [int] is [Z] (unbounded).
    - A parsed JSON document is a value of [json]; a JSON object keeps its
      members in order, as a Python [dict] does.  JSON numbers are integers.
    - A raised exception is a value of [exn]; a computation that may raise
      returns [exn + A], with [inl] the raised exception.
    - The HTTP transport ([requests.get/put/post/delete]) is a scripted mock:
      the answers of the successive calls are given in advance, and every call
      is recorded in a trace together with the logger calls.
    - [print] writes to the console, which encodes the text and raises
      [UnicodeEncodeError] at a character that its encoding does not have.
      The texts that the scripts print are their own ASCII words with index
      names and numbers, but for two: the announcement of [copy_index] and
      the summary, which hold the arrow U+2192.  The announcement is part of
      the model.  The prints that follow it in a copy have no character that
      it has not, so they are written wherever it was, and they are left
      out, as are those of the older script, whose index names are fixed in
      its [main] and are ASCII; the summary is given to the caller as the
      text that [main] hands to [print]. *)

From Stdlib Require Import String Ascii ZArith List Bool Lia.
From Stdlib Require Import DecimalString.
Import ListNotations.

#[local] Set Warnings "-register-all".

Local Open Scope string_scope.
Local Open Scope Z_scope.

(** ** Python strings *)

Module PyStr.

Definition newline : string := String (ascii_of_nat 10) EmptyString.

(** The value of a byte. *)
Definition byte (c : ascii) : Z := Z.of_nat (nat_of_ascii c).

(** [ch.isspace()], by the UTF-8 bytes of the character.  The white space
    of Python is: U+0009..U+000D, U+001C..U+001F, U+0020 (one byte each);
    U+0085 and U+00A0 (two bytes, after 0xC2); U+1680, U+2000..U+200A,
    U+2028, U+2029, U+202F, U+205F and U+3000 (three bytes). *)
Definition is_space (c : ascii) : bool :=
  let b := byte c in
  (9 <=? b) && (b <=? 13) || (28 <=? b) && (b <=? 32).

Definition is_space2 (c1 c2 : ascii) : bool :=
  (byte c1 =? 0xC2) && ((byte c2 =? 0x85) || (byte c2 =? 0xA0)).

Definition is_space3 (c1 c2 c3 : ascii) : bool :=
  let b1 := byte c1 in
  let b2 := byte c2 in
  let b3 := byte c3 in
  (b1 =? 0xE1) && (b2 =? 0x9A) && (b3 =? 0x80)
  || (b1 =? 0xE2) && (b2 =? 0x80)
     && ((0x80 <=? b3) && (b3 <=? 0x8A)
         || (b3 =? 0xA8) || (b3 =? 0xA9) || (b3 =? 0xAF))
  || (b1 =? 0xE2) && (b2 =? 0x81) && (b3 =? 0x9F)
  || (b1 =? 0xE3) && (b2 =? 0x80) && (b3 =? 0x80).

Definition is_empty (s : string) : bool :=
  match s with EmptyString => true | String _ _ => false end.

(** [s.lstrip()]: the text after its leading white space. *)
Fixpoint lstrip (s : string) : string :=
  match s with
  | EmptyString => EmptyString
  | String c1 s1 =>
      if is_space c1 then lstrip s1
      else
        match s1 with
        | EmptyString => s
        | String c2 s2 =>
            if is_space2 c1 c2 then lstrip s2
            else
              match s2 with
              | EmptyString => s
              | String c3 s3 => if is_space3 c1 c2 c3 then lstrip s3 else s
              end
        end
  end.

(** [s.rstrip()]: the text before its trailing white space, which starts
    at the first place from which only white space follows.  No white space
    character starts with a byte that continues another character, so that
    place is never inside a character. *)
Fixpoint rstrip (s : string) : string :=
  match s with
  | EmptyString => EmptyString
  | String c s' => if is_empty (lstrip s) then EmptyString else String c (rstrip s')
  end.

(** [s.strip()] *)
Definition strip (s : string) : string := rstrip (lstrip s).

(** [s.rstrip(ch)] for a one-character argument. *)
Fixpoint rstrip_char (ch : ascii) (s : string) : string :=
  match s with
  | EmptyString => EmptyString
  | String c s' =>
      let r := rstrip_char ch s' in
      if Ascii.eqb c ch && is_empty r then EmptyString else String c r
  end.

(** [ch in s] *)
Fixpoint contains (ch : ascii) (s : string) : bool :=
  match s with
  | EmptyString => false
  | String c s' => Ascii.eqb c ch || contains ch s'
  end.

(** [s.split(ch)]: never the empty list; ["".split(",")] is [[""]]. *)
Fixpoint split (ch : ascii) (s : string) : list string :=
  match s with
  | EmptyString => [EmptyString]
  | String c s' =>
      if Ascii.eqb c ch then EmptyString :: split ch s'
      else match split ch s' with
           | [] => [String c EmptyString]
           | h :: t => String c h :: t
           end
  end.

(** ["\n".join(lines)] and friends. *)
Fixpoint join (sep : string) (l : list string) : string :=
  match l with
  | [] => EmptyString
  | [x] => x
  | x :: rest => x ++ sep ++ join sep rest
  end.

(** [str(n)] for a non-negative integer. *)
Definition digits (n : N) : string := NilZero.string_of_uint (N.to_uint n).

(** [str(z)] for an integer. *)
Definition of_int (z : Z) : string :=
  if z <? 0 then "-" ++ digits (Z.to_N (- z)) else digits (Z.to_N z).

(** ["%0<w>d" % n] for a non-negative [n]: left padding with zeros. *)
Fixpoint zeros (k : nat) : string :=
  match k with O => EmptyString | S k' => String "0" (zeros k') end.

Definition pad0 (w : nat) (n : N) : string :=
  let d := digits n in zeros (w - String.length d) ++ d.

(** Grouping of a digit string by thousands, from the right. *)
Fixpoint group3 (rev_digits : list ascii) (k : nat) : list ascii :=
  match rev_digits with
  | [] => []
  | c :: rest =>
      match k with
      | O => c :: "," % char :: group3 rest 2
      | S k' => c :: group3 rest k'
      end
  end.

Definition drop_trailing_comma (l : list ascii) : list ascii :=
  match rev l with
  | c :: rest => if Ascii.eqb c "," then rev rest else l
  | [] => l
  end.

(** [f"{z:,}"] *)
Definition format_commas (z : Z) : string :=
  let d := list_ascii_of_string (digits (Z.to_N (Z.abs z))) in
  let g := rev (drop_trailing_comma (group3 (rev d) 2)) in
  (if z <? 0 then "-" else "") ++ string_of_list_ascii g.

(** The characters of a text that is UTF-8: each with its code point and
    its bytes.  [need] is the number of bytes still to come for the
    character in hand, [cp] and [bytes] what was read of it. *)
Fixpoint chars_from (need : nat) (cp : Z) (bytes : string) (s : string)
  : list (Z * string) :=
  match s with
  | EmptyString =>
      match need with O => [] | S _ => [(cp, bytes)] end
  | String c s' =>
      let b := byte c in
      match need with
      | O =>
          if b <? 0x80 then (b, String c EmptyString) :: chars_from 0 0 "" s'
          else if b <? 0xE0 then chars_from 1 (b - 0xC0) (String c "") s'
          else if b <? 0xF0 then chars_from 2 (b - 0xE0) (String c "") s'
          else chars_from 3 (b - 0xF0) (String c "") s'
      | S n =>
          let cp' := cp * 64 + (b - 0x80) in
          let bytes' := bytes ++ String c "" in
          match n with
          | O => (cp', bytes') :: chars_from 0 0 "" s'
          | S _ => chars_from n cp' bytes' s'
          end
      end
  end.

Definition chars (s : string) : list (Z * string) := chars_from 0 0 "" s.

(** [[ord(ch) for ch in s]] *)
Definition code_points (s : string) : list Z := map fst (chars s).

(** ["%0<w>x" % n]: [w] hexadecimal digits, in lower case. *)
Definition hex_digit (d : Z) : ascii :=
  nth (Z.to_nat d)
      ["0"; "1"; "2"; "3"; "4"; "5"; "6"; "7";
       "8"; "9"; "a"; "b"; "c"; "d"; "e"; "f"]%char "0"%char.

Fixpoint hex (w : nat) (n : Z) : string :=
  match w with
  | O => EmptyString
  | S w' => hex w' (n / 16) ++ String (hex_digit (n mod 16)) EmptyString
  end.

(** The escape of a character in [repr] and in the text of a
    [UnicodeError]: [\xhh], [\uhhhh] or [\Uhhhhhhhh] by the size of the
    code point. *)
Definition escape (cp : Z) : string :=
  if cp <=? 0xFF then "\x" ++ hex 2 cp
  else if cp <=? 0xFFFF then "\u" ++ hex 4 cp
  else "\U" ++ hex 8 cp.

(** The code points from U+0080 on for which [ch.isprintable()] is false,
    as ranges [(first, last)]: the characters of the categories Cc, Cf, Cs,
    Co, Cn, Zl, Zp and Zs of the Unicode database of the interpreter
    (Unicode 14.0, as in Python 3.11). *)
Definition unprintable : list (Z * Z) :=
  [(128, 160); (173, 173); (888, 889); (896, 899); (907, 907); (909, 909);
   (930, 930); (1328, 1328); (1367, 1368); (1419, 1420); (1424, 1424);
   (1480, 1487); (1515, 1518); (1525, 1541); (1564, 1564); (1757, 1757);
   (1806, 1807); (1867, 1868); (1970, 1983); (2043, 2044); (2094, 2095);
   (2111, 2111); (2140, 2141); (2143, 2143); (2155, 2159); (2191, 2199);
   (2274, 2274); (2436, 2436); (2445, 2446); (2449, 2450); (2473, 2473);
   (2481, 2481); (2483, 2485); (2490, 2491); (2501, 2502); (2505, 2506);
   (2511, 2518); (2520, 2523); (2526, 2526); (2532, 2533); (2559, 2560);
   (2564, 2564); (2571, 2574); (2577, 2578); (2601, 2601); (2609, 2609);
   (2612, 2612); (2615, 2615); (2618, 2619); (2621, 2621); (2627, 2630);
   (2633, 2634); (2638, 2640); (2642, 2648); (2653, 2653); (2655, 2661);
   (2679, 2688); (2692, 2692); (2702, 2702); (2706, 2706); (2729, 2729);
   (2737, 2737); (2740, 2740); (2746, 2747); (2758, 2758); (2762, 2762);
   (2766, 2767); (2769, 2783); (2788, 2789); (2802, 2808); (2816, 2816);
   (2820, 2820); (2829, 2830); (2833, 2834); (2857, 2857); (2865, 2865);
   (2868, 2868); (2874, 2875); (2885, 2886); (2889, 2890); (2894, 2900);
   (2904, 2907); (2910, 2910); (2916, 2917); (2936, 2945); (2948, 2948);
   (2955, 2957); (2961, 2961); (2966, 2968); (2971, 2971); (2973, 2973);
   (2976, 2978); (2981, 2983); (2987, 2989); (3002, 3005); (3011, 3013);
   (3017, 3017); (3022, 3023); (3025, 3030); (3032, 3045); (3067, 3071);
   (3085, 3085); (3089, 3089); (3113, 3113); (3130, 3131); (3141, 3141);
   (3145, 3145); (3150, 3156); (3159, 3159); (3163, 3164); (3166, 3167);
   (3172, 3173); (3184, 3190); (3213, 3213); (3217, 3217); (3241, 3241);
   (3252, 3252); (3258, 3259); (3269, 3269); (3273, 3273); (3278, 3284);
   (3287, 3292); (3295, 3295); (3300, 3301); (3312, 3312); (3315, 3327);
   (3341, 3341); (3345, 3345); (3397, 3397); (3401, 3401); (3408, 3411);
   (3428, 3429); (3456, 3456); (3460, 3460); (3479, 3481); (3506, 3506);
   (3516, 3516); (3518, 3519); (3527, 3529); (3531, 3534); (3541, 3541);
   (3543, 3543); (3552, 3557); (3568, 3569); (3573, 3584); (3643, 3646);
   (3676, 3712); (3715, 3715); (3717, 3717); (3723, 3723); (3748, 3748);
   (3750, 3750); (3774, 3775); (3781, 3781); (3783, 3783); (3790, 3791);
   (3802, 3803); (3808, 3839); (3912, 3912); (3949, 3952); (3992, 3992);
   (4029, 4029); (4045, 4045); (4059, 4095); (4294, 4294); (4296, 4300);
   (4302, 4303); (4681, 4681); (4686, 4687); (4695, 4695); (4697, 4697);
   (4702, 4703); (4745, 4745); (4750, 4751); (4785, 4785); (4790, 4791);
   (4799, 4799); (4801, 4801); (4806, 4807); (4823, 4823); (4881, 4881);
   (4886, 4887); (4955, 4956); (4989, 4991); (5018, 5023); (5110, 5111);
   (5118, 5119); (5760, 5760); (5789, 5791); (5881, 5887); (5910, 5918);
   (5943, 5951); (5972, 5983); (5997, 5997); (6001, 6001); (6004, 6015);
   (6110, 6111); (6122, 6127); (6138, 6143); (6158, 6158); (6170, 6175);
   (6265, 6271); (6315, 6319); (6390, 6399); (6431, 6431); (6444, 6447);
   (6460, 6463); (6465, 6467); (6510, 6511); (6517, 6527); (6572, 6575);
   (6602, 6607); (6619, 6621); (6684, 6685); (6751, 6751); (6781, 6782);
   (6794, 6799); (6810, 6815); (6830, 6831); (6863, 6911); (6989, 6991);
   (7039, 7039); (7156, 7163); (7224, 7226); (7242, 7244); (7305, 7311);
   (7355, 7356); (7368, 7375); (7419, 7423); (7958, 7959); (7966, 7967);
   (8006, 8007); (8014, 8015); (8024, 8024); (8026, 8026); (8028, 8028);
   (8030, 8030); (8062, 8063); (8117, 8117); (8133, 8133); (8148, 8149);
   (8156, 8156); (8176, 8177); (8181, 8181); (8191, 8207); (8232, 8239);
   (8287, 8303); (8306, 8307); (8335, 8335); (8349, 8351); (8385, 8399);
   (8433, 8447); (8588, 8591); (9255, 9279); (9291, 9311); (11124, 11125);
   (11158, 11158); (11508, 11512); (11558, 11558); (11560, 11564);
   (11566, 11567); (11624, 11630); (11633, 11646); (11671, 11679);
   (11687, 11687); (11695, 11695); (11703, 11703); (11711, 11711);
   (11719, 11719); (11727, 11727); (11735, 11735); (11743, 11743);
   (11870, 11903); (11930, 11930); (12020, 12031); (12246, 12271);
   (12284, 12288); (12352, 12352); (12439, 12440); (12544, 12548);
   (12592, 12592); (12687, 12687); (12772, 12783); (12831, 12831);
   (42125, 42127); (42183, 42191); (42540, 42559); (42744, 42751);
   (42955, 42959); (42962, 42962); (42964, 42964); (42970, 42993);
   (43053, 43055); (43066, 43071); (43128, 43135); (43206, 43213);
   (43226, 43231); (43348, 43358); (43389, 43391); (43470, 43470);
   (43482, 43485); (43519, 43519); (43575, 43583); (43598, 43599);
   (43610, 43611); (43715, 43738); (43767, 43776); (43783, 43784);
   (43791, 43792); (43799, 43807); (43815, 43815); (43823, 43823);
   (43884, 43887); (44014, 44015); (44026, 44031); (55204, 55215);
   (55239, 55242); (55292, 63743); (64110, 64111); (64218, 64255);
   (64263, 64274); (64280, 64284); (64311, 64311); (64317, 64317);
   (64319, 64319); (64322, 64322); (64325, 64325); (64451, 64466);
   (64912, 64913); (64968, 64974); (64976, 65007); (65050, 65055);
   (65107, 65107); (65127, 65127); (65132, 65135); (65141, 65141);
   (65277, 65280); (65471, 65473); (65480, 65481); (65488, 65489);
   (65496, 65497); (65501, 65503); (65511, 65511); (65519, 65531);
   (65534, 65535); (65548, 65548); (65575, 65575); (65595, 65595);
   (65598, 65598); (65614, 65615); (65630, 65663); (65787, 65791);
   (65795, 65798); (65844, 65846); (65935, 65935); (65949, 65951);
   (65953, 65999); (66046, 66175); (66205, 66207); (66257, 66271);
   (66300, 66303); (66340, 66348); (66379, 66383); (66427, 66431);
   (66462, 66462); (66500, 66503); (66518, 66559); (66718, 66719);
   (66730, 66735); (66772, 66775); (66812, 66815); (66856, 66863);
   (66916, 66926); (66939, 66939); (66955, 66955); (66963, 66963);
   (66966, 66966); (66978, 66978); (66994, 66994); (67002, 67002);
   (67005, 67071); (67383, 67391); (67414, 67423); (67432, 67455);
   (67462, 67462); (67505, 67505); (67515, 67583); (67590, 67591);
   (67593, 67593); (67638, 67638); (67641, 67643); (67645, 67646);
   (67670, 67670); (67743, 67750); (67760, 67807); (67827, 67827);
   (67830, 67834); (67868, 67870); (67898, 67902); (67904, 67967);
   (68024, 68027); (68048, 68049); (68100, 68100); (68103, 68107);
   (68116, 68116); (68120, 68120); (68150, 68151); (68155, 68158);
   (68169, 68175); (68185, 68191); (68256, 68287); (68327, 68330);
   (68343, 68351); (68406, 68408); (68438, 68439); (68467, 68471);
   (68498, 68504); (68509, 68520); (68528, 68607); (68681, 68735);
   (68787, 68799); (68851, 68857); (68904, 68911); (68922, 69215);
   (69247, 69247); (69290, 69290); (69294, 69295); (69298, 69375);
   (69416, 69423); (69466, 69487); (69514, 69551); (69580, 69599);
   (69623, 69631); (69710, 69713); (69750, 69758); (69821, 69821);
   (69827, 69839); (69865, 69871); (69882, 69887); (69941, 69941);
   (69960, 69967); (70007, 70015); (70112, 70112); (70133, 70143);
   (70162, 70162); (70207, 70271); (70279, 70279); (70281, 70281);
   (70286, 70286); (70302, 70302); (70314, 70319); (70379, 70383);
   (70394, 70399); (70404, 70404); (70413, 70414); (70417, 70418);
   (70441, 70441); (70449, 70449); (70452, 70452); (70458, 70458);
   (70469, 70470); (70473, 70474); (70478, 70479); (70481, 70486);
   (70488, 70492); (70500, 70501); (70509, 70511); (70517, 70655);
   (70748, 70748); (70754, 70783); (70856, 70863); (70874, 71039);
   (71094, 71095); (71134, 71167); (71237, 71247); (71258, 71263);
   (71277, 71295); (71354, 71359); (71370, 71423); (71451, 71452);
   (71468, 71471); (71495, 71679); (71740, 71839); (71923, 71934);
   (71943, 71944); (71946, 71947); (71956, 71956); (71959, 71959);
   (71990, 71990); (71993, 71994); (72007, 72015); (72026, 72095);
   (72104, 72105); (72152, 72153); (72165, 72191); (72264, 72271);
   (72355, 72367); (72441, 72703); (72713, 72713); (72759, 72759);
   (72774, 72783); (72813, 72815); (72848, 72849); (72872, 72872);
   (72887, 72959); (72967, 72967); (72970, 72970); (73015, 73017);
   (73019, 73019); (73022, 73022); (73032, 73039); (73050, 73055);
   (73062, 73062); (73065, 73065); (73103, 73103); (73106, 73106);
   (73113, 73119); (73130, 73439); (73465, 73647); (73649, 73663);
   (73714, 73726); (74650, 74751); (74863, 74863); (74869, 74879);
   (75076, 77711); (77811, 77823); (78895, 82943); (83527, 92159);
   (92729, 92735); (92767, 92767); (92778, 92781); (92863, 92863);
   (92874, 92879); (92910, 92911); (92918, 92927); (92998, 93007);
   (93018, 93018); (93026, 93026); (93048, 93052); (93072, 93759);
   (93851, 93951); (94027, 94030); (94088, 94094); (94112, 94175);
   (94181, 94191); (94194, 94207); (100344, 100351); (101590, 101631);
   (101641, 110575); (110580, 110580); (110588, 110588); (110591, 110591);
   (110883, 110927); (110931, 110947); (110952, 110959); (111356, 113663);
   (113771, 113775); (113789, 113791); (113801, 113807); (113818, 113819);
   (113824, 118527); (118574, 118575); (118599, 118607); (118724, 118783);
   (119030, 119039); (119079, 119080); (119155, 119162); (119275, 119295);
   (119366, 119519); (119540, 119551); (119639, 119647); (119673, 119807);
   (119893, 119893); (119965, 119965); (119968, 119969); (119971, 119972);
   (119975, 119976); (119981, 119981); (119994, 119994); (119996, 119996);
   (120004, 120004); (120070, 120070); (120075, 120076); (120085, 120085);
   (120093, 120093); (120122, 120122); (120127, 120127); (120133, 120133);
   (120135, 120137); (120145, 120145); (120486, 120487); (120780, 120781);
   (121484, 121498); (121504, 121504); (121520, 122623); (122655, 122879);
   (122887, 122887); (122905, 122906); (122914, 122914); (122917, 122917);
   (122923, 123135); (123181, 123183); (123198, 123199); (123210, 123213);
   (123216, 123535); (123567, 123583); (123642, 123646); (123648, 124895);
   (124903, 124903); (124908, 124908); (124911, 124911); (124927, 124927);
   (125125, 125126); (125143, 125183); (125260, 125263); (125274, 125277);
   (125280, 126064); (126133, 126208); (126270, 126463); (126468, 126468);
   (126496, 126496); (126499, 126499); (126501, 126502); (126504, 126504);
   (126515, 126515); (126520, 126520); (126522, 126522); (126524, 126529);
   (126531, 126534); (126536, 126536); (126538, 126538); (126540, 126540);
   (126544, 126544); (126547, 126547); (126549, 126550); (126552, 126552);
   (126554, 126554); (126556, 126556); (126558, 126558); (126560, 126560);
   (126563, 126563); (126565, 126566); (126571, 126571); (126579, 126579);
   (126584, 126584); (126589, 126589); (126591, 126591); (126602, 126602);
   (126620, 126624); (126628, 126628); (126634, 126634); (126652, 126703);
   (126706, 126975); (127020, 127023); (127124, 127135); (127151, 127152);
   (127168, 127168); (127184, 127184); (127222, 127231); (127406, 127461);
   (127491, 127503); (127548, 127551); (127561, 127567); (127570, 127583);
   (127590, 127743); (128728, 128732); (128749, 128751); (128765, 128767);
   (128884, 128895); (128985, 128991); (129004, 129007); (129009, 129023);
   (129036, 129039); (129096, 129103); (129114, 129119); (129160, 129167);
   (129198, 129199); (129202, 129279); (129620, 129631); (129646, 129647);
   (129653, 129655); (129661, 129663); (129671, 129679); (129709, 129711);
   (129723, 129727); (129734, 129743); (129754, 129759); (129768, 129775);
   (129783, 129791); (129939, 129939); (129995, 130031); (130042, 131071);
   (173792, 173823); (177977, 177983); (178206, 178207); (183970, 183983);
   (191457, 194559); (195102, 196607); (201547, 917759); (918000, 1114111)].

(** [ch.isprintable()] *)
Definition isprintable (cp : Z) : bool :=
  if cp <? 0x80 then (0x20 <=? cp) && (cp <? 0x7F)
  else negb (existsb (fun r => (fst r <=? cp) && (cp <=? snd r)) unprintable).

Definition quote : ascii := "'".
Definition double_quote : ascii := ascii_of_nat 34.

(** What [repr] writes for one character, [q] being the quote in use. *)
Definition repr_char (q : ascii) (ch : Z * string) : string :=
  let (cp, bytes) := ch in
  if (cp =? byte q) || (cp =? 0x5C) then "\" ++ bytes
  else if cp =? 9 then "\t"
  else if cp =? 10 then "\n"
  else if cp =? 13 then "\r"
  else if isprintable cp then bytes
  else escape cp.

(** [repr(s)]: in single quotes, or in double quotes when the text has a
    single quote and no double quote. *)
Definition repr (s : string) : string :=
  let q := if contains quote s && negb (contains double_quote s)
           then double_quote else quote in
  String q (String.concat "" (map (repr_char q) (chars s)))
  ++ String q EmptyString.

End PyStr.

(** ** JSON values and Python exceptions *)

Inductive json : Type :=
| JNull
| JBool (b : bool)
| JNum (n : Z)
| JStr (s : string)
| JArr (items : list json)
| JObj (members : list (string * json)).

(** What [requests] hands back for one call: [response.status_code],
    [response.reason], [response.url], [response.text], and the value of
    [response.json()] when the text is a JSON document. *)
Record Response : Type := mkResponse {
  status_code : Z;
  reason : string;
  resp_url : string;
  text : string;
  body_json : option json
}.

(** The exceptions the two scripts can meet.  Every
    [requests.exceptions.RequestException] (ConnectionError, Timeout,
    HTTPError, JSONDecodeError, ...) has an attribute [response], which is
    [None] unless the exception was built from an HTTP response. *)
Inductive exn : Type :=
| RequestException (msg : string) (response : option Response)
| KeyError (key : string)
| TypeError (msg : string)
| AttributeError (msg : string)
| ValueError (msg : string)
| UnicodeEncodeError (encoding object : string) (start stop : Z)
                     (reason : string).

(** [str(e)] of a [UnicodeEncodeError]: it names the character when there
    is one, and the positions when there are several. *)
Definition str_unicode_error (encoding object : string) (start stop : Z)
  (reason : string) : string :=
  if stop =? start + 1 then
    "'" ++ encoding ++ "' codec can't encode character '"
    ++ PyStr.escape (nth (Z.to_nat start) (PyStr.code_points object) 0)
    ++ "' in position " ++ PyStr.of_int start ++ ": " ++ reason
  else
    "'" ++ encoding ++ "' codec can't encode characters in position "
    ++ PyStr.of_int start ++ "-" ++ PyStr.of_int (stop - 1) ++ ": " ++ reason.

(** [str(e)]; for a [KeyError] it is [repr] of the key. *)
Definition str_exn (e : exn) : string :=
  match e with
  | RequestException msg _ => msg
  | KeyError key => PyStr.repr key
  | TypeError msg => msg
  | AttributeError msg => msg
  | ValueError msg => msg
  | UnicodeEncodeError encoding object start stop reason =>
      str_unicode_error encoding object start stop reason
  end.

(** [isinstance(e, requests.exceptions.RequestException)] *)
Definition is_request_exception (e : exn) : bool :=
  match e with RequestException _ _ => true | _ => false end.

(** [hasattr(e, 'response')], and [e.response] when it has one. *)
Definition has_response_attr (e : exn) : bool := is_request_exception e.

Definition response_of (e : exn) : option Response :=
  match e with RequestException _ response => response | _ => None end.

Definition result (A : Type) : Type := (exn + A)%type.

Definition bind_result {A B} (r : result A) (k : A -> result B) : result B :=
  match r with inl e => inl e | inr a => k a end.

(** ** The console *)

(** [sys.stdout]: a text stream that encodes what is written to it, errors
    being strict.  [encoding] is the name by which the codec calls itself in
    its errors (["charmap"] for the code pages, ["ascii"], ["latin-1"],
    ["utf-8"]), [has_char] tells which characters above the ASCII range the
    encoding has, and [refusal] is what the codec says of a character that
    it does not have.  Every encoding has the ASCII range. *)
Record Console : Type := mkConsole {
  encoding : string;
  has_char : Z -> bool;
  refusal : string
}.

Module Stdout.

Definition can_encode (out : Console) (cp : Z) : bool :=
  (cp <? 0x80) || has_char out cp.

(** The number of characters at the head of a text that the encoding does
    not have. *)
Fixpoint run (out : Console) (cps : list Z) : Z :=
  match cps with
  | [] => 0
  | cp :: rest => if can_encode out cp then 0 else 1 + run out rest
  end.

(** The first run of characters that the encoding does not have: where it
    starts and where it ends, [i] being the position of the head. *)
Fixpoint first_bad (out : Console) (cps : list Z) (i : Z) : option (Z * Z) :=
  match cps with
  | [] => None
  | cp :: rest =>
      if can_encode out cp then first_bad out rest (i + 1)
      else Some (i, i + 1 + run out rest)
  end.

(** [sys.stdout.write(text)] *)
Definition write (out : Console) (text : string) : result unit :=
  match first_bad out (PyStr.code_points text) 0 with
  | None => inr tt
  | Some (start, stop) =>
      inl (UnicodeEncodeError (encoding out) text start stop (refusal out))
  end.

Definition utf8 : Console :=
  mkConsole "utf-8" (fun _ => true) "surrogates not allowed".

Definition latin1 : Console :=
  mkConsole "latin-1" (fun cp => cp <? 0x100) "ordinal not in range(256)".

Definition ascii : Console :=
  mkConsole "ascii" (fun _ => false) "ordinal not in range(128)".

End Stdout.

Module Py.

(** Truth value of a JSON value used as a condition. *)
Definition truthy (j : json) : bool :=
  match j with
  | JNull => false
  | JBool b => b
  | JNum n => negb (n =? 0)
  | JStr s => negb (PyStr.is_empty s)
  | JArr l => match l with [] => false | _ :: _ => true end
  | JObj m => match m with [] => false | _ :: _ => true end
  end.

Fixpoint assoc {A : Type} (k : string) (m : list (string * A)) : option A :=
  match m with
  | [] => None
  | (k', v) :: rest => if String.eqb k' k then Some v else assoc k rest
  end.

Definition type_name (j : json) : string :=
  match j with
  | JNull => "NoneType"
  | JBool _ => "bool"
  | JNum _ => "int"
  | JStr _ => "str"
  | JArr _ => "list"
  | JObj _ => "dict"
  end.

(** [j[key]] with a string key. *)
Definition getitem (j : json) (key : string) : result json :=
  match j with
  | JObj m =>
      match assoc key m with
      | Some v => inr v
      | None => inl (KeyError key)
      end
  | JArr _ => inl (TypeError "list indices must be integers or slices, not str")
  | JStr _ => inl (TypeError "string indices must be integers, not 'str'")
  | _ => inl (TypeError ("'" ++ type_name j ++ "' object is not subscriptable"))
  end.

(** [j.get(key)]: [None] when the key is absent. *)
Definition get (j : json) (key : string) : result (option json) :=
  match j with
  | JObj m => inr (assoc key m)
  | _ => inl (AttributeError
                ("'" ++ type_name j ++ "' object has no attribute 'get'"))
  end.

(** [j.get(key, default)] *)
Definition get_default (j : json) (key : string) (default : json)
  : result json :=
  match get j key with
  | inl e => inl e
  | inr (Some v) => inr v
  | inr None => inr default
  end.

End Py.

(** ** class CopyStatistics *)

Record CopyStatistics : Type := mkStats {
  successful_copies : list (string * string * Z);
  failed_copies : list (string * string * string);
  total_documents : Z;
  start_time : option Z;   (* datetime, in microseconds *)
  end_time : option Z
}.

Module Stats.

(** [__init__] *)
Definition init : CopyStatistics := mkStats [] [] 0 None None.

Definition add_success (source target : string) (doc_count : Z)
  (self : CopyStatistics) : CopyStatistics :=
  mkStats (successful_copies self ++ [(source, target, doc_count)])
          (failed_copies self)
          (total_documents self + doc_count)
          (start_time self) (end_time self).

Definition add_failure (source target error : string)
  (self : CopyStatistics) : CopyStatistics :=
  mkStats (successful_copies self)
          (failed_copies self ++ [(source, target, error)])
          (total_documents self)
          (start_time self) (end_time self).

(** [start] and [finish] read the clock; [now] is that reading. *)
Definition start (now : Z) (self : CopyStatistics) : CopyStatistics :=
  mkStats (successful_copies self) (failed_copies self)
          (total_documents self) (Some now) (end_time self).

Definition finish (now : Z) (self : CopyStatistics) : CopyStatistics :=
  mkStats (successful_copies self) (failed_copies self)
          (total_documents self) (start_time self) (Some now).

(** [str(timedelta)] for a difference of [us] microseconds:
    normalised to days, seconds in [0, 86400) and microseconds in
    [0, 10^6), printed as [[D day[s], ]H:MM:SS[.UUUUUU]]. *)
Definition str_timedelta (us : Z) : string :=
  let day_us := 86400000000 in
  let days := us / day_us in
  let rem := us mod day_us in
  let seconds := rem / 1000000 in
  let micros := rem mod 1000000 in
  let mm := seconds / 60 in
  let ss := seconds mod 60 in
  let hh := mm / 60 in
  let mm := mm mod 60 in
  let s := PyStr.of_int hh ++ ":" ++ PyStr.pad0 2 (Z.to_N mm)
           ++ ":" ++ PyStr.pad0 2 (Z.to_N ss) in
  let s := if days =? 0 then s
           else PyStr.of_int days ++ " day"
                ++ (if Z.abs days =? 1 then "" else "s") ++ ", " ++ s in
  if micros =? 0 then s else s ++ "." ++ PyStr.pad0 6 (Z.to_N micros).

(** [self.end_time - self.start_time] *)
Definition duration (self : CopyStatistics) : result Z :=
  match end_time self, start_time self with
  | Some e, Some s => inr (e - s)
  | Some _, None =>
      inl (TypeError "unsupported operand type(s) for -: 'datetime.datetime' and 'NoneType'")
  | None, Some _ =>
      inl (TypeError "unsupported operand type(s) for -: 'NoneType' and 'datetime.datetime'")
  | None, None =>
      inl (TypeError "unsupported operand type(s) for -: 'NoneType' and 'NoneType'")
  end.

Definition arrow : string := "→".

Definition success_line (c : string * string * Z) : string :=
  let '(source, target, count) := c in
  "  - " ++ source ++ " " ++ arrow ++ " " ++ target
  ++ " (" ++ PyStr.format_commas count ++ " documents)".

Definition failure_lines (c : string * string * string) : list string :=
  let '(source, target, error) := c in
  [ "  - " ++ source ++ " " ++ arrow ++ " " ++ target;
    "    Error: " ++ error ].

(** The list [summary] of the method, before the final join. *)
Definition summary_lines (d : Z) (self : CopyStatistics) : list string :=
  [ PyStr.newline ++ "Copy Operation Summary:";
    "Duration: " ++ str_timedelta d;
    "Total Documents Copied: " ++ PyStr.format_commas (total_documents self);
    "Successful Copies: "
      ++ PyStr.of_int (Z.of_nat (length (successful_copies self)));
    "Failed Copies: "
      ++ PyStr.of_int (Z.of_nat (length (failed_copies self))) ]
  ++ match successful_copies self with
     | [] => []
     | l => (PyStr.newline ++ "Successful Operations:") :: map success_line l
     end
  ++ match failed_copies self with
     | [] => []
     | l => (PyStr.newline ++ "Failed Operations:") :: flat_map failure_lines l
     end.

Definition summary (self : CopyStatistics) : result string :=
  match duration self with
  | inl e => inl e
  | inr d => inr (PyStr.join PyStr.newline (summary_lines d self))
  end.

(** The calls a client can make on the collector. *)
Inductive op : Type :=
| AddSuccess (source target : string) (doc_count : Z)
| AddFailure (source target error : string)
| Start (now : Z)
| Finish (now : Z).

Definition apply (self : CopyStatistics) (o : op) : CopyStatistics :=
  match o with
  | AddSuccess s t n => add_success s t n self
  | AddFailure s t e => add_failure s t e self
  | Start now => start now self
  | Finish now => finish now self
  end.

Definition run (ops : list op) : CopyStatistics := fold_left apply ops init.

Definition sum_documents (l : list (string * string * Z)) : Z :=
  fold_right (fun c acc => snd c + acc) 0 l.

Definition is_start (o : op) : bool :=
  match o with Start _ => true | _ => false end.

Definition is_finish (o : op) : bool :=
  match o with Finish _ => true | _ => false end.

Definition successes (ops : list op) : list (string * string * Z) :=
  flat_map (fun o => match o with
                     | AddSuccess s t n => [(s, t, n)]
                     | _ => []
                     end) ops.

(** The invariant of the collector. *)
Definition consistent (cs : CopyStatistics) : Prop :=
  total_documents cs = sum_documents (successful_copies cs).

End Stats.

(** ** parse_index_mapping *)

Module IndexMap.

(** [Dict[str, str]]: keys are unique and keep their insertion order. *)
Definition t : Type := list (string * string).

(** [index_map[k] = v]: an existing key keeps its place and takes the new
    value, a new key goes to the end. *)
Fixpoint set (k v : string) (m : t) : t :=
  match m with
  | [] => [(k, v)]
  | (k', v') :: rest =>
      if String.eqb k' k then (k, v) :: rest else (k', v') :: set k v rest
  end.

(** One round of the [for] loop: the pair that the entry contributes.
    [source, target = index_pair.strip().split(':')] raises [ValueError]
    unless the split has exactly two parts. *)
Definition entry_pair (index_pair : string) : result (string * string) :=
  if PyStr.contains ":" index_pair then
    match PyStr.split ":" (PyStr.strip index_pair) with
    | [source; target] => inr (PyStr.strip source, PyStr.strip target)
    | [] | [_] =>
        inl (ValueError "not enough values to unpack (expected 2, got 1)")
    | _ => inl (ValueError "too many values to unpack (expected 2)")
    end
  else inr (PyStr.strip index_pair, PyStr.strip index_pair).

Fixpoint loop (entries : list string) (index_map : t) : result t :=
  match entries with
  | [] => inr index_map
  | index_pair :: rest =>
      match entry_pair index_pair with
      | inl e => inl e
      | inr (source, target) => loop rest (set source target index_map)
      end
  end.

Definition parse_index_mapping (indices_str : string) : result t :=
  if PyStr.is_empty indices_str then inr []
  else loop (PyStr.split "," indices_str) [].

End IndexMap.

(** ** The HTTP transport and the effects of the copier *)

Inductive method : Type := GET | PUT | POST | DELETE.

(** [HTTPBasicAuth(username, password)] *)
Record HTTPBasicAuth : Type := mkAuth { username : string; password : string }.

(** The body of a request: none, [json=...], or [data=...] where the data is
    a newline-delimited sequence of JSON documents (one list element per
    line, each printed by [json.dumps]). *)
Inductive payload : Type :=
| NoBody
| JsonBody (j : json)
| DataBody (lines : list json).

Record request : Type := mkRequest {
  rq_method : method;
  rq_url : string;
  rq_auth : HTTPBasicAuth;
  rq_headers : list (string * string);
  rq_body : payload
}.

(** The outcome of one call of the transport: an exception of the
    [RequestException] family, or a response. *)
Inductive reply : Type :=
| Fails (msg : string) (response : option Response)
| Returns (r : Response).

Inductive level : Type := INFO | WARNING | ERROR.

Inductive event : Type :=
| Call (rq : request) (rp : reply)
| Log (lvl : level) (msg : string).

Record state : Type := mkWorld {
  script : list reply;       (* the answers the transport has yet to give *)
  trace : list event;        (* what happened so far, oldest first *)
  stats : CopyStatistics;    (* [self.stats] *)
  stdout : Console           (* [sys.stdout] *)
}.

(** A state on a console that takes every text (UTF-8): the states of the
    properties of code that prints nothing a console could refuse. *)
Definition mkState (sc : list reply) (tr : list event) (cs : CopyStatistics)
  : state :=
  mkWorld sc tr cs Stdout.utf8.

Module Eff.

Definition M (A : Type) : Type := state -> result A * state.

Definition ret {A} (a : A) : M A := fun st => (inr a, st).

Definition bind {A B} (c : M A) (k : A -> M B) : M B :=
  fun st =>
    match c st with
    | (inl e, st') => (inl e, st')
    | (inr a, st') => k a st'
    end.

Definition raise {A} (e : exn) : M A := fun st => (inl e, st).

Definition lift {A} (r : result A) : M A := fun st => (r, st).

(** [try: body except Exception as e: handler(e)] *)
Definition catch {A} (body : M A) (handler : exn -> M A) : M A :=
  fun st =>
    match body st with
    | (inl e, st') => handler e st'
    | (inr a, st') => (inr a, st')
    end.

(** [try: body except requests.exceptions.RequestException as e: handler(e)] *)
Definition catch_request {A} (body : M A) (handler : exn -> M A) : M A :=
  catch body (fun e => if is_request_exception e then handler e else raise e).

Definition emit (ev : event) : M unit :=
  fun st =>
    (inr tt, mkWorld (script st) (trace st ++ [ev]) (stats st) (stdout st)).

Definition log (lvl : level) (msg : string) : M unit := emit (Log lvl msg).

Definition modify_stats (f : CopyStatistics -> CopyStatistics) : M unit :=
  fun st =>
    (inr tt, mkWorld (script st) (trace st) (f (stats st)) (stdout st)).

(** [print(text)]: the text goes to the console, which is not part of the
    trace; the call raises when the console cannot encode the text. *)
Definition print (text : string) : M unit :=
  fun st => (Stdout.write (stdout st) text, st).

(** What the caller sees of a reply. *)
Definition deliver (rp : reply) : result Response :=
  match rp with
  | Fails msg response => inl (RequestException msg response)
  | Returns r => inr r
  end.

(** The answer of a transport whose script has run out: a connection
    error. *)
Definition aborted : exn := RequestException "Connection aborted." None.

Definition exhausted : reply := Fails "Connection aborted." None.

(** [requests.request(...)]: the next scripted answer. *)
Definition http (rq : request) : M Response :=
  fun st =>
    match script st with
    | [] => (inl aborted,
             mkWorld [] (trace st ++ [Call rq exhausted]) (stats st)
                     (stdout st))
    | rp :: rest => (deliver rp,
                     mkWorld rest (trace st ++ [Call rq rp]) (stats st)
                             (stdout st))
    end.

End Eff.

Declare Scope eff_scope.
Delimit Scope eff_scope with eff.
Notation "x <- c ;; k" := (Eff.bind c (fun x => k))
  (at level 61, c at next level, right associativity) : eff_scope.
Notation "' pat <- c ;; k" := (Eff.bind c (fun x => match x with pat => k end))
  (at level 61, pat pattern, c at next level, right associativity) : eff_scope.
Notation "c ;;; k" := (Eff.bind c (fun _ => k))
  (at level 61, right associativity) : eff_scope.

Module Http.

(** [response.raise_for_status()]: an [HTTPError] carrying the response for
    a status in 400..599, nothing otherwise. *)
Definition raise_for_status (r : Response) : result unit :=
  let s := status_code r in
  if (400 <=? s) && (s <? 500) then
    inl (RequestException
           (PyStr.of_int s ++ " Client Error: " ++ reason r
            ++ " for url: " ++ resp_url r) (Some r))
  else if (500 <=? s) && (s <? 600) then
    inl (RequestException
           (PyStr.of_int s ++ " Server Error: " ++ reason r
            ++ " for url: " ++ resp_url r) (Some r))
  else inr tt.

(** [response.json()]: [requests.exceptions.JSONDecodeError] when the text
    is not a JSON document. *)
Definition json_of (r : Response) : result json :=
  match body_json r with
  | Some j => inr j
  | None => inl (RequestException
                   "Expecting value: line 1 column 1 (char 0)" None)
  end.

End Http.

(** ** The scroll loop, as both scripts have it *)

Module Scroll.

(** The two lines that one hit adds to [bulk_body]. *)
Definition hit_lines (index : string) (hit : json) : result (list json) :=
  bind_result (Py.getitem hit "_id") (fun id =>
  let action := JObj [("index", JObj [("_index", JStr index); ("_id", id)])] in
  bind_result (Py.getitem hit "_source") (fun source =>
  inr [action; source])).

Fixpoint bulk_lines (index : string) (hits : list json) : result (list json) :=
  match hits with
  | [] => inr []
  | hit :: rest =>
      bind_result (hit_lines index hit) (fun l =>
      bind_result (bulk_lines index rest) (fun ls =>
      inr (l ++ ls)%list))
  end.

(** [for hit in hits: ...]: the whole of [bulk_body].  A value that is true
    but is not a list cannot be walked hit by hit. *)
Definition bulk_body (index : string) (hits : json) : result (list json) :=
  match hits with
  | JArr l => bulk_lines index l
  | JStr _ => inl (TypeError "string indices must be integers, not 'str'")
  | JObj _ => inl (TypeError "string indices must be integers, not 'str'")
  | _ => inl (TypeError ("'" ++ Py.type_name hits ++ "' object is not iterable"))
  end.

(** [len(hits)] *)
Definition len (hits : json) : Z :=
  match hits with
  | JArr l => Z.of_nat (length l)
  | JObj m => Z.of_nat (length m)
  | JStr s => Z.of_nat (String.length s)
  | _ => 0
  end.

(** [scroll_id = response.json()['_scroll_id']] and
    [hits = response.json()['hits']['hits']], after [raise_for_status]. *)
Definition read_page (response : Response) : result (json * json) :=
  bind_result (Http.raise_for_status response) (fun _ =>
  bind_result (Http.json_of response) (fun j =>
  bind_result (Py.getitem j "_scroll_id") (fun scroll_id =>
  bind_result (Http.json_of response) (fun j' =>
  bind_result (Py.getitem j' "hits") (fun h =>
  bind_result (Py.getitem h "hits") (fun hits =>
  inr (scroll_id, hits))))))).

Definition open_request (host : string) (auth : HTTPBasicAuth)
  (hdrs : list (string * string)) (index : string) (size : Z) : request :=
  mkRequest POST (host ++ "/" ++ index ++ "/_search?scroll=5m") auth hdrs
            (JsonBody (JObj [("size", JNum size);
                             ("query", JObj [("match_all", JObj [])])])).

Definition next_page_request (host : string) (auth : HTTPBasicAuth)
  (hdrs : list (string * string)) (scroll_id : json) : request :=
  mkRequest POST (host ++ "/_search/scroll") auth hdrs
            (JsonBody (JObj [("scroll", JStr "5m"); ("scroll_id", scroll_id)])).

Definition close_request (host : string) (auth : HTTPBasicAuth)
  (hdrs : list (string * string)) (scroll_id : json) : request :=
  mkRequest DELETE (host ++ "/_search/scroll") auth hdrs
            (JsonBody (JObj [("scroll_id", scroll_id)])).

Definition bulk_request (host : string) (auth : HTTPBasicAuth)
  (hdrs : list (string * string)) (lines : list json) : request :=
  mkRequest POST (host ++ "/_bulk") auth hdrs (DataBody lines).

Section Loop.

(** The requests of one round, and what the script does with the answer
    to the bulk request: [check] gives the exception raised while the
    answer is read, if any, and what is logged. *)
Variable bulk_rq : list json -> request.
Variable next_rq : json -> request.
Variable check : Response -> result unit * list event.
Variable index : string.

(** [while hits: ...] of [reindex_data].  Every round takes two answers of
    the transport, so the loop is a recursion on the script; [tr] is the
    trace so far.  The result is the exception that left the loop, or
    [(scroll_id, total_docs)] at its normal end, with the script that is
    left and the trace. *)
Fixpoint page_loop (sc : list reply) (tr : list event)
  (scroll_id hits : json) (total_docs : Z) {struct sc}
  : result (json * Z) * list reply * list event :=
  if negb (Py.truthy hits) then (inr (scroll_id, total_docs), sc, tr)
  else
    match bulk_body index hits with
    | inl e => (inl e, sc, tr)
    | inr lines =>
        let bulk := bulk_rq lines in
        match sc with
        | [] => (inl Eff.aborted, [], (tr ++ [Call bulk Eff.exhausted])%list)
        | rp1 :: sc1 =>
            let tr1 := (tr ++ [Call bulk rp1])%list in
            match Eff.deliver rp1 with
            | inl e => (inl e, sc1, tr1)
            | inr response =>
                match check response with
                | (inl e, evs) => (inl e, sc1, (tr1 ++ evs)%list)
                | (inr _, evs) =>
                    let total_docs' := total_docs + len hits in
                    let next := next_rq scroll_id in
                    match sc1 with
                    | [] =>
                        (inl Eff.aborted, [],
                         (tr1 ++ evs ++ [Call next Eff.exhausted])%list)
                    | rp2 :: sc2 =>
                        let tr2 := (tr1 ++ evs ++ [Call next rp2])%list in
                        match bind_result (Eff.deliver rp2) read_page with
                        | inl e => (inl e, sc2, tr2)
                        | inr (scroll_id', hits') =>
                            page_loop sc2 tr2 scroll_id' hits' total_docs'
                        end
                    end
                end
            end
        end
    end.

(** The loop as a step of the effectful program. *)
Definition run_page_loop (scroll_id hits : json) : Eff.M (json * Z) :=
  fun st =>
    let '(r, sc, tr) := page_loop (script st) (trace st) scroll_id hits 0 in
    (r, mkWorld sc tr (stats st) (stdout st)).

(** The body of [reindex_data]: open the scroll, run the loop, release the
    scroll, return the total. *)
Variable open_rq : request.
Variable close_rq : json -> request.

Definition scroll_copy : Eff.M Z :=
  Eff.bind (Eff.http open_rq) (fun response =>
  Eff.bind (Eff.lift (read_page response)) (fun first =>
  Eff.bind (run_page_loop (fst first) (snd first)) (fun last =>
  Eff.bind (Eff.http (close_rq (fst last))) (fun _ =>
  Eff.ret (snd last))))).

End Loop.

End Scroll.

(** ** class ElasticsearchCopier *)

Record ElasticsearchCopier : Type := mkCopier {
  source_host : string;
  dest_host : string;
  source_auth : HTTPBasicAuth;
  dest_auth : HTTPBasicAuth;
  headers : list (string * string);
  batch_size : Z;
  total_fields_limit : option Z
}.

Module Copier.

Local Open Scope eff_scope.

(** [__init__]; the statistics object lives in the state. *)
Definition init (source_host dest_host : string)
  (source_auth dest_auth : string * string)
  (batch_size : Z) (total_fields_limit : option Z) : ElasticsearchCopier :=
  mkCopier (PyStr.rstrip_char "/" source_host)
           (PyStr.rstrip_char "/" dest_host)
           (mkAuth (fst source_auth) (snd source_auth))
           (mkAuth (fst dest_auth) (snd dest_auth))
           [("Content-Type", "application/json")]
           batch_size total_fields_limit.

(** [resp.json()[index_name][key]] *)
Definition index_part (r : Response) (index_name key : string) : result json :=
  bind_result (Http.json_of r) (fun j =>
  bind_result (Py.getitem j index_name) (fun i =>
  Py.getitem i key)).

Definition settings_request (self : ElasticsearchCopier) (index_name : string)
  : request :=
  mkRequest GET (source_host self ++ "/" ++ index_name ++ "/_settings")
            (source_auth self) [] NoBody.

Definition mapping_request (self : ElasticsearchCopier) (index_name : string)
  : request :=
  mkRequest GET (source_host self ++ "/" ++ index_name ++ "/_mapping")
            (source_auth self) [] NoBody.

Definition get_source_index_info (self : ElasticsearchCopier)
  (index_name : string) : Eff.M (json * json) :=
  Eff.catch_request
    (settings_response <- Eff.http (settings_request self index_name) ;;
     Eff.lift (Http.raise_for_status settings_response) ;;;
     mappings_response <- Eff.http (mapping_request self index_name) ;;
     Eff.lift (Http.raise_for_status mappings_response) ;;;
     settings <- Eff.lift (index_part settings_response index_name "settings") ;;
     mappings <- Eff.lift (index_part mappings_response index_name "mappings") ;;
     Eff.log INFO ("Retrieved settings and mappings for index: " ++ index_name) ;;;
     Eff.ret (settings, mappings))
    (fun e =>
       Eff.log ERROR ("Error getting index info: " ++ str_exn e) ;;;
       Eff.raise e).

(** [source_settings.get("index", {}).get(key, default)] *)
Definition index_setting (source_settings : json) (key : string) (default : json)
  : result json :=
  bind_result (Py.get_default source_settings "index" (JObj [])) (fun idx =>
  Py.get_default idx key default).

(** [source_settings.get("index", {}).get("mapping", {}).get("total_fields.limit")] *)
Definition source_total_fields (source_settings : json) : result (option json) :=
  bind_result (index_setting source_settings "mapping" (JObj [])) (fun mp =>
  Py.get mp "total_fields.limit").

Definition limit_entry (limit : json) : string * json :=
  ("mapping", JObj [("total_fields", JObj [("limit", limit)])]).

(** The [if]/[elif] on [self.total_fields_limit]: the member to add to
    [settings["index"]], if any. *)
Definition limit_members (total_fields_limit : option Z)
  (source_total : option json) : list (string * json) :=
  match total_fields_limit with
  | None => []
  | Some n =>
      if n =? -1 then
        match source_total with
        | Some v => if Py.truthy v then [limit_entry v] else []
        | None => []
        end
      else if negb (n =? 0) && (n >? 0) then [limit_entry (JNum n)]
      else []
  end.

(** The dictionary [settings] that [create_index_with_settings] computes
    between the delete and the create requests. *)
Definition destination_settings (total_fields_limit : option Z)
  (source_settings : json) : result json :=
  bind_result (source_total_fields source_settings) (fun source_total =>
  bind_result (index_setting source_settings "number_of_shards" (JStr "1"))
    (fun shards =>
  bind_result (index_setting source_settings "number_of_replicas" (JStr "1"))
    (fun replicas =>
  inr (JObj [("index",
              JObj ([("number_of_shards", shards);
                     ("number_of_replicas", replicas)]
                    ++ limit_members total_fields_limit source_total))])))).

Definition delete_index_request (self : ElasticsearchCopier)
  (target_index : string) : request :=
  mkRequest DELETE (dest_host self ++ "/" ++ target_index) (dest_auth self)
            [] NoBody.

Definition create_index_request (self : ElasticsearchCopier)
  (target_index : string) (config : json) : request :=
  mkRequest PUT (dest_host self ++ "/" ++ target_index) (dest_auth self)
            (headers self) (JsonBody config).

Definition create_index_with_settings (self : ElasticsearchCopier)
  (source_index target_index : string) (source_settings source_mappings : json)
  : Eff.M json :=
  Eff.catch_request
    (Eff.http (delete_index_request self target_index) ;;;
     Eff.log INFO ("Deleted existing index: " ++ target_index))
    (fun _ => Eff.ret tt) ;;;
  settings <- Eff.lift (destination_settings (total_fields_limit self)
                                             source_settings) ;;
  let config := JObj [("settings", settings); ("mappings", source_mappings)] in
  Eff.catch_request
    (response <- Eff.http (create_index_request self target_index config) ;;
     Eff.lift (Http.raise_for_status response) ;;;
     Eff.log INFO ("Created index " ++ target_index
                   ++ " with settings and mappings") ;;;
     Eff.lift (Http.json_of response))
    (fun e =>
       Eff.log ERROR ("Error creating index: " ++ str_exn e) ;;;
       Eff.raise e).

(** The [if]/[else] after the bulk request: what is logged, and the
    exception if reading the answer raises.  The call
    [logger.warning("Bulk operation had errors:", dump)] is recorded with its
    message. *)
Definition check_bulk (response : Response) : result unit * list event :=
  if negb (status_code response =? 200) then
    (inr tt, [Log ERROR ("Error in bulk operation: " ++ text response)])
  else
    match Http.json_of response with
    | inl e => (inl e, [])
    | inr resp_json =>
        match Py.get_default resp_json "errors" (JBool false) with
        | inl e => (inl e, [])
        | inr flag =>
            if Py.truthy flag
            then (inr tt, [Log WARNING "Bulk operation had errors:"])
            else (inr tt, [])
        end
    end.

Definition bulk_request (self : ElasticsearchCopier) : list json -> request :=
  Scroll.bulk_request (dest_host self) (dest_auth self) (headers self).

Definition next_page_request (self : ElasticsearchCopier) : json -> request :=
  Scroll.next_page_request (source_host self) (source_auth self) (headers self).

Definition open_request (self : ElasticsearchCopier) (source_index : string)
  : request :=
  Scroll.open_request (source_host self) (source_auth self) (headers self)
                      source_index (batch_size self).

Definition close_request (self : ElasticsearchCopier) : json -> request :=
  Scroll.close_request (source_host self) (source_auth self) (headers self).

(** The [while] loop of [reindex_data]. *)
Definition page_loop (self : ElasticsearchCopier) (target_index : string) :=
  Scroll.page_loop (bulk_request self) (next_page_request self) check_bulk
                   target_index.

Definition reindex_data (self : ElasticsearchCopier)
  (source_index target_index : string) : Eff.M Z :=
  Eff.catch_request
    (Scroll.scroll_copy (bulk_request self) (next_page_request self)
                        check_bulk target_index
                        (open_request self source_index) (close_request self))
    (fun e =>
       Eff.log ERROR ("Error during reindexing: " ++ str_exn e) ;;;
       Eff.raise e).

(** The [except Exception as e] block of [copy_index].  [e.response.text]
    is read whenever [e] has the attribute [response]; when that attribute
    is [None] the read raises [AttributeError] and the block is left there. *)
Definition copy_index_handler (source_index target_index : string) (e : exn)
  : Eff.M unit :=
  error_msg <-
    (if has_response_attr e then
       match response_of e with
       | Some r =>
           Eff.ret (str_exn e ++ PyStr.newline ++ "Response: " ++ text r)
       | None =>
           Eff.raise (AttributeError
                        "'NoneType' object has no attribute 'text'")
       end
     else Eff.ret (str_exn e)) ;;
  Eff.modify_stats (Stats.add_failure source_index target_index error_msg) ;;;
  Eff.log ERROR ("Error during copying: " ++ error_msg) ;;;
  Eff.raise e.

(** The text of the [print] that opens [copy_index]. *)
Definition announcement (source_index target_index : string) : string :=
  PyStr.newline ++ "Copying index: " ++ source_index ++ " " ++ Stats.arrow
  ++ " " ++ target_index.

(** [copy_index]: the [print], then the [try] statement.  The [print]
    stands before the [try]: an exception of the console leaves
    [copy_index] before anything is requested or recorded. *)
Definition copy_index_try (self : ElasticsearchCopier)
  (source_index target_index : string) : Eff.M unit :=
  Eff.catch
    ('(settings, mappings) <- get_source_index_info self source_index ;;
     create_index_with_settings self source_index target_index
                                settings mappings ;;;
     total_docs <- reindex_data self source_index target_index ;;
     Eff.modify_stats (Stats.add_success source_index target_index total_docs))
    (copy_index_handler source_index target_index).

Definition copy_index (self : ElasticsearchCopier)
  (source_index target_index : string) : Eff.M unit :=
  Eff.print (announcement source_index target_index) ;;;
  copy_index_try self source_index target_index.

(** The [for] loop of [main] over [index_map.items()]: an exception of
    [copy_index] is logged and the loop goes on. *)
Fixpoint copy_all (self : ElasticsearchCopier) (index_map : IndexMap.t)
  : Eff.M unit :=
  match index_map with
  | [] => Eff.ret tt
  | (source_index, target_index) :: rest =>
      Eff.catch
        (copy_index self source_index target_index)
        (fun e =>
           Eff.log ERROR ("Error copying index " ++ source_index ++ " to "
                          ++ target_index ++ ": " ++ str_exn e)) ;;;
      copy_all self rest
  end.

(** The end of [main], from [copier.stats.start()] to the summary that is
    printed; [t0] and [t1] are the two readings of the clock. *)
Definition run_copies (self : ElasticsearchCopier) (index_map : IndexMap.t)
  (t0 t1 : Z) : Eff.M string :=
  Eff.modify_stats (Stats.start t0) ;;;
  copy_all self index_map ;;;
  Eff.modify_stats (Stats.finish t1) ;;;
  (fun st => (Stats.summary (stats st), st)).

End Copier.

(** ** class ElasticsearchMigration (elk-simple-copier.py) *)

Record ElasticsearchMigration : Type := mkMigration {
  m_source_host : string;
  m_dest_host : string;
  m_source_auth : HTTPBasicAuth;
  m_dest_auth : HTTPBasicAuth;
  m_headers : list (string * string)
}.

Module Migration.

Local Open Scope eff_scope.

Definition init (source_host dest_host : string)
  (source_auth dest_auth : string * string) : ElasticsearchMigration :=
  mkMigration (PyStr.rstrip_char "/" source_host)
              (PyStr.rstrip_char "/" dest_host)
              (mkAuth (fst source_auth) (snd source_auth))
              (mkAuth (fst dest_auth) (snd dest_auth))
              [("Content-Type", "application/json")].

(** This script reports on the console only, and has no [try] of its own
    around the requests. *)
Definition get_source_index_info (self : ElasticsearchMigration)
  (index_name : string) : Eff.M (json * json) :=
  settings_response <-
    Eff.http (mkRequest GET (m_source_host self ++ "/" ++ index_name ++ "/_settings")
                        (m_source_auth self) [] NoBody) ;;
  Eff.lift (Http.raise_for_status settings_response) ;;;
  mappings_response <-
    Eff.http (mkRequest GET (m_source_host self ++ "/" ++ index_name ++ "/_mapping")
                        (m_source_auth self) [] NoBody) ;;
  Eff.lift (Http.raise_for_status mappings_response) ;;;
  settings <- Eff.lift (Copier.index_part settings_response index_name "settings") ;;
  mappings <- Eff.lift (Copier.index_part mappings_response index_name "mappings") ;;
  Eff.ret (settings, mappings).

(** The dictionary [settings]: the limit is the constant 2000. *)
Definition destination_settings (source_settings : json) : result json :=
  bind_result (Copier.index_setting source_settings "number_of_shards" (JStr "1"))
    (fun shards =>
  bind_result (Copier.index_setting source_settings "number_of_replicas" (JStr "1"))
    (fun replicas =>
  inr (JObj [("index",
              JObj [("number_of_shards", shards);
                    ("number_of_replicas", replicas);
                    Copier.limit_entry (JNum 2000)])]))).

(** [try: requests.delete(...) except: pass], then the create request. *)
Definition create_index_with_settings (self : ElasticsearchMigration)
  (index_name : string) (source_settings source_mappings : json) : Eff.M json :=
  let url := m_dest_host self ++ "/" ++ index_name in
  Eff.catch
    (Eff.http (mkRequest DELETE url (m_dest_auth self) [] NoBody) ;;;
     Eff.ret tt)
    (fun _ => Eff.ret tt) ;;;
  settings <- Eff.lift (destination_settings source_settings) ;;
  let config := JObj [("settings", settings); ("mappings", source_mappings)] in
  response <- Eff.http (mkRequest PUT url (m_dest_auth self) (m_headers self)
                                  (JsonBody config)) ;;
  Eff.lift (Http.raise_for_status response) ;;;
  Eff.lift (Http.json_of response).

(** The [if]/[else] after the bulk request; both branches only print. *)
Definition check_bulk (response : Response) : result unit * list event :=
  if negb (status_code response =? 200) then (inr tt, [])
  else
    match Http.json_of response with
    | inl e => (inl e, [])
    | inr resp_json =>
        match Py.get_default resp_json "errors" (JBool false) with
        | inl e => (inl e, [])
        | inr _ => (inr tt, [])
        end
    end.

Definition bulk_request (self : ElasticsearchMigration) : list json -> request :=
  Scroll.bulk_request (m_dest_host self) (m_dest_auth self) (m_headers self).

Definition next_page_request (self : ElasticsearchMigration) : json -> request :=
  Scroll.next_page_request (m_source_host self) (m_source_auth self)
                           (m_headers self).

Definition close_request (self : ElasticsearchMigration) : json -> request :=
  Scroll.close_request (m_source_host self) (m_source_auth self)
                       (m_headers self).

(** [reindex_data(source_index, batch_size=1000)]; it returns [None]. *)
Definition reindex_data (self : ElasticsearchMigration)
  (source_index : string) (batch_size : Z) : Eff.M unit :=
  Scroll.scroll_copy (bulk_request self) (next_page_request self)
                     check_bulk source_index
                     (Scroll.open_request (m_source_host self)
                        (m_source_auth self) (m_headers self)
                        source_index batch_size)
                     (close_request self) ;;;
  Eff.ret tt.

(** [migrate_index]: the [except] block prints, reading [e.response.text]
    when [e] has the attribute [response], and raises again. *)
Definition migrate_index (self : ElasticsearchMigration) (index_name : string)
  : Eff.M unit :=
  Eff.catch
    ('(settings, mappings) <- get_source_index_info self index_name ;;
     create_index_with_settings self index_name settings mappings ;;;
     reindex_data self index_name 1000)
    (fun e =>
       if has_response_attr e then
         match response_of e with
         | Some _ => Eff.raise e
         | None =>
             Eff.raise (AttributeError
                          "'NoneType' object has no attribute 'text'")
         end
       else Eff.raise e).

End Migration.

(** ** Reading settings, and the fixtures of the examples *)

Module Settings.

Definition member (key : string) (j : json) : option json :=
  match j with JObj m => Py.assoc key m | _ => None end.

(** [settings["index"]["mapping"]["total_fields"]["limit"]], when every
    member on the way is there. *)
Definition field_limit (settings : json) : option json :=
  match member "index" settings with
  | Some idx =>
      match member "mapping" idx with
      | Some mp =>
          match member "total_fields" mp with
          | Some tf => member "limit" tf
          | None => None
          end
      | None => None
      end
  | None => None
  end.

(** Whether [settings["index"]] has the member ["mapping"] at all. *)
Definition has_field_limit_key (settings : json) : bool :=
  match member "index" settings with
  | Some idx =>
      match member "mapping" idx with Some _ => true | None => false end
  | None => false
  end.

(** Settings as a cluster returns them: an object whose member ["index"],
    if any, is an object whose member ["mapping"], if any, is an object. *)
Definition well_formed (source_settings : json) : bool :=
  match source_settings with
  | JObj m =>
      match Py.assoc "index" m with
      | None => true
      | Some (JObj mi) =>
          match Py.assoc "mapping" mi with
          | None | Some (JObj _) => true
          | Some _ => false
          end
      | Some _ => false
      end
  | _ => false
  end.

End Settings.

Module Fixture.

Definition ok (j : json) : reply :=
  Returns (mkResponse 200 "OK" "http://es" "{}" (Some j)).

Definition doc (id : string) : json :=
  JObj [("_id", JStr id); ("_source", JObj [("n", JStr id)])].

Definition page (scroll_id : string) (ids : list string) : reply :=
  ok (JObj [("_scroll_id", JStr scroll_id);
            ("hits", JObj [("hits", JArr (map doc ids))])]).

Definition settings_of (index : string) (settings : json) : reply :=
  ok (JObj [(index, JObj [("settings", settings)])]).

Definition mappings_of (index : string) : reply :=
  ok (JObj [(index, JObj [("mappings", JObj [])])]).

Definition copier (total_fields_limit : option Z) : ElasticsearchCopier :=
  Copier.init "http://source:9200/" "http://dest:9200"
              ("elastic", "s") ("elastic", "d") 1000 total_fields_limit.

Definition fresh (sc : list reply) : state := mkState sc [] Stats.init.

(** The no-break space U+00A0, which [strip] takes off as it does a
    blank. *)
Definition nbsp : string :=
  String (ascii_of_nat 194) (String (ascii_of_nat 160) EmptyString).

(** Answers to the create request: a client error, and a status that is
    neither a success nor an error for [raise_for_status]. *)
Definition bad_request : Response :=
  mkResponse 400 "Bad Request" "http://dest:9200/b"
             "{'error': 'mapper_parsing_exception'}" None.

Definition multiple_choices : Response :=
  mkResponse 300 "Multiple Choices" "http://dest:9200/b" "{}" (Some (JObj [])).

(** Source settings that declare a limit as a cluster returns it, and as
    the copier writes it: [index.mapping.total_fields.limit]. *)
Definition settings_nested_5000 : json :=
  JObj [("index",
         JObj [("number_of_shards", JStr "3");
               ("mapping",
                JObj [("total_fields", JObj [("limit", JStr "5000")])])])].

(** Source settings that declare a limit where the copier reads it. *)
Definition settings_5000 : json :=
  JObj [("index", JObj [("number_of_shards", JStr "3");
                        ("mapping", JObj [("total_fields.limit", JStr "5000")])])].

(** Answers of the two clusters used in the examples. *)
Definition server_error : Response :=
  mkResponse 500 "Internal Server Error" "http://dest:9200/_bulk"
             "{'error': 'es_rejected_execution_exception'}" None.

Definition scroll_lost : Response :=
  mkResponse 500 "Internal Server Error" "http://source:9200/_search/scroll"
             "{'error': 'search_context_missing_exception'}" None.

Definition bulk_ok : reply := ok (JObj [("errors", JBool false)]).

(** One document of the page was refused by the destination. *)
Definition bulk_partial : Response :=
  mkResponse 200 "OK" "http://dest:9200/_bulk" "{}"
    (Some (JObj [("errors", JBool true);
                 ("items",
                  JArr [JObj [("index", JObj [("_id", JStr "1");
                                              ("status", JNum 201)])];
                        JObj [("index", JObj [("_id", JStr "2");
                                              ("status", JNum 400);
                                              ("error", JStr "mapper_parsing_exception")])]])])).

(** A scroll of two pages, then the empty page, then the release. *)
Definition scroll_two_pages : list reply :=
  [page "s1" ["1"; "2"]; bulk_ok; page "s2" ["3"]; bulk_ok; page "s3" []; ok (JObj [])].

(** A scroll whose second fetch is refused by the source. *)
Definition scroll_fetch_fails : list reply :=
  [page "s1" ["1"]; bulk_ok; Returns scroll_lost].

(** The copy of index [a]: schema, then one page whose bulk request is
    answered 500, then the empty page and the release. *)
Definition copy_with_bulk_500 : list reply :=
  [settings_of "a" (JObj []); mappings_of "a"; ok (JObj []); ok (JObj []);
   page "s1" ["1"]; Returns server_error; page "s2" []; ok (JObj [])].

(** The copy of an index with one page, everything answered well. *)
Definition copy_clean (index : string) : list reply :=
  [settings_of index (JObj []); mappings_of index; ok (JObj []); ok (JObj []);
   page "s1" ["1"]; bulk_ok; page "s2" []; ok (JObj [])].

(** The source cannot be reached for the first request of index [a]; the
    copy of index [b] is answered well. *)
Definition first_unreachable : list reply :=
  Fails "Connection refused" None :: copy_clean "b".

End Fixture.

(** ** Reading a trace *)

Module Trace.

Definition is_log (ev : event) : bool :=
  match ev with Log _ _ => true | Call _ _ => false end.

(** The release of a scroll: the only [DELETE] sent with a JSON body. *)
Definition is_close_rq (rq : request) : bool :=
  match rq_method rq, rq_body rq with
  | DELETE, JsonBody _ => true
  | _, _ => false
  end.

Definition is_close (ev : event) : bool :=
  match ev with Call rq _ => is_close_rq rq | Log _ _ => false end.

(** A release that the transport did not carry out. *)
Definition close_failed (ev : event) : bool :=
  match ev with
  | Call rq (Fails _ _) => is_close_rq rq
  | _ => false
  end.

Definition count (p : event -> bool) (tr : list event) : nat :=
  length (filter p tr).

Definition sum (f : event -> Z) (tr : list event) : Z :=
  fold_right (fun ev acc => f ev + acc) 0 tr.

(** The documents of the page that a search or scroll request ([POST] with
    a JSON body) brought back. *)
Definition page_docs (ev : event) : Z :=
  match ev with
  | Call rq (Returns r) =>
      match rq_method rq, rq_body rq with
      | POST, JsonBody _ =>
          match Scroll.read_page r with
          | inr (_, hits) => Scroll.len hits
          | inl _ => 0
          end
      | _, _ => 0
      end
  | _ => 0
  end.

(** The documents of a bulk request ([POST] with data): two lines each. *)
Definition docs_sent (ev : event) : Z :=
  match ev with
  | Call rq _ =>
      match rq_method rq, rq_body rq with
      | POST, DataBody lines => Z.of_nat (length lines) / 2
      | _, _ => 0
      end
  | Log _ _ => 0
  end.

Definition source_docs : list event -> Z := sum page_docs.
Definition sent_docs : list event -> Z := sum docs_sent.

(** The page that a search or scroll request brought back, when the event
    is such a request and [read_page] takes its answer. *)
Definition page_of (ev : event) : list json :=
  match ev with
  | Call rq (Returns r) =>
      match rq_method rq, rq_body rq with
      | POST, JsonBody _ =>
          match Scroll.read_page r with
          | inr (_, hits) => [hits]
          | inl _ => []
          end
      | _, _ => []
      end
  | _ => []
  end.

(** The pages that the source returned, in order. *)
Definition pages (tr : list event) : list json := flat_map page_of tr.

(** The lines of a bulk request, when the event is one. *)
Definition bulk_of (ev : event) : list (list json) :=
  match ev with
  | Call rq _ =>
      match rq_method rq, rq_body rq with
      | POST, DataBody lines => [lines]
      | _, _ => []
      end
  | Log _ _ => []
  end.

(** What was sent to the destination: the lines of each bulk request, in
    order. *)
Definition bulk_bodies (tr : list event) : list (list json) :=
  flat_map bulk_of tr.

(** Events of the schema transfer: logger calls and requests that neither
    read a page, nor write documents, nor release a scroll. *)
Definition is_schema_event (ev : event) : bool :=
  match ev with
  | Log _ _ => true
  | Call rq _ =>
      match rq_method rq, rq_body rq with
      | GET, _ => true
      | PUT, _ => true
      | DELETE, NoBody => true
      | _, _ => false
      end
  end.

(** The requests of a trace, in order: method and URL. *)
Definition calls (tr : list event) : list (method * string) :=
  flat_map (fun ev => match ev with
                      | Call rq _ => [(rq_method rq, rq_url rq)]
                      | Log _ _ => []
                      end) tr.

(** A computation that only adds events of one kind to the trace and leaves
    the statistics alone. *)
Definition appends {A} (P : event -> bool) (c : Eff.M A) : Prop :=
  forall st,
    exists new,
      trace (snd (c st)) = (trace st ++ new)%list
      /\ Forall (fun ev => P ev = true) new
      /\ stats (snd (c st)) = stats st.

End Trace.

(** ** Observations used by the further properties *)

Module Observe.

(** The members of [settings["index"]]. *)
Definition index_members (settings : json) : list (string * json) :=
  match Settings.member "index" settings with
  | Some (JObj idx) => idx
  | _ => []
  end.

(** [source_settings.get("index", {}).get(key, default)], for settings
    whose ["index"] member, if any, is an object. *)
Definition source_value (source_settings : json) (key : string)
  (default : json) : json :=
  match Settings.member "index" source_settings with
  | Some idx =>
      match Settings.member key idx with
      | Some v => v
      | None => default
      end
  | None => default
  end.

Definition is_call (ev : event) : bool :=
  match ev with Call _ _ => true | Log _ _ => false end.

(** A bulk request: [POST] with data. *)
Definition is_bulk (ev : event) : bool :=
  match ev with
  | Call rq _ =>
      match rq_method rq, rq_body rq with
      | POST, DataBody _ => true
      | _, _ => false
      end
  | Log _ _ => false
  end.

(** The create request, answered with a status that [raise_for_status]
    lets through. *)
Definition is_created (ev : event) : bool :=
  match ev with
  | Call rq (Returns r) =>
      match rq_method rq with
      | PUT => negb ((400 <=? status_code r) && (status_code r <? 600))
      | _ => false
      end
  | _ => false
  end.

(** Events of the scroll: logger calls, [POST] requests and the release. *)
Definition is_scroll_event (ev : event) : bool :=
  match ev with
  | Log _ _ => true
  | Call rq _ =>
      match rq_method rq, rq_body rq with
      | POST, _ => true
      | DELETE, JsonBody _ => true
      | _, _ => false
      end
  end.

End Observe.

Module BulkFormat.

(** The action line of one document. *)
Definition action (index : string) (id : json) : json :=
  JObj [("index", JObj [("_index", JStr index); ("_id", id)])].

(** The two lines of a document given as (identifier, content). *)
Definition entry (index : string) (d : json * json) : list json :=
  [action index (fst d); snd d].

(** A hit that has both members, with those members. *)
Definition hit_is (hit : json) (d : json * json) : Prop :=
  Py.getitem hit "_id" = inr (fst d) /\ Py.getitem hit "_source" = inr (snd d).

(** The lines of a bulk request are those of a page: the page is a list of
    hits, and the lines are the two lines of each hit, once and in the order
    of the page. *)
Definition page_sent (index : string) (page : json) (lines : list json)
  : Prop :=
  exists hits docs,
    page = JArr hits
    /\ Forall2 hit_is hits docs
    /\ lines = flat_map (entry index) docs.

End BulkFormat.

Module Outcome.

(** What the [except] block of [copy_index] leaves in the statistics when
    the exception [raised] comes out of [copy_index]: the successes, the
    total and the times as before, and for the failures one of four cases:
    an exception with a response, recorded with the text of the response; an
    exception that is not of [requests], recorded with its text; nothing
    recorded, the exception raised being the [AttributeError] of the block
    itself; or nothing recorded, the exception being the one that the
    console raised at the announcement, before the [try]. *)
Definition failure_accounted (source target : string) (out : Console)
  (raised : exn) (before after : CopyStatistics) : Prop :=
  successful_copies after = successful_copies before
  /\ total_documents after = total_documents before
  /\ start_time after = start_time before
  /\ end_time after = end_time before
  /\ ((exists msg r,
          raised = RequestException msg (Some r)
          /\ failed_copies after
             = (failed_copies before
                ++ [(source, target,
                     (msg ++ PyStr.newline ++ "Response: " ++ text r)%string)])%list)
      \/ (is_request_exception raised = false
          /\ failed_copies after
             = (failed_copies before
                ++ [(source, target, str_exn raised)])%list)
      \/ (raised = AttributeError "'NoneType' object has no attribute 'text'"
          /\ failed_copies after = failed_copies before)
      \/ (Stdout.write out (Copier.announcement source target) = inl raised
          /\ failed_copies after = failed_copies before)).

End Outcome.

Module Text.

Definition not_comma (c : ascii) : bool := negb (Ascii.eqb c ",").

(** The text without its commas. *)
Definition remove_commas (s : string) : string :=
  string_of_list_ascii (filter not_comma (list_ascii_of_string s)).


End Text.

Module Count.

(** [s.count(ch)] *)
Fixpoint occurrences (ch : ascii) (s : string) : nat :=
  match s with
  | EmptyString => O
  | String c s' => ((if Ascii.eqb c ch then 1 else 0) + occurrences ch s')%nat
  end.

End Count.

Module Attempt.




(** A computation that only adds events of one kind to the trace. *)
Definition adds_only {A} (P : event -> bool) (c : Eff.M A) : Prop :=
  forall st,
    exists new,
      trace (snd (c st)) = (trace st ++ new)%list
      /\ Forall (fun ev => P ev = true) new.





End Attempt.

Module Legacy.



End Legacy.

(** ** main *)

Module Main.

(** [args], after [parse_args]. *)
Record Args : Type := mkArgs {
  arg_indices : option string;
  arg_batch_size : option Z;
  arg_total_fields_limit : option Z
}.

(** The environment after [load_dotenv]: the value of each variable, [None]
    when it is not set.  For the two numeric variables the value is given as
    what [int] makes of the text: a number, or the [ValueError] it raises. *)
Record Env : Type := mkEnv {
  SOURCE_HOST : option string;
  DEST_HOST : option string;
  SOURCE_USERNAME : option string;
  SOURCE_PASSWORD : option string;
  DEST_USERNAME : option string;
  DEST_PASSWORD : option string;
  INDICES : option string;
  BATCH_SIZE : option (result Z);
  TOTAL_FIELDS_LIMIT : option (result Z)
}.



(** [arg or int(os.getenv(name, default))]: the text of the environment is
    only read when the argument is [None] or 0. *)
Definition int_setting (arg : option Z) (env : option (result Z))
  (default : Z) : result Z :=
  let from_env := match env with Some r => r | None => inr default end in
  match arg with
  | Some n => if n =? 0 then from_env else inr n
  | None => from_env
  end.

Definition policy (args : Args) (env : Env) : result Z :=
  int_setting (arg_total_fields_limit args) (TOTAL_FIELDS_LIMIT env) 2000.


Local Open Scope eff_scope.


End Main.

(** * Properties *)

(** ** The statistics collector *)

Section StatsFacts.

Import Stats.

Lemma sum_documents_app l1 l2 :
  sum_documents (l1 ++ l2) = sum_documents l1 + sum_documents l2.
Proof.
  unfold sum_documents.
  induction l1 as [|c l1 IH]; simpl; [reflexivity|].
  rewrite IH. lia.
Qed.

Lemma apply_consistent cs o : consistent cs -> consistent (apply cs o).
Proof.
  unfold consistent.
  destruct o as [s t n|s t e|now|now]; simpl; intros H; try exact H.
  rewrite sum_documents_app, H. unfold sum_documents. simpl. lia.
Qed.

Lemma fold_consistent ops : forall cs,
  consistent cs -> consistent (fold_left apply ops cs).
Proof.
  induction ops as [|o ops IH]; simpl; intros cs H; [exact H|].
  apply IH, apply_consistent, H.
Qed.

Lemma fold_successes ops : forall cs,
  successful_copies (fold_left apply ops cs)
  = (successful_copies cs ++ successes ops)%list.
Proof.
  induction ops as [|o ops IH]; simpl; intros cs.
  - now rewrite app_nil_r.
  - rewrite IH. destruct o; simpl; try reflexivity.
    now rewrite <- app_assoc.
Qed.

Lemma fold_times ops : forall cs,
  (start_time cs <> None \/ existsb is_start ops = true ->
   start_time (fold_left apply ops cs) <> None)
  /\ (end_time cs <> None \/ existsb is_finish ops = true ->
      end_time (fold_left apply ops cs) <> None).
Proof.
  induction ops as [|o ops IH]; simpl; intros cs.
  - split; intros [H|H]; try exact H; discriminate.
  - destruct (IH (apply cs o)) as [IHs IHe].
    split; intros H.
    + apply IHs. destruct H as [H|H].
      * left. destruct o; simpl; try exact H; discriminate.
      * destruct o; simpl in *; try (right; exact H); left; discriminate.
    + apply IHe. destruct H as [H|H].
      * left. destruct o; simpl; try exact H; discriminate.
      * destruct o; simpl in *; try (right; exact H); left; discriminate.
Qed.

Lemma fold_times_unset ops : forall cs,
  (start_time cs = None -> existsb is_start ops = false ->
   start_time (fold_left apply ops cs) = None)
  /\ (end_time cs = None -> existsb is_finish ops = false ->
      end_time (fold_left apply ops cs) = None).
Proof.
  induction ops as [|o ops IH]; simpl; intros cs; [split; auto|].
  destruct (IH (apply cs o)) as [IHs IHe].
  split; intros Hcs H; apply orb_false_iff in H; destruct H as [Ho Hops].
  - apply IHs; [|exact Hops]. destruct o; simpl in *; try exact Hcs.
    discriminate.
  - apply IHe; [|exact Hops]. destruct o; simpl in *; try exact Hcs.
    discriminate.
Qed.

End StatsFacts.

(** C7.  Whatever the calls made on the collector, [total_documents] is the
    sum of the document counts of the recorded successes, which are the
    [add_success] calls in their order; and [add_failure] leaves
    [total_documents] as it was. *)
Theorem total_documents_sums_successes :
  forall ops : list Stats.op,
    total_documents (Stats.run ops)
    = Stats.sum_documents (successful_copies (Stats.run ops))
    /\ successful_copies (Stats.run ops) = Stats.successes ops
    /\ forall source target error,
         total_documents
           (Stats.add_failure source target error (Stats.run ops))
         = total_documents (Stats.run ops).
Proof.
  intros ops. split; [|split].
  - apply (fold_consistent ops Stats.init). reflexivity.
  - unfold Stats.run. now rewrite fold_successes.
  - reflexivity.
Qed.

(** C9, as the code has it.  Once [start] and [finish] have both been
    called, whatever else was called and in whatever order, [summary]
    returns its text.  On every collector on which [start] was never called
    or [finish] was never called, [summary] raises [TypeError], at the
    subtraction of the two times. *)
Theorem summary_returns_after_start_and_finish :
  forall ops : list Stats.op,
    (existsb Stats.is_start ops = true ->
     existsb Stats.is_finish ops = true ->
     exists report, Stats.summary (Stats.run ops) = inr report)
    /\ (existsb Stats.is_start ops = false
        \/ existsb Stats.is_finish ops = false ->
        exists msg, Stats.summary (Stats.run ops) = inl (TypeError msg)).
Proof.
  intros ops. split.
  - intros Hs Hf.
    destruct (fold_times ops Stats.init) as [Hst Hen].
    specialize (Hst (or_intror Hs)). specialize (Hen (or_intror Hf)).
    unfold Stats.summary, Stats.duration, Stats.run.
    destruct (end_time (fold_left Stats.apply ops Stats.init)) as [e|];
      [|contradiction].
    destruct (start_time (fold_left Stats.apply ops Stats.init)) as [s|];
      [|contradiction].
    eexists. reflexivity.
  - intros H.
    destruct (fold_times_unset ops Stats.init) as [Hst Hen].
    unfold Stats.summary, Stats.duration, Stats.run.
    destruct H as [H|H].
    + rewrite (Hst eq_refl H).
      destruct (end_time (fold_left Stats.apply ops Stats.init));
        eexists; reflexivity.
    + rewrite (Hen eq_refl H).
      destruct (start_time (fold_left Stats.apply ops Stats.init));
        eexists; reflexivity.
Qed.

Lemma summary_returns_after_start_and_finish_witness :
  let ops := [Stats.Start 0; Stats.AddFailure "a" "b" "boom";
              Stats.Finish 1500000] in
  let unfinished := [Stats.Start 0; Stats.AddSuccess "a" "b" 3] in
  (existsb Stats.is_start ops = true
   /\ existsb Stats.is_finish ops = true
   /\ exists report, Stats.summary (Stats.run ops) = inr report)
  /\ (existsb Stats.is_finish unfinished = false
      /\ exists msg, Stats.summary (Stats.run unfinished) = inl (TypeError msg)).
Proof.
  intros ops unfinished. split.
  - split; [reflexivity|split; [reflexivity|]].
    apply (proj1 (summary_returns_after_start_and_finish ops)); reflexivity.
  - split; [reflexivity|].
    apply (proj2 (summary_returns_after_start_and_finish unfinished)).
    right. reflexivity.
Defined.

(** C9, as the claim has it, fails: on a collector that was never started
    [summary] raises, at the subtraction of the two times. *)
Lemma summary_raises_on_fresh_collector :
  Stats.summary (Stats.run [])
  = inl (TypeError
           "unsupported operand type(s) for -: 'NoneType' and 'NoneType'").
Proof. reflexivity. Qed.

(** ** The work list *)

Section IndexMapFacts.

Import IndexMap.

Lemma assoc_set_same k v (m : t) : Py.assoc k (set k v m) = Some v.
Proof.
  induction m as [|[k' v'] m IH]; simpl.
  - now rewrite String.eqb_refl.
  - destruct (String.eqb_spec k' k) as [->|Hne]; simpl.
    + now rewrite String.eqb_refl.
    + destruct (String.eqb_spec k' k); [contradiction|exact IH].
Qed.

Lemma assoc_set_other k v x (m : t) :
  x <> k -> Py.assoc x (set k v m) = Py.assoc x m.
Proof.
  intros Hx. induction m as [|[k' v'] m IH]; simpl.
  - destruct (String.eqb_spec k x); [congruence|reflexivity].
  - destruct (String.eqb_spec k' k) as [->|Hne]; simpl.
    + destruct (String.eqb_spec k x); [congruence|reflexivity].
    + now rewrite IH.
Qed.

Lemma in_keys_set k v x (m : t) :
  In x (map fst (set k v m)) <-> x = k \/ In x (map fst m).
Proof.
  induction m as [|[k' v'] m IH]; simpl.
  - intuition.
  - destruct (String.eqb_spec k' k) as [->|Hne]; simpl; intuition.
Qed.

Lemma nodup_keys_set k v (m : t) :
  NoDup (map fst m) -> NoDup (map fst (set k v m)).
Proof.
  induction m as [|[k' v'] m IH]; simpl; intros H.
  - constructor; [intros []|constructor].
  - inversion H as [|? ? Hnin Hnd]; subst.
    destruct (String.eqb_spec k' k) as [->|Hne]; simpl.
    + constructor; assumption.
    + constructor; [|apply IH, Hnd].
      rewrite in_keys_set. intros [->|Hin]; [congruence|contradiction].
Qed.

Lemma loop_nodup entries : forall m0 m,
  loop entries m0 = inr m -> NoDup (map fst m0) -> NoDup (map fst m).
Proof.
  induction entries as [|e entries IH]; simpl; intros m0 m H Hnd.
  - now inversion H; subst.
  - destruct (entry_pair e) as [x|[s tg]]; [discriminate|].
    eapply IH; [exact H|]. now apply nodup_keys_set.
Qed.

(** Entries with another source leave the target of [k] alone. *)
Lemma loop_keeps k entries : forall m0 m,
  loop entries m0 = inr m ->
  (forall e s tg, In e entries -> entry_pair e = inr (s, tg) -> s <> k) ->
  Py.assoc k m = Py.assoc k m0.
Proof.
  induction entries as [|e entries IH]; simpl; intros m0 m H Hother.
  - now inversion H; subst.
  - destruct (entry_pair e) as [x|[s tg]] eqn:He; [discriminate|].
    rewrite (IH _ _ H).
    + apply assoc_set_other. intros ->.
      now apply (Hother e s tg (or_introl eq_refl) He).
    + intros e' s' t' Hin. apply Hother. now right.
Qed.

Lemma loop_last pre : forall e post src tgt m0 m,
  loop (pre ++ e :: post) m0 = inr m ->
  entry_pair e = inr (src, tgt) ->
  (forall e' s' t', In e' post -> entry_pair e' = inr (s', t') -> s' <> src) ->
  Py.assoc src m = Some tgt.
Proof.
  induction pre as [|p pre IH]; simpl; intros e post src tgt m0 m H He Hpost.
  - rewrite He in H.
    rewrite (loop_keeps src post _ _ H Hpost). apply assoc_set_same.
  - destruct (entry_pair p) as [x|[s tg]]; [discriminate|].
    eapply IH; eassumption.
Qed.

End IndexMapFacts.

(** C10.  When [parse_index_mapping] returns a work list for a
    specification: an entry without a colon contributes the pair of its
    trimmed text with itself; no source name occurs twice in the work list;
    and the target listed for a source is the one of the last entry with
    that source. *)
Theorem parse_index_mapping_pairs :
  forall (indices_str : string) (index_map : IndexMap.t),
    IndexMap.parse_index_mapping indices_str = inr index_map ->
    (forall entry,
        PyStr.contains ":" entry = false ->
        IndexMap.entry_pair entry = inr (PyStr.strip entry, PyStr.strip entry))
    /\ NoDup (map fst index_map)
    /\ (forall pre entry post source target,
          indices_str <> EmptyString ->
          PyStr.split "," indices_str = (pre ++ entry :: post)%list ->
          IndexMap.entry_pair entry = inr (source, target) ->
          (forall entry' source' target',
              In entry' post ->
              IndexMap.entry_pair entry' = inr (source', target') ->
              source' <> source) ->
          Py.assoc source index_map = Some target).
Proof.
  intros indices_str index_map H. split; [|split].
  - intros entry Hc. unfold IndexMap.entry_pair. now rewrite Hc.
  - unfold IndexMap.parse_index_mapping in H.
    destruct (PyStr.is_empty indices_str).
    + inversion H; subst. constructor.
    + eapply loop_nodup; [exact H|constructor].
  - intros pre entry post source target Hne Hsplit He Hpost.
    unfold IndexMap.parse_index_mapping in H.
    destruct indices_str as [|c rest]; [congruence|]. simpl PyStr.is_empty in H.
    cbv iota in H. rewrite Hsplit in H.
    eapply loop_last; eassumption.
Qed.

Lemma parse_index_mapping_pairs_witness :
  IndexMap.parse_index_mapping "logs, users:people ,logs:archive"
  = inr [("logs", "archive"); ("users", "people")]
  /\ IndexMap.entry_pair "logs" = inr ("logs", "logs")
  /\ NoDup (map fst [("logs", "archive"); ("users", "people")])
  /\ Py.assoc "logs" [("logs", "archive"); ("users", "people")]
     = Some "archive"
  /\ (let spaced := "x:1," ++ Fixture.nbsp ++ "x:2" in
      IndexMap.parse_index_mapping spaced = inr [("x", "2")]
      /\ Py.assoc "x" [("x", "2")] = Some "2").
Proof.
  assert (H : IndexMap.parse_index_mapping "logs, users:people ,logs:archive"
              = inr [("logs", "archive"); ("users", "people")])
    by reflexivity.
  destruct (parse_index_mapping_pairs _ _ H) as [Hplain [Hnd Hlast]].
  split; [exact H|split; [|split; [|split]]].
  - apply Hplain. reflexivity.
  - exact Hnd.
  - apply (Hlast ["logs"; " users:people "] "logs:archive" []).
    + discriminate.
    + reflexivity.
    + reflexivity.
    + intros ? ? ? [].
  - intros spaced.
    assert (Hs : IndexMap.parse_index_mapping spaced = inr [("x", "2")])
      by reflexivity.
    split; [exact Hs|].
    destruct (parse_index_mapping_pairs _ _ Hs) as [_ [_ Hlast']].
    apply (Hlast' ["x:1"] (Fixture.nbsp ++ "x:2") []).
    + discriminate.
    + reflexivity.
    + reflexivity.
    + intros ? ? ? [].
Defined.

(** ** Destination settings *)

Lemma well_formed_reads (ss : json) :
  Settings.well_formed ss = true ->
  exists lim shards replicas,
    Copier.source_total_fields ss = inr lim
    /\ Copier.index_setting ss "number_of_shards" (JStr "1") = inr shards
    /\ Copier.index_setting ss "number_of_replicas" (JStr "1") = inr replicas.
Proof.
  unfold Settings.well_formed, Copier.source_total_fields, Copier.index_setting,
    Py.get_default, Py.get, bind_result.
  destruct ss as [| | | | |m]; try discriminate.
  destruct (Py.assoc "index" m) as [[| | | | |mi]|]; try discriminate.
  - destruct (Py.assoc "mapping" mi) as [[| | | | |mm]|]; try discriminate;
      intros _;
      destruct (Py.assoc "number_of_shards" mi);
      destruct (Py.assoc "number_of_replicas" mi); simpl;
      do 3 eexists; repeat split; reflexivity.
  - intros _. simpl. do 3 eexists; repeat split; reflexivity.
Qed.

Lemma destination_settings_shape tfl ss lim shards replicas :
  Copier.source_total_fields ss = inr lim ->
  Copier.index_setting ss "number_of_shards" (JStr "1") = inr shards ->
  Copier.index_setting ss "number_of_replicas" (JStr "1") = inr replicas ->
  Copier.destination_settings tfl ss
  = inr (JObj [("index",
                JObj ([("number_of_shards", shards);
                       ("number_of_replicas", replicas)]
                      ++ Copier.limit_members tfl lim))]).
Proof.
  intros Hl Hs Hr. unfold Copier.destination_settings.
  rewrite Hl, Hs, Hr. reflexivity.
Qed.

(** The branches of the [if]/[elif] on the policy, on what the code reads
    as the limit of the source (the member ["total_fields.limit"] of
    [index.mapping]).  For well-formed source settings the destination
    settings are computed: with -1 their limit is the one so read when there
    is one, and the key is left out when none is read; with a positive
    number it is that number whatever the source says; with no policy or a
    non-positive number other than -1 the key is left out. *)
Theorem field_limit_policy :
  forall (policy : option Z) (source_settings : json),
    Settings.well_formed source_settings = true ->
    exists settings source_limit,
      Copier.source_total_fields source_settings = inr source_limit
      /\ Copier.destination_settings policy source_settings = inr settings
      /\ (policy = Some (-1) ->
          (forall v, source_limit = Some v -> Py.truthy v = true ->
                     Settings.field_limit settings = Some v)
          /\ (source_limit = None ->
              Settings.has_field_limit_key settings = false))
      /\ (forall n, policy = Some n -> 0 < n ->
                    Settings.field_limit settings = Some (JNum n))
      /\ (policy = None -> Settings.has_field_limit_key settings = false)
      /\ (forall n, policy = Some n -> n <= 0 -> n <> -1 ->
                    Settings.has_field_limit_key settings = false).
Proof.
  intros policy ss Hwf.
  destruct (well_formed_reads ss Hwf) as (lim & shards & replicas & Hl & Hs & Hr).
  eexists. exists lim. split; [exact Hl|]. split.
  { apply (destination_settings_shape policy ss lim shards replicas Hl Hs Hr). }
  split; [|split; [|split]].
  - intros ->. split.
    + intros v -> Hv. cbn. rewrite Hv. reflexivity.
    + intros ->. reflexivity.
  - intros n -> Hn. unfold Copier.limit_members.
    destruct (Z.eqb_spec n (-1)); [lia|].
    destruct (Z.eqb_spec n 0); [lia|].
    destruct (Z.gtb_spec n 0); [|lia]. reflexivity.
  - intros ->. reflexivity.
  - intros n -> Hn Hn1. unfold Copier.limit_members.
    destruct (Z.eqb_spec n (-1)); [lia|].
    destruct (Z.eqb_spec n 0); [reflexivity|].
    destruct (Z.gtb_spec n 0); [lia|]. reflexivity.
Qed.

Lemma field_limit_policy_witness :
  Settings.well_formed Fixture.settings_5000 = true
  /\ Copier.source_total_fields Fixture.settings_5000 = inr (Some (JStr "5000"))
  /\ exists settings,
       Copier.destination_settings (Some (-1)) Fixture.settings_5000
       = inr settings
       /\ Settings.field_limit settings = Some (JStr "5000").
Proof.
  split; [reflexivity|]. split; [reflexivity|].
  destruct (field_limit_policy (Some (-1)) Fixture.settings_5000 eq_refl)
    as (settings & lim & Hl & Hd & Huse & _).
  exists settings. split; [exact Hd|].
  apply (proj1 (Huse eq_refl)); [|reflexivity].
  vm_compute in Hl. now inversion Hl.
Defined.

(** C4: the code misses the case of the source limit.  A source that
    declares its limit, in the place where a cluster returns it and where
    the copier itself writes it, [index.mapping.total_fields.limit], is read
    as having none: the code looks for a member named ["total_fields.limit"]
    in [index.mapping].  Under the policy -1 (use the source) the
    destination settings are then computed without any limit, whatever the
    limit and the shards of the source. *)
Theorem use_source_misses_the_declared_limit :
  forall limit shards : json,
    let source :=
      JObj [("index",
             JObj [("number_of_shards", shards);
                   ("mapping",
                    JObj [("total_fields", JObj [("limit", limit)])])])] in
    Settings.well_formed source = true
    /\ Settings.field_limit source = Some limit
    /\ Copier.source_total_fields source = inr None
    /\ Copier.destination_settings (Some (-1)) source
       = inr (JObj [("index", JObj [("number_of_shards", shards);
                                    ("number_of_replicas", JStr "1")])])
    /\ Copier.destination_settings (Some (-1)) Fixture.settings_nested_5000
       = inr (JObj [("index", JObj [("number_of_shards", JStr "3");
                                    ("number_of_replicas", JStr "1")])]).
Proof. intros limit shards. cbv zeta. repeat split. Qed.

(** The older script has no policy: its settings are those of the copier
    under the policy 2000. *)
Lemma migration_settings_are_policy_2000 (ss : json) :
  Settings.well_formed ss = true ->
  Migration.destination_settings ss = Copier.destination_settings (Some 2000) ss.
Proof.
  intros Hwf.
  destruct (well_formed_reads ss Hwf) as (lim & shards & replicas & Hl & Hs & Hr).
  rewrite (destination_settings_shape _ ss lim shards replicas Hl Hs Hr).
  unfold Migration.destination_settings. rewrite Hs, Hr. reflexivity.
Qed.

(** The limit is read from the member ["total_fields.limit"] of
    [index.mapping] and written as [index.mapping.total_fields.limit]: the
    settings that the copier writes are not settings from which it reads a
    limit back. *)
Lemma written_limit_is_not_read_back :
  exists written,
    Copier.destination_settings (Some 5000) (JObj []) = inr written
    /\ Settings.field_limit written = Some (JNum 5000)
    /\ Copier.source_total_fields written = inr None.
Proof. eexists. repeat split. Qed.

(** ** Effects: general facts *)

Section EffFacts.

Local Open Scope eff_scope.

(** A handler that logs and raises again does not change the outcome. *)
Lemma catch_request_reraise {A} (body : Eff.M A) (msg : exn -> string) st :
  fst (Eff.catch_request body
         (fun e => Eff.log ERROR (msg e) ;;; Eff.raise e) st)
  = fst (body st).
Proof.
  unfold Eff.catch_request, Eff.catch.
  destruct (body st) as [[e|a] st']; [|reflexivity].
  destruct (is_request_exception e); reflexivity.
Qed.

Lemma raise_for_status_error (r : Response) :
  400 <= status_code r < 600 ->
  exists msg, Http.raise_for_status r = inl (RequestException msg (Some r)).
Proof.
  intros H. unfold Http.raise_for_status.
  destruct (Z.leb_spec 400 (status_code r)); [|lia].
  destruct (Z.ltb_spec (status_code r) 500); simpl; [eexists; reflexivity|].
  destruct (Z.leb_spec 500 (status_code r)); [|lia].
  destruct (Z.ltb_spec (status_code r) 600); simpl; [eexists; reflexivity|lia].
Qed.

Lemma raise_for_status_quiet (r : Response) :
  status_code r < 400 \/ 600 <= status_code r ->
  Http.raise_for_status r = inr tt.
Proof.
  intros H. unfold Http.raise_for_status.
  destruct (Z.leb_spec 400 (status_code r));
    destruct (Z.ltb_spec (status_code r) 500); simpl; try lia;
    destruct (Z.leb_spec 500 (status_code r));
    destruct (Z.ltb_spec (status_code r) 600); simpl; try lia; reflexivity.
Qed.

Lemma bind_returns {A B} (c : Eff.M A) (k : A -> Eff.M B) st b st' :
  Eff.bind c k st = (inr b, st') ->
  exists a st1, c st = (inr a, st1) /\ k a st1 = (inr b, st').
Proof.
  unfold Eff.bind. destruct (c st) as [[e|a] st1]; [discriminate|].
  intros H. eauto.
Qed.

Lemma catch_request_reraise_returns {A} (body : Eff.M A) (msg : exn -> string)
  st a st' :
  Eff.catch_request body
    (fun e => Eff.bind (Eff.log ERROR (msg e)) (fun _ => Eff.raise e)) st
  = (inr a, st') ->
  body st = (inr a, st').
Proof.
  unfold Eff.catch_request, Eff.catch.
  destruct (body st) as [[e|a'] st1]; [|auto].
  destruct (is_request_exception e); cbn; discriminate.
Qed.

Lemma http_returns rq st r st' :
  Eff.http rq st = (inr r, st') ->
  trace st' = (trace st ++ [Call rq (Returns r)])%list.
Proof.
  unfold Eff.http. destruct (script st) as [|[msg resp|r'] rest]; cbn;
    try discriminate.
  intros H. inversion H; subst. reflexivity.
Qed.

End EffFacts.

(** ** Schema transfer *)

(** What the create request alone decides. *)
Lemma create_index_result self src tgt ss sm (d c : reply) rest tr cs settings :
  Copier.destination_settings (total_fields_limit self) ss = inr settings ->
  fst (Copier.create_index_with_settings self src tgt ss sm
         (mkState (d :: c :: rest) tr cs))
  = bind_result (Eff.deliver c) (fun r =>
    bind_result (Http.raise_for_status r) (fun _ => Http.json_of r)).
Proof.
  intros Hs. unfold Copier.create_index_with_settings.
  unfold Eff.bind at 1.
  match goal with
  | |- context [Eff.catch_request ?b ?h ?st] =>
      assert (Hdel : exists tr',
                 Eff.catch_request b h st = (inr tt, mkState (c :: rest) tr' cs))
  end.
  { unfold Eff.catch_request, Eff.catch, Eff.bind, Eff.http, Eff.log, Eff.emit,
      Eff.ret. cbn [script trace stats].
    destruct d as [msg resp|r]; cbn; eexists; reflexivity. }
  destruct Hdel as [tr' ->].
  unfold Eff.bind at 1. unfold Eff.lift at 1. rewrite Hs.
  rewrite catch_request_reraise.
  unfold Eff.bind, Eff.http, Eff.lift, Eff.log, Eff.emit. cbn [script trace stats].
  destruct c as [msg resp|r]; cbn; [reflexivity|].
  destruct (Http.raise_for_status r) as [e|[]]; cbn; [reflexivity|].
  reflexivity.
Qed.

(** The two requests of the transfer, in their order. *)
Lemma create_index_requests self src tgt ss sm (d c : reply) rest tr cs settings :
  Copier.destination_settings (total_fields_limit self) ss = inr settings ->
  let config := JObj [("settings", settings); ("mappings", sm)] in
  exists logs1 logs2,
    trace (snd (Copier.create_index_with_settings self src tgt ss sm
                  (mkState (d :: c :: rest) tr cs)))
    = (tr ++ Call (Copier.delete_index_request self tgt) d :: logs1
          ++ Call (Copier.create_index_request self tgt config) c :: logs2)%list
    /\ Forall (fun ev => exists lvl msg, ev = Log lvl msg) (logs1 ++ logs2).
Proof.
  intros Hs config. unfold Copier.create_index_with_settings.
  unfold Eff.bind, Eff.catch_request, Eff.catch, Eff.http, Eff.lift, Eff.log,
    Eff.emit, Eff.ret, Eff.raise.
  cbn [script trace stats].
  destruct d as [msg resp|r]; cbn; rewrite Hs; cbn.
  - destruct c as [msg' resp'|r']; cbn.
    + exists [], [Log ERROR ("Error creating index: " ++ msg')]. cbn.
      rewrite <- !app_assoc. split; [reflexivity|].
      repeat constructor; eauto.
    + destruct (Http.raise_for_status r') as [e|[]]; cbn.
      * destruct e; cbn;
          try (exists [], []; cbn; rewrite <- ?app_assoc; split;
               [reflexivity|constructor]).
        eexists [], [_]. cbn. rewrite <- !app_assoc. split; [reflexivity|].
        repeat constructor; eauto.
      * destruct (Http.json_of r') as [e|j]; cbn.
        -- destruct e; cbn;
             try (eexists [], [_]; cbn; rewrite <- ?app_assoc; split;
                  [reflexivity|repeat constructor; eauto]).
           eexists [], [_; _]. cbn. rewrite <- !app_assoc. split; [reflexivity|].
           repeat constructor; eauto.
        -- eexists [], [_]. cbn. rewrite <- !app_assoc. split; [reflexivity|].
           repeat constructor; eauto.
  - destruct c as [msg' resp'|r']; cbn.
    + eexists [_], [_]. cbn. rewrite <- !app_assoc. split; [reflexivity|].
      repeat constructor; eauto.
    + destruct (Http.raise_for_status r') as [e|[]]; cbn.
      * destruct e; cbn;
          try (eexists [_], []; cbn; rewrite <- ?app_assoc; split;
               [reflexivity|repeat constructor; eauto]).
        eexists [_], [_]. cbn. rewrite <- !app_assoc. split; [reflexivity|].
        repeat constructor; eauto.
      * destruct (Http.json_of r') as [e|j]; cbn.
        -- destruct e; cbn;
             try (eexists [_], [_]; cbn; rewrite <- ?app_assoc; split;
                  [reflexivity|repeat constructor; eauto]).
           eexists [_], [_; _]. cbn. rewrite <- !app_assoc. split; [reflexivity|].
           repeat constructor; eauto.
        -- eexists [_], [_]. cbn. rewrite <- !app_assoc. split; [reflexivity|].
           repeat constructor; eauto.
Qed.

(** C6, as the code has it.  Whatever the answer to the delete request, an
    exception or a response of any status, the create request follows it and
    the outcome is decided by the answer to the create request alone; a
    response to the create request with a status in 400..599 raises an
    exception that carries that response. *)
Theorem delete_swallowed_create_checked :
  forall self src tgt (source_settings source_mappings : json)
         (d c : reply) rest tr cs,
    Settings.well_formed source_settings = true ->
    let run := Copier.create_index_with_settings self src tgt source_settings
                 source_mappings (mkState (d :: c :: rest) tr cs) in
    exists settings logs1 logs2,
      Copier.destination_settings (total_fields_limit self) source_settings
      = inr settings
      /\ trace (snd run)
         = (tr ++ Call (Copier.delete_index_request self tgt) d :: logs1
               ++ Call (Copier.create_index_request self tgt
                          (JObj [("settings", settings);
                                 ("mappings", source_mappings)])) c :: logs2)%list
      /\ Forall (fun ev => exists lvl msg, ev = Log lvl msg) (logs1 ++ logs2)
      /\ fst run
         = bind_result (Eff.deliver c) (fun r =>
           bind_result (Http.raise_for_status r) (fun _ => Http.json_of r))
      /\ forall r, c = Returns r -> 400 <= status_code r < 600 ->
           exists msg, fst run = inl (RequestException msg (Some r)).
Proof.
  intros self src tgt ss sm d c rest tr cs Hwf run.
  destruct (well_formed_reads ss Hwf) as (lim & shards & replicas & Hl & Hsh & Hr).
  assert (Hs := destination_settings_shape (total_fields_limit self) ss lim
                  shards replicas Hl Hsh Hr).
  eexists.
  destruct (create_index_requests self src tgt ss sm d c rest tr cs _ Hs)
    as (logs1 & logs2 & Htr & Hlogs).
  exists logs1, logs2.
  split; [exact Hs|]. split; [exact Htr|]. split; [exact Hlogs|].
  assert (Hout := create_index_result self src tgt ss sm d c rest tr cs
                    _ Hs).
  split; [exact Hout|].
  intros r -> Hst. subst run. rewrite Hout. cbn.
  destruct (raise_for_status_error r Hst) as [msg ->]. now exists msg.
Qed.

Lemma delete_swallowed_create_checked_witness :
  Settings.well_formed (JObj []) = true
  /\ 400 <= status_code Fixture.bad_request < 600
  /\ exists msg,
       fst (Copier.create_index_with_settings (Fixture.copier None) "a" "b"
              (JObj []) (JObj [])
              (Fixture.fresh [Fails "Connection refused" None;
                              Returns Fixture.bad_request]))
       = inl (RequestException msg (Some Fixture.bad_request)).
Proof.
  split; [reflexivity|]. split; [cbn; lia|].
  destruct (delete_swallowed_create_checked (Fixture.copier None) "a" "b"
              (JObj []) (JObj []) (Fails "Connection refused" None)
              (Returns Fixture.bad_request) [] [] Stats.init eq_refl)
    as (settings & logs1 & logs2 & _ & _ & _ & _ & Herr).
  apply (Herr Fixture.bad_request eq_refl). cbn. lia.
Defined.

(** C6, as the claim has it, fails: a response to the create request whose
    status is outside 200..299 and outside 400..599 raises nothing, and the
    transfer returns normally. *)
Lemma create_status_300_is_not_raised :
  status_code Fixture.multiple_choices = 300
  /\ fst (Copier.create_index_with_settings (Fixture.copier None) "a" "b"
            (JObj []) (JObj [])
            (Fixture.fresh [Fixture.ok (JObj []);
                            Returns Fixture.multiple_choices]))
     = inr (JObj []).
Proof. split; reflexivity. Qed.

(** ** Traces *)

Lemma sum_app (f : event -> Z) (a b : list event) :
  Trace.sum f (a ++ b) = Trace.sum f a + Trace.sum f b.
Proof.
  unfold Trace.sum. induction a as [|ev a IH]; simpl; [reflexivity|].
  rewrite IH. lia.
Qed.

Lemma sum_zero (f : event -> Z) (tr : list event) :
  Forall (fun ev => f ev = 0) tr -> Trace.sum f tr = 0.
Proof.
  unfold Trace.sum. induction 1 as [|ev tr H _ IH]; simpl; [reflexivity|].
  rewrite H, IH. reflexivity.
Qed.

Lemma count_app (p : event -> bool) (a b : list event) :
  Trace.count p (a ++ b) = (Trace.count p a + Trace.count p b)%nat.
Proof. unfold Trace.count. now rewrite filter_app, length_app. Qed.

Lemma count_cons (p : event -> bool) (ev : event) (tr : list event) :
  Trace.count p (ev :: tr)
  = ((if p ev then 1 else 0) + Trace.count p tr)%nat.
Proof. unfold Trace.count. simpl. now destruct (p ev). Qed.

Lemma sum_single (f : event -> Z) (ev : event) : Trace.sum f [ev] = f ev.
Proof. unfold Trace.sum. simpl. lia. Qed.

Lemma count_zero (p : event -> bool) (tr : list event) :
  Forall (fun ev => p ev = false) tr -> Trace.count p tr = 0%nat.
Proof.
  unfold Trace.count. induction 1 as [|ev tr H _ IH]; simpl; [reflexivity|].
  now rewrite H.
Qed.

Lemma logs_are_silent (tr : list event) :
  Forall (fun ev => Trace.is_log ev = true) tr ->
  Trace.count Trace.is_close tr = 0%nat
  /\ Trace.source_docs tr = 0
  /\ Trace.sent_docs tr = 0.
Proof.
  intros H. repeat split.
  - apply count_zero. eapply Forall_impl; [|exact H].
    intros [rq rp|lvl msg]; simpl; [discriminate|reflexivity].
  - apply sum_zero. eapply Forall_impl; [|exact H].
    intros [rq rp|lvl msg]; simpl; [discriminate|reflexivity].
  - apply sum_zero. eapply Forall_impl; [|exact H].
    intros [rq rp|lvl msg]; simpl; [discriminate|reflexivity].
Qed.

Lemma logs_carry_nothing (tr : list event) :
  Forall (fun ev => Trace.is_log ev = true) tr ->
  Trace.pages tr = [] /\ Trace.bulk_bodies tr = [].
Proof.
  unfold Trace.pages, Trace.bulk_bodies.
  induction 1 as [|[rq rp|lvl msg] tr H _ [IH1 IH2]];
    [split; reflexivity|discriminate|].
  cbn. now rewrite IH1, IH2.
Qed.

Lemma pages_app (a b : list event) :
  Trace.pages (a ++ b) = (Trace.pages a ++ Trace.pages b)%list.
Proof. apply flat_map_app. Qed.

Lemma bulk_bodies_app (a b : list event) :
  Trace.bulk_bodies (a ++ b)
  = (Trace.bulk_bodies a ++ Trace.bulk_bodies b)%list.
Proof. apply flat_map_app. Qed.

(** ** The scroll loop *)

Lemma falsy_len (hits : json) : Py.truthy hits = false -> Scroll.len hits = 0.
Proof.
  destruct hits as [| | |s|l|m]; simpl; try reflexivity.
  - destruct s; [reflexivity|discriminate].
  - destruct l; [reflexivity|discriminate].
  - destruct m; [reflexivity|discriminate].
Qed.

Lemma bulk_lines_length index (l : list json) : forall lines,
  Scroll.bulk_lines index l = inr lines ->
  length lines = (2 * length l)%nat.
Proof.
  induction l as [|hit l IH]; simpl; intros lines H.
  - now inversion H.
  - unfold Scroll.hit_lines, bind_result in H.
    destruct (Py.getitem hit "_id") as [e|id]; [discriminate|].
    destruct (Py.getitem hit "_source") as [e|src]; [discriminate|].
    destruct (Scroll.bulk_lines index l) as [e|ls]; [discriminate|].
    inversion H; subst. simpl. rewrite (IH ls eq_refl). lia.
Qed.

Lemma bulk_body_docs index (hits : json) (lines : list json) :
  Scroll.bulk_body index hits = inr lines ->
  Z.of_nat (length lines) / 2 = Scroll.len hits.
Proof.
  destruct hits as [| | |s|l|m]; simpl; try discriminate.
  intros H. rewrite (bulk_lines_length index l lines H).
  rewrite Nat2Z.inj_mul. change (Z.of_nat 2) with 2.
  rewrite Z.mul_comm. apply Z.div_mul. lia.
Qed.

Section LoopFacts.

Variable bulk_rq : list json -> request.
Variable next_rq : json -> request.
Variable check : Response -> result unit * list event.
Variable index : string.

Hypothesis bulk_rq_shape : forall lines,
  rq_method (bulk_rq lines) = POST /\ rq_body (bulk_rq lines) = DataBody lines.
Hypothesis next_rq_shape : forall scroll_id,
  rq_method (next_rq scroll_id) = POST
  /\ exists j, rq_body (next_rq scroll_id) = JsonBody j.
Hypothesis check_logs : forall r,
  Forall (fun ev => Trace.is_log ev = true) (snd (check r)).

Let loop := Scroll.page_loop bulk_rq next_rq check index.

Lemma page_loop_unfold sc tr scroll_id hits total_docs :
  loop sc tr scroll_id hits total_docs
  = if negb (Py.truthy hits) then (inr (scroll_id, total_docs), sc, tr)
    else
      match Scroll.bulk_body index hits with
      | inl e => (inl e, sc, tr)
      | inr lines =>
          match sc with
          | [] => (inl Eff.aborted, [],
                   (tr ++ [Call (bulk_rq lines) Eff.exhausted])%list)
          | rp1 :: sc1 =>
              match Eff.deliver rp1 with
              | inl e => (inl e, sc1, (tr ++ [Call (bulk_rq lines) rp1])%list)
              | inr response =>
                  match check response with
                  | (inl e, evs) =>
                      (inl e, sc1,
                       ((tr ++ [Call (bulk_rq lines) rp1]) ++ evs)%list)
                  | (inr _, evs) =>
                      match sc1 with
                      | [] =>
                          (inl Eff.aborted, [],
                           ((tr ++ [Call (bulk_rq lines) rp1]) ++ evs
                            ++ [Call (next_rq scroll_id) Eff.exhausted])%list)
                      | rp2 :: sc2 =>
                          match bind_result (Eff.deliver rp2) Scroll.read_page with
                          | inl e =>
                              (inl e, sc2,
                               ((tr ++ [Call (bulk_rq lines) rp1]) ++ evs
                                ++ [Call (next_rq scroll_id) rp2])%list)
                          | inr (scroll_id', hits') =>
                              loop sc2
                                ((tr ++ [Call (bulk_rq lines) rp1]) ++ evs
                                 ++ [Call (next_rq scroll_id) rp2])%list
                                scroll_id' hits' (total_docs + Scroll.len hits)
                          end
                      end
                  end
              end
          end
      end.
Proof. unfold loop. destruct sc; reflexivity. Qed.

Lemma bulk_call_facts lines rp :
  Trace.is_close (Call (bulk_rq lines) rp) = false
  /\ Trace.page_docs (Call (bulk_rq lines) rp) = 0
  /\ Trace.docs_sent (Call (bulk_rq lines) rp) = Z.of_nat (length lines) / 2.
Proof.
  destruct (bulk_rq_shape lines) as [Hm Hb].
  unfold Trace.is_close, Trace.is_close_rq, Trace.page_docs, Trace.docs_sent.
  rewrite Hm, Hb. destruct rp; repeat split; reflexivity.
Qed.

Lemma next_call_facts scroll_id rp :
  Trace.is_close (Call (next_rq scroll_id) rp) = false
  /\ Trace.docs_sent (Call (next_rq scroll_id) rp) = 0
  /\ Trace.page_docs (Call (next_rq scroll_id) rp)
     = match bind_result (Eff.deliver rp) Scroll.read_page with
       | inr (_, hits) => Scroll.len hits
       | inl _ => 0
       end.
Proof.
  destruct (next_rq_shape scroll_id) as [Hm [j Hb]].
  unfold Trace.is_close, Trace.is_close_rq, Trace.page_docs, Trace.docs_sent.
  rewrite Hm, Hb. destruct rp; repeat split; reflexivity.
Qed.

(** What one run of the loop adds to the trace: no release of the scroll;
    and at its normal end, the total is what it started from plus the page
    in hand plus the pages fetched, all of which were sent in bulk
    requests. *)
Lemma page_loop_trace : forall n sc,
  (length sc <= n)%nat ->
  forall tr scroll_id hits total_docs res sc' tr',
    loop sc tr scroll_id hits total_docs = (res, sc', tr') ->
    exists new,
      tr' = (tr ++ new)%list
      /\ Trace.count Trace.is_close new = 0%nat
      /\ forall scroll_id' docs,
           res = inr (scroll_id', docs) ->
           docs = total_docs + Scroll.len hits + Trace.source_docs new
           /\ Trace.sent_docs new = Scroll.len hits + Trace.source_docs new.
Proof.
  induction n as [|n IH]; intros sc Hlen tr scroll_id hits total_docs res sc' tr' H;
    rewrite page_loop_unfold in H.
  - destruct sc; [|simpl in Hlen; lia].
    destruct (Py.truthy hits) eqn:Ht; simpl in H.
    + destruct (Scroll.bulk_body index hits) as [e|lines];
        inversion H; subst; clear H.
      * exists []. rewrite app_nil_r. repeat split; discriminate.
      * eexists. split; [reflexivity|]. split; [|discriminate].
        now rewrite count_cons, (proj1 (bulk_call_facts lines Eff.exhausted)).
    + inversion H; subst; clear H. exists []. rewrite app_nil_r.
      split; [reflexivity|]. split; [reflexivity|].
      intros s d Hr. inversion Hr; subst.
      rewrite (falsy_len hits Ht). cbn. split; lia.
  - destruct (Py.truthy hits) eqn:Ht; simpl in H.
    2:{ inversion H; subst; clear H. exists []. rewrite app_nil_r.
        split; [reflexivity|]. split; [reflexivity|].
        intros s d Hr. inversion Hr; subst.
        rewrite (falsy_len hits Ht). cbn. split; lia. }
    destruct (Scroll.bulk_body index hits) as [e|lines] eqn:Hb.
    { inversion H; subst; clear H.
      exists []. rewrite app_nil_r. repeat split; discriminate. }
    destruct (bulk_call_facts lines Eff.exhausted) as (Hc0 & _ & _).
    destruct sc as [|rp1 sc1].
    { inversion H; subst; clear H.
      eexists. split; [reflexivity|]. split; [|discriminate].
      now rewrite count_cons, Hc0. }
    destruct (bulk_call_facts lines rp1) as (Hc1 & Hp1 & Hd1).
    destruct (Eff.deliver rp1) as [e|response].
    { inversion H; subst; clear H.
      eexists. split; [reflexivity|]. split; [|discriminate].
      now rewrite count_cons, Hc1. }
    assert (Hlogs := check_logs response).
    destruct (check response) as [[e|u] evs]; simpl in Hlogs.
    { inversion H; subst; clear H.
      exists (Call (bulk_rq lines) rp1 :: evs).
      split; [now rewrite <- app_assoc|]. split; [|discriminate].
      change (Call (bulk_rq lines) rp1 :: evs)
        with ([Call (bulk_rq lines) rp1] ++ evs)%list.
      rewrite count_app, (proj1 (logs_are_silent evs Hlogs)).
      now rewrite count_cons, Hc1. }
    destruct (logs_are_silent evs Hlogs) as (Le & Ls & Ld).
    destruct sc1 as [|rp2 sc2].
    { inversion H; subst; clear H.
      exists (Call (bulk_rq lines) rp1
              :: evs ++ [Call (next_rq scroll_id) Eff.exhausted])%list.
      split; [now rewrite <- !app_assoc|]. split; [|discriminate].
      change (Call (bulk_rq lines) rp1
              :: evs ++ [Call (next_rq scroll_id) Eff.exhausted])%list
        with ([Call (bulk_rq lines) rp1]
              ++ evs ++ [Call (next_rq scroll_id) Eff.exhausted])%list.
      rewrite !count_app, Le, !count_cons.
      rewrite Hc1, (proj1 (next_call_facts scroll_id Eff.exhausted)).
      reflexivity. }
    destruct (next_call_facts scroll_id rp2) as (Hc2 & Hd2 & Hp2).
    set (new0 := ([Call (bulk_rq lines) rp1]
                  ++ evs ++ [Call (next_rq scroll_id) rp2])%list).
    assert (Hnew0 : ((tr ++ [Call (bulk_rq lines) rp1]) ++ evs
                     ++ [Call (next_rq scroll_id) rp2])%list
                    = (tr ++ new0)%list)
      by (unfold new0; now rewrite <- !app_assoc).
    rewrite Hnew0 in H.
    assert (Hclose0 : Trace.count Trace.is_close new0 = 0%nat).
    { unfold new0. rewrite !count_app, Le, !count_cons.
      now rewrite Hc1, Hc2. }
    destruct (bind_result (Eff.deliver rp2) Scroll.read_page)
      as [e|[scroll_id2 hits2]].
    { inversion H; subst; clear H.
      exists new0. split; [reflexivity|]. split; [exact Hclose0|discriminate]. }
    simpl in Hlen.
    destruct (IH sc2 ltac:(lia) _ _ _ _ _ _ _ H) as (new & -> & Hclose & Hdocs).
    exists (new0 ++ new)%list. split; [now rewrite app_assoc|].
    split; [now rewrite count_app, Hclose0, Hclose|].
    intros s d Hr. destruct (Hdocs s d Hr) as [Hd Hsent].
    unfold Trace.source_docs, Trace.sent_docs in *.
    unfold new0. rewrite !sum_app, !sum_single, Ls, Ld.
    rewrite Hp1, Hd1, Hp2, Hd2, (bulk_body_docs index hits lines Hb).
    split; lia.
Qed.

Variable open_rq : request.
Variable close_rq : json -> request.

Hypothesis open_rq_shape :
  rq_method open_rq = POST /\ exists j, rq_body open_rq = JsonBody j.
Hypothesis close_rq_shape : forall scroll_id,
  rq_method (close_rq scroll_id) = DELETE
  /\ exists j, rq_body (close_rq scroll_id) = JsonBody j.

Lemma open_call_facts rp :
  Trace.is_close (Call open_rq rp) = false
  /\ Trace.docs_sent (Call open_rq rp) = 0
  /\ Trace.page_docs (Call open_rq rp)
     = match bind_result (Eff.deliver rp) Scroll.read_page with
       | inr (_, hits) => Scroll.len hits
       | inl _ => 0
       end.
Proof.
  destruct open_rq_shape as [Hm [j Hb]].
  unfold Trace.is_close, Trace.is_close_rq, Trace.page_docs, Trace.docs_sent.
  rewrite Hm, Hb. destruct rp; repeat split; reflexivity.
Qed.

Lemma close_call_facts scroll_id rp :
  Trace.is_close (Call (close_rq scroll_id) rp) = true
  /\ Trace.docs_sent (Call (close_rq scroll_id) rp) = 0
  /\ Trace.page_docs (Call (close_rq scroll_id) rp) = 0
  /\ Trace.close_failed (Call (close_rq scroll_id) rp)
     = match rp with Fails _ _ => true | Returns _ => false end.
Proof.
  destruct (close_rq_shape scroll_id) as [Hm [j Hb]].
  unfold Trace.is_close, Trace.close_failed, Trace.is_close_rq,
    Trace.page_docs, Trace.docs_sent.
  rewrite Hm, Hb. destruct rp; repeat split; reflexivity.
Qed.

(** What the body of [reindex_data] adds to the trace.  At a normal end the
    scroll was released once, and the total is the number of documents of
    the pages read, all of them sent in bulk requests.  When an exception
    ends it, either no release was sent, or the exception is the failure of
    the release itself. *)
Lemma scroll_copy_trace st res st' :
  Scroll.scroll_copy bulk_rq next_rq check index open_rq close_rq st
  = (res, st') ->
  exists new,
    trace st' = (trace st ++ new)%list
    /\ stats st' = stats st
    /\ (forall n, res = inr n ->
          Trace.count Trace.is_close new = 1%nat
          /\ n = Trace.source_docs new
          /\ Trace.sent_docs new = n)
    /\ (forall e, res = inl e ->
          Trace.count Trace.is_close new = 0%nat
          \/ (Trace.count Trace.is_close new = 1%nat
              /\ existsb Trace.close_failed new = true)).
Proof.
  unfold Scroll.scroll_copy, Eff.bind, Eff.http, Eff.lift, Eff.ret,
    Scroll.run_page_loop.
  destruct st as [sc tr cs]. cbn [script trace stats].
  destruct sc as [|rp sc].
  { intros H. inversion H; subst; clear H. cbn [trace stats].
    eexists. split; [reflexivity|]. split; [reflexivity|].
    split; [discriminate|]. intros e _. left.
    now rewrite count_cons, (proj1 (open_call_facts Eff.exhausted)). }
  destruct (open_call_facts rp) as (Ho & Hod & Hop).
  destruct (Eff.deliver rp) as [e|response] eqn:Hrp.
  { intros H. inversion H; subst; clear H. cbn [trace stats].
    eexists. split; [reflexivity|]. split; [reflexivity|].
    split; [discriminate|]. intros e' _. left. now rewrite count_cons, Ho. }
  cbn [bind_result] in Hop.
  destruct (Scroll.read_page response) as [e|[scroll_id hits]].
  { intros H. inversion H; subst; clear H. cbn [trace stats].
    eexists. split; [reflexivity|]. split; [reflexivity|].
    split; [discriminate|]. intros e' _. left. now rewrite count_cons, Ho. }
  cbn [fst snd script trace stats].
  destruct (Scroll.page_loop bulk_rq next_rq check index sc
              (tr ++ [Call open_rq rp]) scroll_id hits 0)
    as [[r sc1] tr1] eqn:Hloop.
  destruct (page_loop_trace (length sc) sc (le_n _) _ _ _ _ _ _ _ Hloop)
    as (new1 & -> & Hc1 & Hdocs).
  destruct r as [e|[scroll_id1 total]].
  { intros H. inversion H; subst; clear H. cbn [trace stats].
    exists (Call open_rq rp :: new1). split; [now rewrite <- app_assoc|].
    split; [reflexivity|]. split; [discriminate|]. intros e' _. left.
    now rewrite count_cons, Ho, Hc1. }
  destruct (Hdocs _ _ eq_refl) as [Htotal Hsent].
  cbn [fst snd script trace stats].
  assert (Hcount : forall rp',
             Trace.count Trace.is_close
               (Call open_rq rp :: new1 ++ [Call (close_rq scroll_id1) rp'])
             = 1%nat).
  { intros rp'. rewrite count_cons, Ho, count_app, Hc1, count_cons.
    now rewrite (proj1 (close_call_facts scroll_id1 rp')). }
  destruct sc1 as [|rp' sc2].
  { intros H. inversion H; subst; clear H. cbn [trace stats].
    exists (Call open_rq rp :: new1
            ++ [Call (close_rq scroll_id1) Eff.exhausted])%list.
    split; [now rewrite <- !app_assoc|].
    split; [reflexivity|]. split; [discriminate|]. intros e' _. right.
    split; [apply Hcount|].
    cbn [existsb]. rewrite existsb_app. cbn [existsb].
    rewrite (proj2 (proj2 (proj2 (close_call_facts scroll_id1 Eff.exhausted)))).
    cbn. now rewrite !orb_true_r. }
  destruct (close_call_facts scroll_id1 rp') as (_ & Hcd & Hcp & Hcf).
  destruct rp' as [msg resp|r']; cbn [Eff.deliver].
  { intros H. inversion H; subst; clear H. cbn [trace stats].
    exists (Call open_rq rp :: new1
            ++ [Call (close_rq scroll_id1) (Fails msg resp)])%list.
    split; [now rewrite <- !app_assoc|].
    split; [reflexivity|]. split; [discriminate|]. intros e' _. right.
    split; [apply Hcount|].
    cbn [existsb]. rewrite existsb_app. cbn [existsb].
    rewrite Hcf. now rewrite !orb_true_r. }
  intros H. inversion H; subst; clear H. cbn [trace stats].
  exists (Call open_rq rp :: new1
          ++ [Call (close_rq scroll_id1) (Returns r')])%list.
  split; [now rewrite <- !app_assoc|].
  split; [reflexivity|]. split; [|discriminate].
  intros n Hn. inversion Hn; subst; clear Hn.
  split; [apply Hcount|].
  unfold Trace.source_docs, Trace.sent_docs in *.
  change (Call open_rq rp
          :: new1 ++ [Call (close_rq scroll_id1) (Returns r')])%list
    with ([Call open_rq rp]
          ++ new1 ++ [Call (close_rq scroll_id1) (Returns r')])%list.
  rewrite !sum_app, !sum_single, Hop, Hod, Hcd, Hcp.
  split; lia.
Qed.

(** What was sent.  At a normal end of the loop, the bulk requests are
    those of the pages that are not empty, one for each and in their order:
    the page in hand first, then the pages fetched. *)
Lemma bulk_call_carries lines rp :
  Trace.page_of (Call (bulk_rq lines) rp) = []
  /\ Trace.bulk_of (Call (bulk_rq lines) rp) = [lines].
Proof.
  destruct (bulk_rq_shape lines) as [Hm Hb].
  unfold Trace.page_of, Trace.bulk_of. rewrite Hm, Hb.
  destruct rp; split; reflexivity.
Qed.

Lemma next_call_carries scroll_id rp :
  Trace.bulk_of (Call (next_rq scroll_id) rp) = []
  /\ Trace.page_of (Call (next_rq scroll_id) rp)
     = match bind_result (Eff.deliver rp) Scroll.read_page with
       | inr (_, hits) => [hits]
       | inl _ => []
       end.
Proof.
  destruct (next_rq_shape scroll_id) as [Hm [j Hb]].
  unfold Trace.page_of, Trace.bulk_of. rewrite Hm, Hb.
  destruct rp; split; reflexivity.
Qed.

Lemma page_loop_bulk : forall n sc,
  (length sc <= n)%nat ->
  forall tr scroll_id hits total_docs scroll_id' docs sc' tr',
    loop sc tr scroll_id hits total_docs = (inr (scroll_id', docs), sc', tr') ->
    exists new,
      tr' = (tr ++ new)%list
      /\ Forall2 (fun page lines => Scroll.bulk_body index page = inr lines)
           (filter Py.truthy (hits :: Trace.pages new))
           (Trace.bulk_bodies new).
Proof.
  assert (Hend : forall (tr tr' : list event) (sc sc' : list reply)
                        (scroll_id scroll_id' hits : json) (total_docs docs : Z),
             Py.truthy hits = false ->
             ((inr (scroll_id, total_docs) : result (json * Z)), sc, tr)
             = (inr (scroll_id', docs), sc', tr') ->
             exists new,
               tr' = (tr ++ new)%list
               /\ Forall2
                    (fun page lines => Scroll.bulk_body index page = inr lines)
                    (filter Py.truthy (hits :: Trace.pages new))
                    (Trace.bulk_bodies new)).
  { intros tr tr' sc sc' scroll_id sid' hits total_docs docs Ht H.
    inversion H; subst. exists []. rewrite app_nil_r.
    split; [reflexivity|]. cbn. rewrite Ht. constructor. }
  induction n as [|n IH];
    intros sc Hlen tr scroll_id hits total_docs sid' docs sc' tr' H;
    rewrite page_loop_unfold in H.
  - destruct sc; [|simpl in Hlen; lia].
    destruct (Py.truthy hits) eqn:Ht; simpl in H;
      [|apply (Hend _ _ _ _ _ _ _ _ _ Ht H)].
    destruct (Scroll.bulk_body index hits); discriminate.
  - destruct (Py.truthy hits) eqn:Ht; simpl in H;
      [|apply (Hend _ _ _ _ _ _ _ _ _ Ht H)].
    destruct (Scroll.bulk_body index hits) as [e|lines] eqn:Hb; [discriminate|].
    destruct sc as [|rp1 sc1]; [discriminate|].
    destruct (Eff.deliver rp1) as [e|response]; [discriminate|].
    assert (Hlogs := check_logs response).
    destruct (check response) as [[e|u] evs]; simpl in Hlogs; [discriminate|].
    destruct sc1 as [|rp2 sc2]; [discriminate|].
    destruct (next_call_carries scroll_id rp2) as [Hnb Hnp].
    destruct (bind_result (Eff.deliver rp2) Scroll.read_page)
      as [e|[scroll_id2 hits2]]; [discriminate|].
    simpl in Hlen.
    destruct (IH sc2 ltac:(lia) _ _ _ _ _ _ _ _ H) as (new & -> & HF).
    destruct (bulk_call_carries lines rp1) as [Hbp Hbb].
    destruct (logs_carry_nothing evs Hlogs) as [Hlp Hlb].
    exists ([Call (bulk_rq lines) rp1] ++ evs
            ++ [Call (next_rq scroll_id) rp2] ++ new)%list.
    split; [now rewrite <- !app_assoc|].
    rewrite !pages_app, !bulk_bodies_app, Hlp, Hlb.
    unfold Trace.pages at 1 2, Trace.bulk_bodies at 1 2. cbn [flat_map].
    rewrite Hbp, Hbb, Hnb, Hnp. cbn [app filter]. rewrite Ht.
    constructor; [exact Hb|exact HF].
Qed.

Lemma scroll_copy_bulk st n st' :
  Scroll.scroll_copy bulk_rq next_rq check index open_rq close_rq st
  = (inr n, st') ->
  exists new,
    trace st' = (trace st ++ new)%list
    /\ Forall2 (fun page lines => Scroll.bulk_body index page = inr lines)
         (filter Py.truthy (Trace.pages new)) (Trace.bulk_bodies new).
Proof.
  unfold Scroll.scroll_copy. intros H.
  apply bind_returns in H. destruct H as (response & st1 & Hopen & H).
  apply bind_returns in H. destruct H as ([scroll_id hits] & st2 & Hread & H).
  unfold Eff.lift in Hread. inversion Hread as [[Hpage Hst2]]; subst st2.
  apply bind_returns in H. destruct H as ([last total] & st3 & Hloop & H).
  apply bind_returns in H. destruct H as (closed & st4 & Hclose & H).
  unfold Eff.ret in H. inversion H; subst st4; clear H.
  apply http_returns in Hopen. apply http_returns in Hclose.
  unfold Scroll.run_page_loop in Hloop. cbn [fst snd] in Hloop.
  destruct (Scroll.page_loop bulk_rq next_rq check index (script st1)
              (trace st1) scroll_id hits 0) as [[r sc] tr] eqn:Hrun.
  inversion Hloop; subst r st3; clear Hloop.
  destruct (page_loop_bulk (length (script st1)) _ (le_n _) _ _ _ _ _ _ _ _ Hrun)
    as (new1 & -> & HF).
  cbn [trace] in Hclose. cbn [fst] in Hclose.
  exists ([Call open_rq (Returns response)] ++ new1
          ++ [Call (close_rq last) (Returns closed)])%list.
  split; [rewrite Hclose, Hopen; now rewrite <- !app_assoc|].
  rewrite !pages_app, !bulk_bodies_app.
  unfold Trace.pages at 1 3, Trace.bulk_bodies at 1 3. cbn [flat_map].
  destruct open_rq_shape as [Hom [jo Hob]].
  destruct (close_rq_shape last) as [Hcm [jc Hcb]].
  unfold Trace.page_of, Trace.bulk_of.
  rewrite Hom, Hob, Hcm, ?Hcb, Hpage. cbn [app]. rewrite !app_nil_r.
  exact HF.
Qed.

End LoopFacts.

(** ** Computations that only add to the trace *)

Section Appends.

Variable P : event -> bool.

Lemma appends_ret {A} (a : A) : Trace.appends P (Eff.ret a).
Proof. intros st. exists []. cbn. now rewrite app_nil_r. Qed.

Lemma appends_raise {A} (e : exn) : Trace.appends P (@Eff.raise A e).
Proof. intros st. exists []. cbn. now rewrite app_nil_r. Qed.

Lemma appends_lift {A} (r : result A) : Trace.appends P (Eff.lift r).
Proof. intros st. exists []. cbn. now rewrite app_nil_r. Qed.

Lemma appends_log lvl msg :
  P (Log lvl msg) = true -> Trace.appends P (Eff.log lvl msg).
Proof. intros H st. exists [Log lvl msg]. cbn. repeat split. now constructor. Qed.

Lemma appends_http rq :
  (forall rp, P (Call rq rp) = true) -> Trace.appends P (Eff.http rq).
Proof.
  intros H st. unfold Eff.http.
  destruct (script st) as [|rp rest]; cbn; eexists; repeat split;
    constructor; auto.
Qed.

Lemma appends_bind {A B} (c : Eff.M A) (k : A -> Eff.M B) :
  Trace.appends P c -> (forall a, Trace.appends P (k a)) ->
  Trace.appends P (Eff.bind c k).
Proof.
  intros Hc Hk st. unfold Eff.bind.
  destruct (Hc st) as (new1 & Ht1 & Hf1 & Hs1).
  destruct (c st) as [[e|a] st1]; cbn in *.
  - exists new1. auto.
  - destruct (Hk a st1) as (new2 & Ht2 & Hf2 & Hs2).
    exists (new1 ++ new2)%list. rewrite Ht2, Ht1, Hs2, Hs1, app_assoc.
    repeat split. now apply Forall_app.
Qed.

Lemma appends_catch {A} (c : Eff.M A) (h : exn -> Eff.M A) :
  Trace.appends P c -> (forall e, Trace.appends P (h e)) ->
  Trace.appends P (Eff.catch c h).
Proof.
  intros Hc Hh st. unfold Eff.catch.
  destruct (Hc st) as (new1 & Ht1 & Hf1 & Hs1).
  destruct (c st) as [[e|a] st1]; cbn in *.
  - destruct (Hh e st1) as (new2 & Ht2 & Hf2 & Hs2).
    exists (new1 ++ new2)%list. rewrite Ht2, Ht1, Hs2, Hs1, app_assoc.
    repeat split. now apply Forall_app.
  - exists new1. auto.
Qed.

Lemma appends_catch_request {A} (c : Eff.M A) (h : exn -> Eff.M A) :
  Trace.appends P c -> (forall e, Trace.appends P (h e)) ->
  Trace.appends P (Eff.catch_request c h).
Proof.
  intros Hc Hh. apply appends_catch; [exact Hc|].
  intros e. destruct (is_request_exception e); [apply Hh|apply appends_raise].
Qed.

End Appends.

Lemma get_source_index_info_appends self index_name :
  Trace.appends Trace.is_schema_event
    (Copier.get_source_index_info self index_name).
Proof.
  unfold Copier.get_source_index_info.
  repeat first
    [ apply appends_catch_request | apply appends_bind | intros ?
    | apply appends_http | apply appends_lift | apply appends_ret
    | apply appends_raise | apply appends_log | reflexivity ].
Qed.

Lemma create_index_with_settings_appends self src tgt ss sm :
  Trace.appends Trace.is_schema_event
    (Copier.create_index_with_settings self src tgt ss sm).
Proof.
  unfold Copier.create_index_with_settings.
  repeat first
    [ apply appends_catch_request | apply appends_bind | intros ?
    | apply appends_http | apply appends_lift | apply appends_ret
    | apply appends_raise | apply appends_log | reflexivity ].
Qed.

Lemma schema_events_are_silent (tr : list event) :
  Forall (fun ev => Trace.is_schema_event ev = true) tr ->
  Trace.count Trace.is_close tr = 0%nat
  /\ Trace.source_docs tr = 0
  /\ Trace.sent_docs tr = 0.
Proof.
  intros H. repeat split.
  - apply count_zero. eapply Forall_impl; [|exact H].
    intros [[m u a h b] rp|lvl msg]; cbn; [|reflexivity].
    destruct m, b; try discriminate; reflexivity.
  - apply sum_zero. eapply Forall_impl; [|exact H].
    intros [[m u a h b] rp|lvl msg]; cbn; [|reflexivity].
    destruct rp; [reflexivity|]. destruct m, b; try discriminate; reflexivity.
  - apply sum_zero. eapply Forall_impl; [|exact H].
    intros [[m u a h b] rp|lvl msg]; cbn; [|reflexivity].
    destruct m, b; try discriminate; reflexivity.
Qed.

(** ** reindex_data *)

Lemma copier_check_bulk_logs (r : Response) :
  Forall (fun ev => Trace.is_log ev = true) (snd (Copier.check_bulk r)).
Proof.
  unfold Copier.check_bulk.
  destruct (negb (status_code r =? 200)); cbn; [repeat constructor|].
  destruct (Http.json_of r) as [e|j]; cbn; [constructor|].
  destruct (Py.get_default j "errors" (JBool false)) as [e|flag]; cbn;
    [constructor|].
  destruct (Py.truthy flag); cbn; repeat constructor.
Qed.

Lemma migration_check_bulk_logs (r : Response) :
  Forall (fun ev => Trace.is_log ev = true) (snd (Migration.check_bulk r)).
Proof.
  unfold Migration.check_bulk.
  destruct (negb (status_code r =? 200)); cbn; [constructor|].
  destruct (Http.json_of r) as [e|j]; cbn; [constructor|].
  destruct (Py.get_default j "errors" (JBool false)); cbn; constructor.
Qed.

(** What [reindex_data] adds to the trace; the [except] block adds at most
    one logger call, after everything else. *)
Lemma reindex_data_trace self src tgt st res st' :
  Copier.reindex_data self src tgt st = (res, st') ->
  exists new,
    trace st' = (trace st ++ new)%list
    /\ stats st' = stats st
    /\ (forall n, res = inr n ->
          Trace.count Trace.is_close new = 1%nat
          /\ n = Trace.source_docs new
          /\ Trace.sent_docs new = n)
    /\ (forall e, res = inl e ->
          Trace.count Trace.is_close new = 0%nat
          \/ (Trace.count Trace.is_close new = 1%nat
              /\ existsb Trace.close_failed new = true)).
Proof.
  unfold Copier.reindex_data, Eff.catch_request, Eff.catch.
  destruct (Scroll.scroll_copy (Copier.bulk_request self)
              (Copier.next_page_request self) Copier.check_bulk tgt
              (Copier.open_request self src) (Copier.close_request self) st)
    as [r st1] eqn:Hbody.
  apply scroll_copy_trace in Hbody;
    [|intros; split; [reflexivity|try (eexists; reflexivity)]; reflexivity ..
     |apply copier_check_bulk_logs
     |split; [reflexivity|eexists; reflexivity]
     |intros; split; [reflexivity|eexists; reflexivity]].
  destruct Hbody as (new & Htr & Hst & Hok & Herr).
  destruct r as [e|n].
  - destruct (is_request_exception e).
    + unfold Eff.bind, Eff.log, Eff.emit, Eff.raise. cbn.
      intros H. inversion H; subst; clear H. cbn.
      exists (new ++ [Log ERROR ("Error during reindexing: " ++ str_exn e)])%list.
      rewrite Htr, app_assoc. split; [reflexivity|]. split; [exact Hst|].
      split; [discriminate|]. intros e' _.
      rewrite count_app, count_cons, existsb_app. cbn.
      destruct (Herr e eq_refl) as [H0|[H1 Hf]].
      * left. rewrite H0. reflexivity.
      * right. rewrite H1, Hf. split; reflexivity.
    + unfold Eff.raise. intros H. inversion H; subst; clear H.
      exists new. split; [exact Htr|]. split; [exact Hst|].
      split; [discriminate|]. intros e' _. apply (Herr e eq_refl).
  - intros H. inversion H; subst; clear H.
    exists new. split; [exact Htr|]. split; [exact Hst|].
    split; [|discriminate]. intros n' Hn. inversion Hn; subst.
    apply Hok. reflexivity.
Qed.

Lemma migration_reindex_data_trace self src size st res st' :
  Migration.reindex_data self src size st = (res, st') ->
  exists new,
    trace st' = (trace st ++ new)%list
    /\ (res = inr tt -> Trace.count Trace.is_close new = 1%nat)
    /\ (forall e, res = inl e ->
          Trace.count Trace.is_close new = 0%nat
          \/ (Trace.count Trace.is_close new = 1%nat
              /\ existsb Trace.close_failed new = true)).
Proof.
  unfold Migration.reindex_data. unfold Eff.bind at 1.
  destruct (Scroll.scroll_copy (Migration.bulk_request self)
              (Migration.next_page_request self) Migration.check_bulk src
              (Scroll.open_request (m_source_host self) (m_source_auth self)
                 (m_headers self) src size)
              (Migration.close_request self) st)
    as [r st1] eqn:Hbody.
  apply scroll_copy_trace in Hbody;
    [|intros; split; [reflexivity|try (eexists; reflexivity)]; reflexivity ..
     |apply migration_check_bulk_logs
     |split; [reflexivity|eexists; reflexivity]
     |intros; split; [reflexivity|eexists; reflexivity]].
  destruct Hbody as (new & Htr & Hst & Hok & Herr).
  destruct r as [e|n]; unfold Eff.ret; intros H; inversion H; subst; clear H;
    exists new; (split; [exact Htr|]).
  - split; [discriminate|]. intros e' _. apply (Herr e eq_refl).
  - split; [|discriminate]. intros _. apply (Hok n eq_refl).
Qed.

(** C2, as the code has it.  In both scripts, [reindex_data] sends the
    release of the scroll exactly once when it returns normally.  When it
    ends with an exception no release was sent, unless the exception is the
    failure of the release request itself: an exception that leaves the page
    loop is not followed by a release. *)
Theorem scroll_released_once_on_normal_end_only :
  (forall self src tgt st,
      let run := Copier.reindex_data self src tgt st in
      exists new,
        trace (snd run) = (trace st ++ new)%list
        /\ (forall n, fst run = inr n ->
              Trace.count Trace.is_close new = 1%nat)
        /\ (forall e, fst run = inl e ->
              Trace.count Trace.is_close new = 0%nat
              \/ (Trace.count Trace.is_close new = 1%nat
                  /\ existsb Trace.close_failed new = true)))
  /\ (forall self src size st,
        let run := Migration.reindex_data self src size st in
        exists new,
          trace (snd run) = (trace st ++ new)%list
          /\ (fst run = inr tt -> Trace.count Trace.is_close new = 1%nat)
          /\ (forall e, fst run = inl e ->
                Trace.count Trace.is_close new = 0%nat
                \/ (Trace.count Trace.is_close new = 1%nat
                    /\ existsb Trace.close_failed new = true))).
Proof.
  split.
  - intros self src tgt st run.
    destruct (reindex_data_trace self src tgt st (fst run) (snd run))
      as (new & Htr & _ & Hok & Herr); [subst run; apply surjective_pairing|].
    exists new. split; [exact Htr|]. split; [|exact Herr].
    intros n Hn. apply (Hok n Hn).
  - intros self src size st run.
    destruct (migration_reindex_data_trace self src size st (fst run) (snd run))
      as (new & Htr & Hok & Herr); [subst run; apply surjective_pairing|].
    exists new. auto.
Qed.

Lemma scroll_released_once_on_normal_end_only_witness :
  let run := Copier.reindex_data (Fixture.copier None) "a" "b"
               (Fixture.fresh Fixture.scroll_two_pages) in
  fst run = inr 3
  /\ Trace.count Trace.is_close (trace (snd run)) = 1%nat.
Proof.
  intros run. split; [reflexivity|].
  destruct (proj1 scroll_released_once_on_normal_end_only
              (Fixture.copier None) "a" "b"
              (Fixture.fresh Fixture.scroll_two_pages))
    as (new & Htr & Hok & _).
  fold run in Htr, Hok. rewrite Htr. cbn [Fixture.fresh trace app].
  apply (Hok 3). reflexivity.
Defined.

(** C2, as the claim has it, fails: the scroll is opened, the fetch of the
    second page is refused, [reindex_data] raises, and no release is among
    the requests sent. *)
Lemma scroll_not_released_when_fetch_fails :
  let run := Copier.reindex_data (Fixture.copier None) "a" "b"
               (Fixture.fresh Fixture.scroll_fetch_fails) in
  fst run
  = inl (RequestException
           "500 Server Error: Internal Server Error for url: http://source:9200/_search/scroll"
           (Some Fixture.scroll_lost))
  /\ Trace.calls (trace (snd run))
     = [(POST, "http://source:9200/a/_search?scroll=5m");
        (POST, "http://dest:9200/_bulk");
        (POST, "http://source:9200/_search/scroll")]
  /\ Trace.count Trace.is_close (trace (snd run)) = 0%nat.
Proof. repeat split. Qed.

(** ** One round of the loop *)

(** A round whose bulk answer is read without an exception goes on to
    fetch the next page, with the page counted. *)
Lemma copier_page_loop_step self target r rp2 rest tr scroll_id hits total
  lines evs :
  Py.truthy hits = true ->
  Scroll.bulk_body target hits = inr lines ->
  Copier.check_bulk r = (inr tt, evs) ->
  Copier.page_loop self target (Returns r :: rp2 :: rest) tr scroll_id hits total
  = let tr' := (tr ++ Call (Copier.bulk_request self lines) (Returns r)
                   :: evs
                   ++ [Call (Copier.next_page_request self scroll_id) rp2])%list in
    match bind_result (Eff.deliver rp2) Scroll.read_page with
    | inl e => (inl e, rest, tr')
    | inr (scroll_id', hits') =>
        Copier.page_loop self target rest tr' scroll_id' hits'
                         (total + Scroll.len hits)
    end.
Proof.
  intros Ht Hb Hc. unfold Copier.page_loop.
  rewrite page_loop_unfold, Ht, Hb. cbn [negb Eff.deliver]. rewrite Hc.
  cbv zeta. rewrite <- app_assoc. reflexivity.
Qed.

(** C1, as the code has it.  When the answer to the bulk request of a page
    has a status other than 200, its text is logged as an error, the
    documents of the page are counted, and the loop goes on with the fetch
    of the next page: what becomes of the copy is decided by that fetch and
    the rounds after it, not by the bulk answer. *)
Theorem bulk_error_status_is_logged_and_loop_goes_on :
  forall self target (r : Response) (rp2 : reply) rest tr
         scroll_id hits total lines,
    Py.truthy hits = true ->
    Scroll.bulk_body target hits = inr lines ->
    status_code r <> 200 ->
    Copier.page_loop self target (Returns r :: rp2 :: rest) tr
                     scroll_id hits total
    = let tr' := (tr ++ [Call (Copier.bulk_request self lines) (Returns r);
                         Log ERROR ("Error in bulk operation: " ++ text r);
                         Call (Copier.next_page_request self scroll_id) rp2])%list in
      match bind_result (Eff.deliver rp2) Scroll.read_page with
      | inl e => (inl e, rest, tr')
      | inr (scroll_id', hits') =>
          Copier.page_loop self target rest tr' scroll_id' hits'
                           (total + Scroll.len hits)
      end.
Proof.
  intros self target r rp2 rest tr scroll_id hits total lines Ht Hb Hst.
  apply (copier_page_loop_step self target r rp2 rest tr scroll_id hits total
           lines [Log ERROR ("Error in bulk operation: " ++ text r)] Ht Hb).
  unfold Copier.check_bulk.
  destruct (Z.eqb_spec (status_code r) 200); [contradiction|reflexivity].
Qed.

Lemma bulk_error_status_is_logged_and_loop_goes_on_witness :
  Py.truthy (JArr [Fixture.doc "1"]) = true
  /\ (exists lines, Scroll.bulk_body "b" (JArr [Fixture.doc "1"]) = inr lines)
  /\ status_code Fixture.server_error <> 200
  /\ fst (fst (Copier.page_loop (Fixture.copier None) "b"
                 [Returns Fixture.server_error; Fixture.page "s2" []] []
                 (JStr "s1") (JArr [Fixture.doc "1"]) 0))
     = inr (JStr "s2", 1).
Proof.
  split; [reflexivity|]. split; [eexists; reflexivity|].
  split; [discriminate|].
  rewrite (bulk_error_status_is_logged_and_loop_goes_on
             (Fixture.copier None) "b" Fixture.server_error
             (Fixture.page "s2" []) [] [] (JStr "s1")
             (JArr [Fixture.doc "1"]) 0 _ eq_refl eq_refl);
    [reflexivity|discriminate].
Defined.

(** C1, as the claim has it, fails: the bulk request of the only page is
    answered 500, the copier fetches the next page all the same, and the
    index is recorded as a success with the page counted. *)
Lemma bulk_500_does_not_abort_the_copy :
  let run := Copier.copy_index (Fixture.copier None) "a" "b"
               (Fixture.fresh Fixture.copy_with_bulk_500) in
  status_code Fixture.server_error = 500
  /\ fst run = inr tt
  /\ successful_copies (stats (snd run)) = [("a", "b", 1)]
  /\ failed_copies (stats (snd run)) = []
  /\ Trace.calls (trace (snd run))
     = [(GET, "http://source:9200/a/_settings");
        (GET, "http://source:9200/a/_mapping");
        (DELETE, "http://dest:9200/b");
        (PUT, "http://dest:9200/b");
        (POST, "http://source:9200/a/_search?scroll=5m");
        (POST, "http://dest:9200/_bulk");
        (POST, "http://source:9200/_search/scroll");
        (DELETE, "http://source:9200/_search/scroll")].
Proof. repeat split. Qed.

(** C8.  When the answer to the bulk request of a page has a status in
    200..299 and a true [errors] member, the answer is logged (a warning for
    200, an error otherwise), the documents of the page are counted, and the
    loop goes on with the fetch of the next page. *)
Theorem partial_bulk_failure_is_logged_and_loop_goes_on :
  forall self target (r : Response) (rp2 : reply) rest tr
         scroll_id hits total lines members flag,
    Py.truthy hits = true ->
    Scroll.bulk_body target hits = inr lines ->
    200 <= status_code r < 300 ->
    body_json r = Some (JObj members) ->
    Py.assoc "errors" members = Some flag ->
    Py.truthy flag = true ->
    exists lvl msg,
      Copier.page_loop self target (Returns r :: rp2 :: rest) tr
                       scroll_id hits total
      = let tr' := (tr ++ [Call (Copier.bulk_request self lines) (Returns r);
                           Log lvl msg;
                           Call (Copier.next_page_request self scroll_id) rp2])%list in
        match bind_result (Eff.deliver rp2) Scroll.read_page with
        | inl e => (inl e, rest, tr')
        | inr (scroll_id', hits') =>
            Copier.page_loop self target rest tr' scroll_id' hits'
                             (total + Scroll.len hits)
        end.
Proof.
  intros self target r rp2 rest tr scroll_id hits total lines members flag
         Ht Hb Hst Hj He Hf.
  destruct (Z.eqb_spec (status_code r) 200) as [H200|H200].
  - exists WARNING, "Bulk operation had errors:".
    apply (copier_page_loop_step self target r rp2 rest tr scroll_id hits total
             lines [Log WARNING "Bulk operation had errors:"] Ht Hb).
    unfold Copier.check_bulk, Http.json_of, Py.get_default, Py.get.
    rewrite H200, Hj, He, Hf. reflexivity.
  - exists ERROR, ("Error in bulk operation: " ++ text r).
    apply (copier_page_loop_step self target r rp2 rest tr scroll_id hits total
             lines [Log ERROR ("Error in bulk operation: " ++ text r)] Ht Hb).
    unfold Copier.check_bulk.
    destruct (Z.eqb_spec (status_code r) 200); [contradiction|reflexivity].
Qed.

Lemma partial_bulk_failure_is_logged_and_loop_goes_on_witness :
  Py.truthy (JArr [Fixture.doc "1"; Fixture.doc "2"]) = true
  /\ 200 <= status_code Fixture.bulk_partial < 300
  /\ fst (fst (Copier.page_loop (Fixture.copier None) "b"
                 [Returns Fixture.bulk_partial; Fixture.page "s2" []] []
                 (JStr "s1") (JArr [Fixture.doc "1"; Fixture.doc "2"]) 0))
     = inr (JStr "s2", 2).
Proof.
  split; [reflexivity|]. split; [cbn; lia|].
  destruct (partial_bulk_failure_is_logged_and_loop_goes_on
              (Fixture.copier None) "b" Fixture.bulk_partial
              (Fixture.page "s2" []) [] [] (JStr "s1")
              (JArr [Fixture.doc "1"; Fixture.doc "2"]) 0 _ _ (JBool true)
              eq_refl eq_refl ltac:(cbn; lia) eq_refl eq_refl eq_refl)
    as (lvl & msg & ->).
  reflexivity.
Defined.

(** ** copy_index *)

(** The console that takes every text. *)
Lemma utf8_takes_every_text (text : string) :
  Stdout.write Stdout.utf8 text = inr tt.
Proof.
  unfold Stdout.write.
  assert (H : forall cps i, Stdout.first_bad Stdout.utf8 cps i = None).
  { induction cps as [|cp cps IH]; intros i; [reflexivity|].
    cbn [Stdout.first_bad]. unfold Stdout.can_encode at 1.
    cbn [has_char Stdout.utf8]. rewrite orb_true_r. apply IH. }
  now rewrite H.
Qed.

(** [copy_index] is its [try] statement when the announcement is written,
    and nothing but the exception of the console when it is not. *)
Lemma copy_index_written self src tgt st :
  Stdout.write (stdout st) (Copier.announcement src tgt) = inr tt ->
  Copier.copy_index self src tgt st = Copier.copy_index_try self src tgt st.
Proof.
  intros H. unfold Copier.copy_index, Eff.bind, Eff.print. now rewrite H.
Qed.

Lemma copy_index_refused self src tgt st e :
  Stdout.write (stdout st) (Copier.announcement src tgt) = inl e ->
  Copier.copy_index self src tgt st = (inl e, st).
Proof.
  intros H. unfold Copier.copy_index, Eff.bind, Eff.print. now rewrite H.
Qed.

Lemma copy_index_cases self src tgt st :
  (Stdout.write (stdout st) (Copier.announcement src tgt) = inr tt
   /\ Copier.copy_index self src tgt st
      = Copier.copy_index_try self src tgt st)
  \/ (exists e,
        Stdout.write (stdout st) (Copier.announcement src tgt) = inl e
        /\ Copier.copy_index self src tgt st = (inl e, st)).
Proof.
  destruct (Stdout.write (stdout st) (Copier.announcement src tgt))
    as [e|[]] eqn:H.
  - right. exists e. split; [reflexivity|now apply copy_index_refused].
  - left. split; [reflexivity|now apply copy_index_written].
Qed.

Lemma copy_index_handler_raises src tgt e st :
  exists e' st', Copier.copy_index_handler src tgt e st = (inl e', st').
Proof.
  unfold Copier.copy_index_handler, Eff.bind, Eff.modify_stats, Eff.log,
    Eff.emit, Eff.raise, Eff.ret.
  destruct e as [msg [r|]| | | | |]; cbn; eauto.
Qed.

Lemma schema_events_carry_nothing (tr : list event) :
  Forall (fun ev => Trace.is_schema_event ev = true) tr ->
  Trace.pages tr = [] /\ Trace.bulk_bodies tr = [].
Proof.
  unfold Trace.pages, Trace.bulk_bodies.
  induction 1 as [|[[m u a h b] rp|lvl msg] tr H _ [IH1 IH2]];
    [split; reflexivity| |cbn; now rewrite IH1, IH2].
  cbn [flat_map]. rewrite IH1, IH2. cbn in H |- *.
  destruct m, b; try discriminate; destruct rp; split; reflexivity.
Qed.

(** What [reindex_data] sent when it returns. *)
Lemma reindex_data_bulk self src tgt st n st' :
  Copier.reindex_data self src tgt st = (inr n, st') ->
  exists new,
    trace st' = (trace st ++ new)%list
    /\ Forall2 (fun page lines => Scroll.bulk_body tgt page = inr lines)
         (filter Py.truthy (Trace.pages new)) (Trace.bulk_bodies new).
Proof.
  unfold Copier.reindex_data. intros H.
  apply catch_request_reraise_returns in H.
  apply scroll_copy_bulk in H;
    [exact H
    |intros; split; [reflexivity|try (eexists; reflexivity)]; reflexivity ..
    |apply copier_check_bulk_logs
    |split; [reflexivity|eexists; reflexivity]
    |intros; split; [reflexivity|eexists; reflexivity]].
Qed.

(** The lines of a bulk body are the two lines of each hit of its page. *)
Lemma bulk_body_sent index (page : json) (lines : list json) :
  Scroll.bulk_body index page = inr lines ->
  BulkFormat.page_sent index page lines.
Proof.
  destruct page as [| | | |hits|]; try discriminate. cbn [Scroll.bulk_body].
  intros H. exists hits. revert lines H.
  induction hits as [|hit hits IH]; intros lines H.
  - inversion H; subst. exists []. repeat split. constructor.
  - cbn [Scroll.bulk_lines] in H. unfold bind_result, Scroll.hit_lines in H.
    destruct (Py.getitem hit "_id") as [e|id] eqn:Hid; [discriminate|].
    destruct (Py.getitem hit "_source") as [e|source] eqn:Hsrc; [discriminate|].
    destruct (Scroll.bulk_lines index hits) as [e|ls]; [discriminate|].
    inversion H; subst; clear H.
    destruct (IH ls eq_refl) as (docs & _ & Hf & ->).
    exists ((id, source) :: docs). split; [reflexivity|].
    split; [constructor; [split; assumption|exact Hf]|reflexivity].
Qed.

Lemma source_docs_of_pages (tr : list event) :
  Trace.source_docs tr
  = fold_right Z.add 0 (map Scroll.len (Trace.pages tr)).
Proof.
  unfold Trace.source_docs, Trace.sum, Trace.pages.
  induction tr as [|ev tr IH]; [reflexivity|].
  cbn [fold_right flat_map]. rewrite map_app, fold_right_app, IH.
  destruct ev as [rq [msg resp|r]|lvl msg]; cbn; try reflexivity.
  destruct (rq_method rq); try reflexivity.
  destruct (rq_body rq); try reflexivity.
  destruct (Scroll.read_page r) as [e|[scroll_id hits]]; reflexivity.
Qed.

(** The [try] statement that ends normally has recorded one success, whose
    count is the number of documents of the pages read; every page that is
    not empty was sent in a bulk request of its own, in the order of the
    pages; and the scroll was released. *)
Lemma copy_index_try_success self src tgt st st' :
  Copier.copy_index_try self src tgt st = (inr tt, st') ->
  exists new n,
    trace st' = (trace st ++ new)%list
    /\ stats st' = Stats.add_success src tgt n (stats st)
    /\ n = Trace.source_docs new
    /\ Trace.sent_docs new = n
    /\ Trace.count Trace.is_close new = 1%nat
    /\ Forall2 (fun page lines => Scroll.bulk_body tgt page = inr lines)
         (filter Py.truthy (Trace.pages new)) (Trace.bulk_bodies new).
Proof.
  unfold Copier.copy_index_try, Eff.catch.
  match goal with |- context [match ?b st with _ => _ end] =>
    destruct (b st) as [[e|[]] st1] eqn:Hbody end.
  { destruct (copy_index_handler_raises src tgt e st1) as (e' & st2 & ->).
    discriminate. }
  intros H. inversion H; subst; clear H.
  unfold Eff.bind at 1 in Hbody.
  destruct (get_source_index_info_appends self src st) as (new1 & Ht1 & Hf1 & Hs1).
  destruct (Copier.get_source_index_info self src st)
    as [[e|[settings mappings]] st1]; [discriminate|]. cbn [snd] in Ht1, Hs1.
  unfold Eff.bind at 1 in Hbody.
  destruct (create_index_with_settings_appends self src tgt settings mappings st1)
    as (new2 & Ht2 & Hf2 & Hs2).
  destruct (Copier.create_index_with_settings self src tgt settings mappings st1)
    as [[e|created] st2]; [discriminate|]. cbn [snd] in Ht2, Hs2.
  unfold Eff.bind at 1 in Hbody.
  destruct (Copier.reindex_data self src tgt st2) as [[e|n] st3] eqn:Hre;
    [discriminate|].
  destruct (reindex_data_trace self src tgt st2 _ _ Hre)
    as (new3 & Ht3 & Hs3 & Hok & _).
  destruct (reindex_data_bulk self src tgt st2 _ _ Hre) as (new3' & Ht3' & Hbulk).
  rewrite Ht3 in Ht3'. apply app_inv_head in Ht3'. subst new3'.
  destruct (Hok n eq_refl) as (Hc3 & Hn & Hsent).
  unfold Eff.modify_stats in Hbody. inversion Hbody; subst st'; clear Hbody.
  cbn [trace stats].
  destruct (schema_events_are_silent new1 Hf1) as (C1 & S1 & D1).
  destruct (schema_events_are_silent new2 Hf2) as (C2 & S2 & D2).
  destruct (schema_events_carry_nothing new1 Hf1) as (P1 & B1).
  destruct (schema_events_carry_nothing new2 Hf2) as (P2 & B2).
  exists (new1 ++ new2 ++ new3)%list, n.
  split; [rewrite Ht3, Ht2, Ht1; now rewrite <- !app_assoc|].
  split; [now rewrite Hs3, Hs2, Hs1|].
  rewrite !pages_app, !bulk_bodies_app, P1, P2, B1, B2. cbn [app].
  unfold Trace.source_docs, Trace.sent_docs in *.
  rewrite !sum_app, !count_app, S1, S2, D1, D2, C1, C2, Hc3.
  repeat split; try lia. exact Hbulk.
Qed.

Lemma copy_index_success self src tgt st st' :
  Copier.copy_index self src tgt st = (inr tt, st') ->
  Stdout.write (stdout st) (Copier.announcement src tgt) = inr tt
  /\ Copier.copy_index_try self src tgt st = (inr tt, st').
Proof.
  destruct (copy_index_cases self src tgt st) as [[Hw ->]|(e & Hw & ->)];
    [auto|discriminate].
Qed.

(** C3, as the code has it.  For every copy recorded as a success, the
    document count recorded with it is the number of documents of all the
    pages that the source returned; and for every page that is not empty
    one bulk request was sent to the destination, in the order of the
    pages, with the two lines of each document of the page, once and in the
    order of the page.  The count does not depend on what the destination
    answered. *)
Theorem success_count_is_pages_total :
  forall self src tgt st st',
    Copier.copy_index self src tgt st = (inr tt, st') ->
    exists new n,
      trace st' = (trace st ++ new)%list
      /\ successful_copies (stats st')
         = (successful_copies (stats st) ++ [(src, tgt, n)])%list
      /\ failed_copies (stats st') = failed_copies (stats st)
      /\ n = fold_right Z.add 0 (map Scroll.len (Trace.pages new))
      /\ Forall2 (BulkFormat.page_sent tgt)
           (filter Py.truthy (Trace.pages new)) (Trace.bulk_bodies new).
Proof.
  intros self src tgt st st' H.
  apply copy_index_success in H. destruct H as [_ H].
  destruct (copy_index_try_success self src tgt st st' H)
    as (new & n & Htr & Hst & Hn & _ & _ & Hbulk).
  exists new, n. rewrite Hst. cbn [successful_copies failed_copies Stats.add_success].
  split; [exact Htr|]. split; [reflexivity|]. split; [reflexivity|].
  split; [now rewrite <- source_docs_of_pages|].
  eapply Forall2_impl; [|exact Hbulk].
  intros page lines. apply bulk_body_sent.
Qed.

Lemma success_count_is_pages_total_witness :
  let run := Copier.copy_index (Fixture.copier None) "a" "b"
               (Fixture.fresh (Fixture.copy_clean "a")) in
  fst run = inr tt
  /\ successful_copies (stats (snd run)) = [("a", "b", 1)]
  /\ Trace.pages (trace (snd run)) = [JArr [Fixture.doc "1"]; JArr []]
  /\ Trace.bulk_bodies (trace (snd run))
     = [BulkFormat.entry "b" (JStr "1", JObj [("n", JStr "1")])]
  /\ Forall2 (BulkFormat.page_sent "b")
       [JArr [Fixture.doc "1"]] (Trace.bulk_bodies (trace (snd run))).
Proof.
  intros run.
  assert (Hrun : Copier.copy_index (Fixture.copier None) "a" "b"
                   (Fixture.fresh (Fixture.copy_clean "a"))
                 = (inr tt, snd run)) by reflexivity.
  destruct (success_count_is_pages_total _ _ _ _ _ Hrun)
    as (new & n & Htr & _ & _ & _ & Hsent).
  cbn [Fixture.fresh mkState trace app] in Htr.
  split; [reflexivity|]. split; [reflexivity|].
  split; [reflexivity|]. split; [reflexivity|].
  rewrite Htr.
  assert (Hp : Trace.pages new = [JArr [Fixture.doc "1"]; JArr []])
    by (rewrite <- Htr; reflexivity).
  rewrite Hp in Hsent. exact Hsent.
Defined.

(** C3, as the claim has it, fails: the source returned one document, the
    destination answered the bulk request that carried it with the status
    500, refusing it, and the copy is recorded as a success with one
    document. *)
Lemma success_count_exceeds_destination :
  let run := Copier.copy_index (Fixture.copier None) "a" "b"
               (Fixture.fresh Fixture.copy_with_bulk_500) in
  fst run = inr tt
  /\ successful_copies (stats (snd run)) = [("a", "b", 1)]
  /\ Trace.pages (trace (snd run)) = [JArr [Fixture.doc "1"]; JArr []]
  /\ filter Observe.is_bulk (trace (snd run))
     = [Call (Copier.bulk_request (Fixture.copier None)
                [BulkFormat.action "b" (JStr "1"); JObj [("n", JStr "1")]])
             (Returns Fixture.server_error)]
  /\ status_code Fixture.server_error = 500
  /\ text Fixture.server_error = "{'error': 'es_rejected_execution_exception'}".
Proof. repeat split. Qed.

(** ** The loop of main *)


(** An exception of the [requests] family that carries no response, such
    as a refused connection, makes the [except] block of [copy_index] raise
    before [add_failure]: the statistics are left as they were. *)
Lemma copy_index_unreachable_is_unrecorded self src tgt msg rest tr cs :
  let run := Copier.copy_index self src tgt
               (mkState (Fails msg None :: rest) tr cs) in
  fst run = inl (AttributeError "'NoneType' object has no attribute 'text'")
  /\ stats (snd run) = cs.
Proof.
  intros run. subst run.
  rewrite copy_index_written by apply utf8_takes_every_text.
  split; reflexivity.
Qed.

(** An exception that carries a response is recorded, with the text of the
    response. *)
Lemma copy_index_http_error_is_recorded self src tgt r rest tr cs :
  400 <= status_code r < 600 ->
  let run := Copier.copy_index self src tgt
               (mkState (Returns r :: rest) tr cs) in
  exists msg,
    fst run = inl (RequestException msg (Some r))
    /\ stats (snd run)
       = Stats.add_failure src tgt
           (msg ++ PyStr.newline ++ "Response: " ++ text r) cs.
Proof.
  intros Hst run. subst run.
  destruct (raise_for_status_error r Hst) as [msg Hmsg].
  exists msg.
  rewrite copy_index_written by apply utf8_takes_every_text.
  unfold Copier.copy_index_try, Copier.get_source_index_info, Eff.catch_request,
    Eff.catch, Eff.bind, Eff.http, Eff.lift.
  cbn [script trace stats stdout mkState Eff.deliver]. rewrite Hmsg. cbn.
  split; reflexivity.
Qed.

(** C5 on a run of two pairs: the source refuses the connection for the
    first pair, and the second pair is copied.  The second pair is attempted
    and recorded, but the failure of the first is in no list of the
    statistics, and the summary counts no failed copy. *)
Theorem unreachable_source_is_missing_from_summary :
  let run := Copier.run_copies (Fixture.copier None)
               [("a", "a2"); ("b", "b2")] 0 5000000
               (Fixture.fresh Fixture.first_unreachable) in
  failed_copies (stats (snd run)) = []
  /\ successful_copies (stats (snd run)) = [("b", "b2", 1)]
  /\ Trace.calls (trace (snd run))
     = [(GET, "http://source:9200/a/_settings");
        (GET, "http://source:9200/b/_settings");
        (GET, "http://source:9200/b/_mapping");
        (DELETE, "http://dest:9200/b2");
        (PUT, "http://dest:9200/b2");
        (POST, "http://source:9200/b/_search?scroll=5m");
        (POST, "http://dest:9200/_bulk");
        (POST, "http://source:9200/_search/scroll");
        (DELETE, "http://source:9200/_search/scroll")]
  /\ fst run
     = inr (PyStr.join PyStr.newline
              [PyStr.newline ++ "Copy Operation Summary:";
               "Duration: 0:00:05";
               "Total Documents Copied: 1";
               "Successful Copies: 1";
               "Failed Copies: 0";
               PyStr.newline ++ "Successful Operations:";
               "  - b → b2 (1 documents)"]).
Proof. repeat split. Qed.

(** ** The older script *)

(** In the older script too, a bulk answer with a status other than 200
    leaves the loop running; nothing is logged there. *)
Lemma migration_bulk_error_status_loop_goes_on self index r rp2 rest tr
  scroll_id hits total lines :
  Py.truthy hits = true ->
  Scroll.bulk_body index hits = inr lines ->
  status_code r <> 200 ->
  Scroll.page_loop (Migration.bulk_request self)
    (Migration.next_page_request self) Migration.check_bulk index
    (Returns r :: rp2 :: rest) tr scroll_id hits total
  = let tr' := (tr ++ [Call (Migration.bulk_request self lines) (Returns r);
                       Call (Migration.next_page_request self scroll_id) rp2])%list in
    match bind_result (Eff.deliver rp2) Scroll.read_page with
    | inl e => (inl e, rest, tr')
    | inr (scroll_id', hits') =>
        Scroll.page_loop (Migration.bulk_request self)
          (Migration.next_page_request self) Migration.check_bulk index
          rest tr' scroll_id' hits' (total + Scroll.len hits)
    end.
Proof.
  intros Ht Hb Hst.
  rewrite page_loop_unfold, Ht, Hb. cbn [negb Eff.deliver].
  unfold Migration.check_bulk at 1.
  destruct (Z.eqb_spec (status_code r) 200); [contradiction|].
  cbn [negb]. cbv zeta. rewrite <- app_assoc. reflexivity.
Qed.

(** * Further properties of the code *)

(** ** get_source_index_info *)

(** X1.  When the settings request is answered with a status in 400..599,
    [get_source_index_info] raises the [HTTPError] that carries the
    response, logs it, and sends nothing else: the mapping request is not
    made. *)
Theorem index_info_stops_at_settings_error :
  forall self index_name (r : Response) rest tr cs,
    400 <= status_code r < 600 ->
    let run := Copier.get_source_index_info self index_name
                 (mkState (Returns r :: rest) tr cs) in
    exists msg,
      fst run = inl (RequestException msg (Some r))
      /\ script (snd run) = rest
      /\ trace (snd run)
         = (tr ++ [Call (Copier.settings_request self index_name) (Returns r);
                   Log ERROR ("Error getting index info: " ++ msg)])%list.
Proof.
  intros self index_name r rest tr cs Hst run. subst run.
  destruct (raise_for_status_error r Hst) as [msg Hmsg]. exists msg.
  unfold Copier.get_source_index_info, Eff.catch_request, Eff.catch, Eff.bind,
    Eff.http, Eff.lift, Eff.log, Eff.emit, Eff.raise.
  cbn [script trace stats Eff.deliver mkState stdout]. rewrite Hmsg. cbn.
  rewrite <- app_assoc. repeat split.
Qed.

Lemma index_info_stops_at_settings_error_witness :
  400 <= status_code Fixture.bad_request < 600
  /\ exists msg,
       fst (Copier.get_source_index_info (Fixture.copier None) "a"
              (Fixture.fresh [Returns Fixture.bad_request;
                              Fixture.mappings_of "a"]))
       = inl (RequestException msg (Some Fixture.bad_request))
       /\ script (snd (Copier.get_source_index_info (Fixture.copier None) "a"
                         (Fixture.fresh [Returns Fixture.bad_request;
                                         Fixture.mappings_of "a"])))
          = [Fixture.mappings_of "a"].
Proof.
  split; [cbn; lia|].
  destruct (index_info_stops_at_settings_error (Fixture.copier None) "a"
              Fixture.bad_request [Fixture.mappings_of "a"] [] Stats.init
              ltac:(cbn; lia)) as (msg & Hr & Hs & _).
  exists msg. split; [exact Hr|exact Hs].
Defined.

(** X2.  When both requests are answered without an error status and the
    settings document is a JSON object that has no member for the index
    name (the answer for an alias, listed under the name of the concrete
    index), [get_source_index_info] raises [KeyError] of the index name
    after both requests, and logs nothing: its [except] block only takes
    exceptions of [requests]. *)
Theorem index_info_missing_index_is_key_error :
  forall self index_name (r1 r2 : Response) members rest tr cs,
    Http.raise_for_status r1 = inr tt ->
    Http.raise_for_status r2 = inr tt ->
    body_json r1 = Some (JObj members) ->
    Py.assoc index_name members = None ->
    Copier.get_source_index_info self index_name
      (mkState (Returns r1 :: Returns r2 :: rest) tr cs)
    = (inl (KeyError index_name),
       mkState rest
         (tr ++ [Call (Copier.settings_request self index_name) (Returns r1);
                 Call (Copier.mapping_request self index_name) (Returns r2)])
         cs).
Proof.
  intros self index_name r1 r2 members rest tr cs H1 H2 Hb Hk.
  unfold Copier.get_source_index_info, Eff.catch_request, Eff.catch, Eff.bind,
    Eff.http, Eff.lift, Eff.log, Eff.emit, Eff.raise.
  cbn [script trace stats Eff.deliver mkState stdout]. rewrite H1.
  cbn [script trace stats mkState stdout].
  rewrite H2. unfold Copier.index_part, Http.json_of, bind_result, Py.getitem.
  rewrite Hb, Hk. cbn. rewrite <- app_assoc. reflexivity.
Qed.

Lemma index_info_missing_index_is_key_error_witness :
  fst (Copier.get_source_index_info (Fixture.copier None) "alias"
         (Fixture.fresh [Fixture.settings_of "a" (JObj []);
                         Fixture.mappings_of "a"]))
  = inl (KeyError "alias").
Proof.
  apply (f_equal fst
           (index_info_missing_index_is_key_error (Fixture.copier None) "alias"
              (mkResponse 200 "OK" "http://es" "{}"
                 (Some (JObj [("a", JObj [("settings", JObj [])])])))
              (mkResponse 200 "OK" "http://es" "{}"
                 (Some (JObj [("a", JObj [("mappings", JObj [])])])))
              [("a", JObj [("settings", JObj [])])] [] [] Stats.init
              eq_refl eq_refl eq_refl eq_refl)).
Defined.

(** ** Destination settings: what is carried over *)

Lemma index_setting_value ss key default v :
  Copier.index_setting ss key default = inr v ->
  v = Observe.source_value ss key default.
Proof.
  unfold Copier.index_setting, Observe.source_value, Settings.member,
    Py.get_default, Py.get, bind_result.
  destruct ss as [| | | | |m]; try discriminate.
  destruct (Py.assoc "index" m) as [idx|].
  - destruct idx as [| | | | |mi]; try discriminate.
    destruct (Py.assoc key mi); intros H; now inversion H.
  - cbn. intros H; now inversion H.
Qed.

Lemma limit_members_keys policy lim k :
  In k (map fst (Copier.limit_members policy lim)) -> k = "mapping".
Proof.
  unfold Copier.limit_members.
  destruct policy as [n|]; [|intros []].
  destruct (n =? -1).
  - destruct lim as [v|]; [|intros []].
    destruct (Py.truthy v); [|intros []]. cbn. intuition.
  - destruct (negb (n =? 0) && (n >? 0)); [|intros []]. cbn. intuition.
Qed.

(** X3.  Whenever the destination settings are computed, they consist of
    one member ["index"] holding the number of shards and the number of
    replicas of the source (the string "1" for one that the source does not
    give) and at most the field limit: no other setting of the source index
    is carried over. *)
Theorem destination_settings_carry_shards_and_replicas_only :
  forall policy source_settings settings,
    Copier.destination_settings policy source_settings = inr settings ->
    exists limit,
      settings
      = JObj [("index",
               JObj (("number_of_shards",
                      Observe.source_value source_settings
                        "number_of_shards" (JStr "1"))
                     :: ("number_of_replicas",
                         Observe.source_value source_settings
                           "number_of_replicas" (JStr "1"))
                     :: limit))]
      /\ (forall k, In k (map fst limit) -> k = "mapping")
      /\ (forall k, In k (map fst (Observe.index_members settings)) ->
                    k = "number_of_shards" \/ k = "number_of_replicas"
                    \/ k = "mapping").
Proof.
  intros policy ss settings H. unfold Copier.destination_settings in H.
  destruct (Copier.source_total_fields ss) as [e|lim]; [discriminate|].
  destruct (Copier.index_setting ss "number_of_shards" (JStr "1"))
    as [e|shards] eqn:Hs; [discriminate|].
  destruct (Copier.index_setting ss "number_of_replicas" (JStr "1"))
    as [e|replicas] eqn:Hr; [discriminate|].
  cbn in H. inversion H; subst; clear H.
  apply index_setting_value in Hs, Hr. subst shards replicas.
  exists (Copier.limit_members policy lim).
  split; [reflexivity|]. split; [apply limit_members_keys|].
  intros k. cbn. intros [<-|[<-|Hin]]; auto.
  right; right. now apply (limit_members_keys policy lim).
Qed.

Lemma destination_settings_carry_shards_and_replicas_only_witness :
  let source :=
    JObj [("index", JObj [("number_of_shards", JStr "3");
                          ("refresh_interval", JStr "30s");
                          ("analysis", JObj [("analyzer", JObj [])])])] in
  exists settings,
    Copier.destination_settings None source = inr settings
    /\ Observe.index_members settings
       = [("number_of_shards", JStr "3"); ("number_of_replicas", JStr "1")].
Proof.
  intros source. eexists. split; [reflexivity|].
  destruct (destination_settings_carry_shards_and_replicas_only None source _
              eq_refl) as (limit & _ & _ & _).
  reflexivity.
Defined.

(** ** The bulk body *)

Lemma hit_lines_returns index hit l :
  Scroll.hit_lines index hit = inr l ->
  exists d, BulkFormat.hit_is hit d /\ l = BulkFormat.entry index d.
Proof.
  unfold Scroll.hit_lines, bind_result, BulkFormat.hit_is.
  destruct (Py.getitem hit "_id") as [e|id]; [discriminate|].
  destruct (Py.getitem hit "_source") as [e|src]; [discriminate|].
  intros H. inversion H; subst. exists (id, src). repeat split.
Qed.

Lemma hit_lines_of index hit d :
  BulkFormat.hit_is hit d ->
  Scroll.hit_lines index hit = inr (BulkFormat.entry index d).
Proof.
  intros [Hid Hsrc]. unfold Scroll.hit_lines, bind_result.
  rewrite Hid, Hsrc. reflexivity.
Qed.

(** X4.  The bulk body of a page is built exactly when every hit of the
    page has the members [_id] and [_source]; it then holds, for each hit in
    the order of the page, one action line that addresses the target index
    with the identifier of the hit, followed by the content of the hit. *)
Theorem bulk_lines_keep_identifiers_and_order :
  forall index (hits lines : list json),
    Scroll.bulk_lines index hits = inr lines
    <-> exists docs,
          Forall2 BulkFormat.hit_is hits docs
          /\ lines = flat_map (BulkFormat.entry index) docs.
Proof.
  intros index hits. induction hits as [|hit hits IH]; intros lines; split.
  - cbn. intros H. inversion H; subst. exists []. split; [constructor|reflexivity].
  - intros (docs & Hf & ->). inversion Hf; subst. reflexivity.
  - cbn [Scroll.bulk_lines]. unfold bind_result.
    destruct (Scroll.hit_lines index hit) as [e|l] eqn:Hh; [discriminate|].
    destruct (Scroll.bulk_lines index hits) as [e|ls] eqn:Hl; [discriminate|].
    intros H. inversion H; subst; clear H.
    destruct (hit_lines_returns index hit l Hh) as (d & Hd & ->).
    destruct (proj1 (IH ls) eq_refl) as (docs & Hf & ->).
    exists (d :: docs). split; [now constructor|reflexivity].
  - intros (docs & Hf & ->). inversion Hf as [|? d ? docs' Hd Hf']; subst.
    cbn [Scroll.bulk_lines]. unfold bind_result.
    rewrite (hit_lines_of index hit d Hd).
    rewrite (proj2 (IH (flat_map (BulkFormat.entry index) docs'))
               (ex_intro _ docs' (conj Hf' eq_refl))).
    reflexivity.
Qed.

(** X5.  When a page holds a hit that is a JSON object without [_id] or
    without [_source], after hits that have both, the loop raises [KeyError]
    of the missing member before any request for that page: nothing of the
    page is sent, not even the hits that were well formed. *)
Theorem hit_without_member_sends_nothing_of_the_page :
  forall self target sc tr scroll_id total good bad rest members,
    Forall (fun hit => exists d, BulkFormat.hit_is hit d) good ->
    bad = JObj members ->
    Py.assoc "_id" members = None \/ Py.assoc "_source" members = None ->
    exists key,
      (key = "_id" \/ key = "_source")
      /\ Copier.page_loop self target sc tr scroll_id
           (JArr (good ++ bad :: rest)) total
         = (inl (KeyError key), sc, tr).
Proof.
  intros self target sc tr scroll_id total good bad rest members Hgood -> Hmiss.
  assert (Hbad : exists key, (key = "_id" \/ key = "_source")
                 /\ Scroll.hit_lines target (JObj members) = inl (KeyError key)).
  { unfold Scroll.hit_lines, bind_result, Py.getitem.
    destruct (Py.assoc "_id" members) as [id|] eqn:Hid.
    - destruct Hmiss as [Hm|Hm]; [discriminate|]. rewrite Hm.
      exists "_source". auto.
    - exists "_id". auto. }
  destruct Hbad as (key & Hkey & Hbad). exists key. split; [exact Hkey|].
  assert (Hbody : Scroll.bulk_lines target (good ++ JObj members :: rest)
                  = inl (KeyError key)).
  { induction Hgood as [|hit good [d Hd] _ IH]; cbn [app Scroll.bulk_lines].
    - unfold bind_result. now rewrite Hbad.
    - unfold bind_result. rewrite (hit_lines_of target hit d Hd).
      unfold bind_result in IH. now rewrite IH. }
  unfold Copier.page_loop. rewrite page_loop_unfold.
  assert (Ht : Py.truthy (JArr (good ++ JObj members :: rest)) = true)
    by (destruct good; reflexivity).
  rewrite Ht. cbn [negb Scroll.bulk_body]. now rewrite Hbody.
Qed.

Lemma hit_without_member_sends_nothing_of_the_page_witness :
  Copier.page_loop (Fixture.copier None) "b" [Fixture.bulk_ok] []
    (JStr "s1")
    (JArr ([Fixture.doc "1"] ++ JObj [("_id", JStr "2")] :: [Fixture.doc "3"])) 0
  = (inl (KeyError "_source"), [Fixture.bulk_ok], []).
Proof.
  destruct (hit_without_member_sends_nothing_of_the_page
              (Fixture.copier None) "b" [Fixture.bulk_ok] [] (JStr "s1") 0
              [Fixture.doc "1"] (JObj [("_id", JStr "2")]) [Fixture.doc "3"]
              [("_id", JStr "2")])
    as (key & _ & H).
  - repeat constructor. exists (JStr "1", JObj [("n", JStr "1")]). split; reflexivity.
  - reflexivity.
  - right. reflexivity.
  - rewrite H. assert (E : key = "_source"); [|now rewrite E].
    assert (H' := H). vm_compute in H'. now inversion H'.
Defined.

(** X6.  For an index whose first page is empty, the body of
    [reindex_data] returns 0 after two requests, the opening search and the
    release of the scroll; the answer to the release is not looked at,
    whatever its status. *)
Theorem empty_index_is_opened_and_released :
  forall self src tgt (r rc : Response) rest tr cs scroll_id hits,
    Scroll.read_page r = inr (scroll_id, hits) ->
    Py.truthy hits = false ->
    Copier.reindex_data self src tgt
      (mkState (Returns r :: Returns rc :: rest) tr cs)
    = (inr 0,
       mkState rest
         (tr ++ [Call (Copier.open_request self src) (Returns r);
                 Call (Copier.close_request self scroll_id) (Returns rc)])
         cs).
Proof.
  intros self src tgt r rc rest tr cs scroll_id hits Hpage Hempty.
  unfold Copier.reindex_data, Eff.catch_request, Eff.catch, Scroll.scroll_copy,
    Eff.bind, Eff.http, Eff.lift, Eff.ret, Scroll.run_page_loop.
  cbn [script trace stats Eff.deliver mkState stdout]. rewrite Hpage.
  cbn [fst snd script trace stats mkState stdout].
  rewrite page_loop_unfold, Hempty. cbn. rewrite <- app_assoc. reflexivity.
Qed.

Lemma empty_index_is_opened_and_released_witness :
  fst (Copier.reindex_data (Fixture.copier None) "a" "b"
         (Fixture.fresh [Fixture.page "s1" []; Returns Fixture.server_error]))
  = inr 0.
Proof.
  apply (f_equal fst
           (empty_index_is_opened_and_released (Fixture.copier None) "a" "b"
              (mkResponse 200 "OK" "http://es" "{}"
                 (Some (JObj [("_scroll_id", JStr "s1");
                              ("hits", JObj [("hits", JArr [])])])))
              Fixture.server_error [] [] Stats.init (JStr "s1") (JArr [])
              eq_refl eq_refl)).
Defined.

(** ** Events of the scroll *)

Section LoopEvents.

Variable bulk_rq : list json -> request.
Variable next_rq : json -> request.
Variable check : Response -> result unit * list event.
Variable index : string.
Variable P : event -> bool.

Hypothesis bulk_ok : forall lines rp, P (Call (bulk_rq lines) rp) = true.
Hypothesis next_ok : forall scroll_id rp, P (Call (next_rq scroll_id) rp) = true.
Hypothesis check_ok : forall r, Forall (fun ev => P ev = true) (snd (check r)).

Lemma page_loop_events : forall n sc,
  (length sc <= n)%nat ->
  forall tr scroll_id hits total_docs res sc' tr',
    Scroll.page_loop bulk_rq next_rq check index sc tr scroll_id hits total_docs
    = (res, sc', tr') ->
    exists new, tr' = (tr ++ new)%list /\ Forall (fun ev => P ev = true) new.
Proof.
  induction n as [|n IH]; intros sc Hlen tr scroll_id hits total_docs res sc' tr' H;
    rewrite page_loop_unfold in H;
    (destruct (Py.truthy hits); cbn [negb] in H;
     [|inversion H; subst; exists []; rewrite app_nil_r; split; constructor]);
    (destruct (Scroll.bulk_body index hits) as [e|lines];
     [inversion H; subst; exists []; rewrite app_nil_r; split; constructor|]).
  - destruct sc; [|simpl in Hlen; lia].
    inversion H; subst. eexists. split; [reflexivity|].
    constructor; [apply bulk_ok|constructor].
  - destruct sc as [|rp1 sc1].
    { inversion H; subst. eexists. split; [reflexivity|].
      constructor; [apply bulk_ok|constructor]. }
    destruct (Eff.deliver rp1) as [e|response].
    { inversion H; subst. eexists. split; [reflexivity|].
      constructor; [apply bulk_ok|constructor]. }
    assert (Hc := check_ok response).
    destruct (check response) as [[e|u] evs]; cbn [snd] in Hc.
    { inversion H; subst. exists (Call (bulk_rq lines) rp1 :: evs).
      split; [now rewrite <- app_assoc|].
      constructor; [apply bulk_ok|exact Hc]. }
    destruct sc1 as [|rp2 sc2].
    { inversion H; subst.
      exists (Call (bulk_rq lines) rp1
              :: evs ++ [Call (next_rq scroll_id) Eff.exhausted])%list.
      split; [now rewrite <- !app_assoc|].
      constructor; [apply bulk_ok|]. apply Forall_app. split; [exact Hc|].
      constructor; [apply next_ok|constructor]. }
    assert (Hnew0 : Forall (fun ev => P ev = true)
                      (Call (bulk_rq lines) rp1
                       :: evs ++ [Call (next_rq scroll_id) rp2])%list).
    { constructor; [apply bulk_ok|]. apply Forall_app. split; [exact Hc|].
      constructor; [apply next_ok|constructor]. }
    destruct (bind_result (Eff.deliver rp2) Scroll.read_page)
      as [e|[scroll_id2 hits2]].
    { inversion H; subst. eexists. split; [|exact Hnew0].
      now rewrite <- !app_assoc. }
    simpl in Hlen.
    destruct (IH sc2 ltac:(lia) _ _ _ _ _ _ _ H) as (new & -> & Hnew).
    exists ((Call (bulk_rq lines) rp1
             :: evs ++ [Call (next_rq scroll_id) rp2]) ++ new)%list.
    split; [cbn [app]; rewrite <- !app_assoc; reflexivity|].
    apply Forall_app. split; assumption.
Qed.

Lemma run_page_loop_appends scroll_id hits :
  Trace.appends P
    (Scroll.run_page_loop bulk_rq next_rq check index scroll_id hits).
Proof.
  intros st. unfold Scroll.run_page_loop.
  destruct (Scroll.page_loop bulk_rq next_rq check index (script st) (trace st)
              scroll_id hits 0) as [[r sc] tr] eqn:H.
  destruct (page_loop_events _ _ (le_n _) _ _ _ _ _ _ _ H) as (new & -> & Hnew).
  exists new. cbn. auto.
Qed.

Lemma scroll_copy_appends open_rq close_rq :
  (forall rp, P (Call open_rq rp) = true) ->
  (forall scroll_id rp, P (Call (close_rq scroll_id) rp) = true) ->
  Trace.appends P
    (Scroll.scroll_copy bulk_rq next_rq check index open_rq close_rq).
Proof.
  intros Ho Hc. unfold Scroll.scroll_copy.
  repeat first
    [ apply appends_bind | intros ? | apply appends_http
    | apply appends_lift | apply appends_ret | apply run_page_loop_appends
    | apply Ho | apply Hc ].
Qed.

End LoopEvents.

Lemma reindex_data_appends P self src tgt :
  (forall lvl msg, P (Log lvl msg) = true) ->
  (forall rq rp, rq_method rq = POST -> P (Call rq rp) = true) ->
  (forall scroll_id rp, P (Call (Copier.close_request self scroll_id) rp) = true) ->
  Trace.appends P (Copier.reindex_data self src tgt).
Proof.
  intros Hlog Hpost Hclose. unfold Copier.reindex_data.
  apply appends_catch_request.
  - apply scroll_copy_appends; intros; try (apply Hpost; reflexivity);
      try apply Hclose.
    eapply Forall_impl; [|apply copier_check_bulk_logs].
    intros [rq rp|lvl msg]; cbn; [discriminate|intros _; apply Hlog].
  - intros e. apply appends_bind; [apply appends_log, Hlog|].
    intros _. apply appends_raise.
Qed.

(** ** The except block of copy_index *)

Lemma copy_index_handler_effect src tgt out e st :
  exists raised logs cs',
    Copier.copy_index_handler src tgt e st
    = (inl raised, mkWorld (script st) (trace st ++ logs) cs' (stdout st))
    /\ Forall (fun ev => Trace.is_log ev = true) logs
    /\ Outcome.failure_accounted src tgt out raised (stats st) cs'.
Proof.
  unfold Copier.copy_index_handler, Eff.bind, Eff.modify_stats, Eff.log,
    Eff.emit, Eff.raise, Eff.ret, Outcome.failure_accounted.
  destruct st as [sc tr cs con].
  destruct e as [msg [r|]|key|msg|msg|msg|enc obj start stop why]; cbn.
  - eexists _, [_], _. split; [reflexivity|]. split; [repeat constructor|].
    cbn. repeat split. left. eauto.
  - eexists _, [], _. rewrite app_nil_r. split; [reflexivity|].
    split; [constructor|]. repeat split. right; right; left. auto.
  - eexists _, [_], _. split; [reflexivity|]. split; [repeat constructor|].
    cbn. repeat split. right; left. auto.
  - eexists _, [_], _. split; [reflexivity|]. split; [repeat constructor|].
    cbn. repeat split. right; left. auto.
  - eexists _, [_], _. split; [reflexivity|]. split; [repeat constructor|].
    cbn. repeat split. right; left. auto.
  - eexists _, [_], _. split; [reflexivity|]. split; [repeat constructor|].
    cbn. repeat split. right; left. auto.
  - eexists _, [_], _. split; [reflexivity|]. split; [repeat constructor|].
    cbn. repeat split. right; left. auto.
Qed.

(** ** copy_index: outcome and order of the requests *)

Lemma raise_for_status_passes (r : Response) :
  Http.raise_for_status r = inr tt ->
  (400 <=? status_code r) && (status_code r <? 600) = false.
Proof.
  unfold Http.raise_for_status.
  destruct (Z.leb_spec 400 (status_code r));
    destruct (Z.ltb_spec (status_code r) 500); cbn; try discriminate;
    destruct (Z.leb_spec 500 (status_code r));
    destruct (Z.ltb_spec (status_code r) 600); cbn; try discriminate;
    intros _; try reflexivity; lia.
Qed.

Lemma create_success_is_created self src tgt ss sm st created st' :
  Copier.create_index_with_settings self src tgt ss sm st = (inr created, st') ->
  exists new,
    trace st' = (trace st ++ new)%list
    /\ existsb Observe.is_created new = true.
Proof.
  unfold Copier.create_index_with_settings. intros H.
  apply bind_returns in H. destruct H as ([] & st1 & Hdel & H).
  apply bind_returns in H. destruct H as (settings & st2 & Hset & H).
  unfold Eff.lift in Hset. inversion Hset; subst st2; clear Hset.
  apply catch_request_reraise_returns in H.
  apply bind_returns in H. destruct H as (response & st3 & Hput & H).
  apply bind_returns in H. destruct H as ([] & st4 & Hst & H).
  unfold Eff.lift in Hst. inversion Hst as [[Hr Hst4]]; subst st4; clear Hst.
  apply bind_returns in H. destruct H as ([] & st5 & Hlog & H).
  unfold Eff.log, Eff.emit in Hlog. inversion Hlog; subst st5; clear Hlog.
  unfold Eff.lift in H. inversion H as [[Hj Hst']]; clear H.
  cbn [trace]. rewrite (http_returns _ _ _ _ Hput).
  match type of Hdel with ?c st = _ =>
    assert (Happ : Trace.appends Trace.is_schema_event c)
      by (repeat first
            [ apply appends_catch_request | apply appends_bind | intros ?
            | apply appends_http | apply appends_ret | apply appends_log
            | reflexivity ]);
    destruct (Happ st) as (new1 & Ht1 & _ & _); rewrite Hdel in Ht1
  end.
  cbn [snd] in Ht1. rewrite Ht1.
  eexists (new1 ++ [_; _])%list. split; [now rewrite <- !app_assoc|].
  rewrite existsb_app. cbn. rewrite (raise_for_status_passes response Hr).
  cbn. now rewrite orb_true_r.
Qed.


Lemma logs_are_schema_events (logs : list event) :
  Forall (fun ev => Trace.is_log ev = true) logs ->
  Forall (fun ev => Trace.is_schema_event ev = true) logs
  /\ Forall (fun ev => Observe.is_scroll_event ev = true) logs
  /\ existsb Observe.is_call logs = false.
Proof.
  induction 1 as [|[rq rp|lvl msg] logs H _ (IH1 & IH2 & IH3)];
    [repeat split; constructor|discriminate|].
  repeat split; try (constructor; [reflexivity|assumption]). exact IH3.
Qed.

(** The trace that the [try] statement of [copy_index] adds is a schema
    part followed by a scroll part; the scroll part has a request only after
    a create request that was answered without an error status; and an
    exception leaves the statistics as [Outcome.failure_accounted] says. *)
Lemma copy_index_try_effects self src tgt out st res st' :
  Copier.copy_index_try self src tgt st = (res, st') ->
  exists schema data,
    trace st' = (trace st ++ schema ++ data)%list
    /\ Forall (fun ev => Trace.is_schema_event ev = true) schema
    /\ Forall (fun ev => Observe.is_scroll_event ev = true) data
    /\ (existsb Observe.is_call data = true ->
        existsb Observe.is_created schema = true)
    /\ (forall e, res = inl e ->
          Outcome.failure_accounted src tgt out e (stats st) (stats st')).
Proof.
  unfold Copier.copy_index_try, Eff.catch. unfold Eff.bind at 1.
  destruct (get_source_index_info_appends self src st) as (new1 & Ht1 & Hf1 & Hs1).
  destruct (Copier.get_source_index_info self src st)
    as [[e1|[settings mappings]] st1]; cbn [snd] in Ht1, Hs1.
  { destruct (copy_index_handler_effect src tgt out e1 st1)
      as (raised & logs & cs' & -> & Hlogs & Hacc).
    destruct (logs_are_schema_events logs Hlogs) as (Hl1 & _ & _).
    intros H. inversion H; subst res st'; clear H.
    exists (new1 ++ logs)%list, []. cbn [trace stats].
    rewrite Ht1, app_nil_r, app_assoc.
    split; [reflexivity|]. split; [now apply Forall_app|].
    split; [constructor|]. split; [discriminate|].
    intros e He. inversion He; subst. now rewrite <- Hs1. }
  unfold Eff.bind at 1.
  destruct (create_index_with_settings_appends self src tgt settings mappings st1)
    as (new2 & Ht2 & Hf2 & Hs2).
  destruct (Copier.create_index_with_settings self src tgt settings mappings st1)
    as [[e2|created] st2] eqn:Hcreate; cbn [snd] in Ht2, Hs2.
  { destruct (copy_index_handler_effect src tgt out e2 st2)
      as (raised & logs & cs' & -> & Hlogs & Hacc).
    destruct (logs_are_schema_events logs Hlogs) as (Hl1 & _ & _).
    intros H. inversion H; subst res st'; clear H.
    exists (new1 ++ new2 ++ logs)%list, []. cbn [trace stats].
    rewrite Ht2, Ht1, app_nil_r, <- !app_assoc.
    split; [reflexivity|].
    split; [apply Forall_app; split; [assumption|now apply Forall_app]|].
    split; [constructor|]. split; [discriminate|].
    intros e He. inversion He; subst. now rewrite <- Hs1, <- Hs2. }
  assert (Hcreated : existsb Observe.is_created (new1 ++ new2) = true).
  { destruct (create_success_is_created _ _ _ _ _ _ _ _ Hcreate)
      as (new2' & Ht2' & Hc).
    rewrite Ht2 in Ht2'. apply app_inv_head in Ht2'. subst new2'.
    rewrite existsb_app, Hc. apply orb_true_r. }
  unfold Eff.bind at 1.
  destruct (reindex_data_appends Observe.is_scroll_event self src tgt
              ltac:(reflexivity)
              ltac:(intros rq rp Hm; cbn; now rewrite Hm)
              ltac:(reflexivity) st2) as (new3 & Ht3 & Hf3 & Hs3).
  destruct (Copier.reindex_data self src tgt st2) as [[e3|n] st3];
    cbn [snd] in Ht3, Hs3.
  { destruct (copy_index_handler_effect src tgt out e3 st3)
      as (raised & logs & cs' & -> & Hlogs & Hacc).
    destruct (logs_are_schema_events logs Hlogs) as (_ & Hl2 & _).
    intros H. inversion H; subst res st'; clear H.
    exists (new1 ++ new2)%list, (new3 ++ logs)%list. cbn [trace stats].
    rewrite Ht3, Ht2, Ht1, <- !app_assoc.
    split; [reflexivity|]. split; [now apply Forall_app|].
    split; [now apply Forall_app|]. split; [intros _; exact Hcreated|].
    intros e He. inversion He; subst. now rewrite <- Hs1, <- Hs2, <- Hs3. }
  unfold Eff.modify_stats.
  intros H. inversion H; subst res st'; clear H. cbn [trace stats].
  exists (new1 ++ new2)%list, new3.
  rewrite Ht3, Ht2, Ht1, <- !app_assoc.
  split; [reflexivity|]. split; [now apply Forall_app|].
  split; [assumption|]. split; [intros _; exact Hcreated|discriminate].
Qed.

(** The same of [copy_index] itself: when the console refuses the
    announcement, nothing is added to the trace and nothing is recorded. *)
Lemma copy_index_effects self src tgt st res st' :
  Copier.copy_index self src tgt st = (res, st') ->
  exists schema data,
    trace st' = (trace st ++ schema ++ data)%list
    /\ Forall (fun ev => Trace.is_schema_event ev = true) schema
    /\ Forall (fun ev => Observe.is_scroll_event ev = true) data
    /\ (existsb Observe.is_call data = true ->
        existsb Observe.is_created schema = true)
    /\ (forall e, res = inl e ->
          Outcome.failure_accounted src tgt (stdout st) e
            (stats st) (stats st')).
Proof.
  destruct (copy_index_cases self src tgt st) as [[_ ->]|(e & Hw & ->)].
  - apply copy_index_try_effects.
  - intros H. inversion H; subst res st'; clear H.
    exists [], []. rewrite app_nil_r.
    split; [reflexivity|]. split; [constructor|]. split; [constructor|].
    split; [discriminate|].
    intros e' He. inversion He; subst e'.
    unfold Outcome.failure_accounted. repeat split. do 3 right. auto.
Qed.

(** X7.  When [copy_index] ends with an exception, the successes, the
    total and the times are as before, and the failures are as before or
    have one more entry, for this pair: an exception of [requests] with a
    response is recorded with its text and the text of the response; any
    exception that is not of [requests] is recorded with its text, which for
    a [KeyError] is [repr] of the key; nothing is recorded when the
    exception that comes out is the [AttributeError] raised by the [except]
    block itself, or the exception of the console at the announcement.  In
    that last case nothing was requested either: the state is as before. *)
Theorem failed_copy_records_at_most_one_failure :
  forall self src tgt st e st',
    Copier.copy_index self src tgt st = (inl e, st') ->
    Outcome.failure_accounted src tgt (stdout st) e (stats st) (stats st')
    /\ (forall refused,
          Stdout.write (stdout st) (Copier.announcement src tgt) = inl refused ->
          e = refused /\ st' = st).
Proof.
  intros self src tgt st e st' H. split.
  - destruct (copy_index_effects self src tgt st _ _ H)
      as (_ & _ & _ & _ & _ & _ & Hacc).
    apply (Hacc e eq_refl).
  - intros refused Hw.
    rewrite (copy_index_refused self src tgt st refused Hw) in H.
    inversion H; subst. split; reflexivity.
Qed.

Lemma failed_copy_records_at_most_one_failure_witness :
  let st := Fixture.fresh [Fixture.settings_of "b" (JObj []);
                           Fixture.mappings_of "b"] in
  let run := Copier.copy_index (Fixture.copier None) "it's" "a2" st in
  fst run = inl (KeyError "it's")
  /\ failed_copies (stats (snd run))
     = [("it's", "a2",
         String PyStr.double_quote ("it's" ++ String PyStr.double_quote ""))]
  /\ (let muted := mkWorld [] [] Stats.init Stdout.latin1 in
      exists refused,
        Copier.copy_index (Fixture.copier None) "a" "b" muted
        = (inl refused, muted)
        /\ str_exn refused
           = "'latin-1' codec can't encode character '\u2192' in position 18: ordinal not in range(256)").
Proof.
  intros st run. split; [reflexivity|]. split.
  - assert (H : Copier.copy_index (Fixture.copier None) "it's" "a2" st
                = (inl (KeyError "it's"), snd run)) by reflexivity.
    destruct (failed_copy_records_at_most_one_failure _ _ _ _ _ _ H)
      as [(_ & _ & _ & _ & [(msg & r & He & _)|[(_ & Hf)|[(He & _)|(He & _)]]]) _];
      [discriminate|exact Hf|discriminate|discriminate].
  - intros muted.
    assert (Hw : Stdout.write (stdout muted) (Copier.announcement "a" "b")
                 = inl (UnicodeEncodeError "latin-1"
                          (Copier.announcement "a" "b") 18 19
                          "ordinal not in range(256)"))
      by (vm_compute; reflexivity).
    destruct (Copier.copy_index (Fixture.copier None) "a" "b" muted)
      as [[e|[]] st'] eqn:H.
    + destruct (failed_copy_records_at_most_one_failure _ _ _ _ _ _ H)
        as [_ Hpre].
      destruct (Hpre _ Hw) as [-> ->].
      eexists. split; [reflexivity|vm_compute; reflexivity].
    + exfalso.
      rewrite (copy_index_refused _ _ _ _ _ Hw) in H. discriminate.
Defined.

(** X8.  In the trace that one call of [copy_index] adds, the requests of
    the scroll (search, bulk, fetch, release) all come after the requests of
    the schema transfer, and there is one only if the create request was
    answered without an error status: no document is sent for an index whose
    creation failed or was not reached. *)
Theorem documents_are_sent_only_after_creation :
  forall self src tgt st,
    exists schema data,
      trace (snd (Copier.copy_index self src tgt st))
      = (trace st ++ schema ++ data)%list
      /\ Forall (fun ev => Trace.is_schema_event ev = true) schema
      /\ existsb Observe.is_bulk schema = false
      /\ Forall (fun ev => Observe.is_scroll_event ev = true) data
      /\ (existsb Observe.is_call data = true ->
          existsb Observe.is_created schema = true).
Proof.
  intros self src tgt st.
  destruct (copy_index_effects self src tgt st _ _
              (surjective_pairing (Copier.copy_index self src tgt st)))
    as (schema & data & Htr & Hs & Hd & Hc & _).
  exists schema, data. repeat split; try assumption.
  clear - Hs. induction Hs as [|ev schema Hev _ IH]; [reflexivity|].
  cbn. rewrite IH, orb_false_r.
  destruct ev as [[m u a h b] rp|lvl msg]; [|reflexivity].
  cbn in *. destruct m, b; try discriminate; reflexivity.
Qed.

(** ** The run of main *)




(** ** The summary text *)

(** X10.  Once both times are set, the summary is the join by newlines of
    a list of lines that holds the duration, the total of documents, the two
    counts, one line for every recorded success with its count, and for
    every recorded failure the line of its pair and the line of its error
    text. *)
Theorem summary_lists_every_recorded_outcome :
  forall cs t0 t1,
    start_time cs = Some t0 ->
    end_time cs = Some t1 ->
    exists lines,
      Stats.summary cs = inr (PyStr.join PyStr.newline lines)
      /\ In ("Duration: " ++ Stats.str_timedelta (t1 - t0)) lines
      /\ In ("Total Documents Copied: "
             ++ PyStr.format_commas (total_documents cs)) lines
      /\ In ("Successful Copies: "
             ++ PyStr.of_int (Z.of_nat (length (successful_copies cs)))) lines
      /\ In ("Failed Copies: "
             ++ PyStr.of_int (Z.of_nat (length (failed_copies cs)))) lines
      /\ (forall source target count,
             In (source, target, count) (successful_copies cs) ->
             In ("  - " ++ source ++ " " ++ Stats.arrow ++ " " ++ target
                 ++ " (" ++ PyStr.format_commas count ++ " documents)") lines)
      /\ (forall source target error,
             In (source, target, error) (failed_copies cs) ->
             In ("  - " ++ source ++ " " ++ Stats.arrow ++ " " ++ target) lines
             /\ In ("    Error: " ++ error) lines).
Proof.
  intros cs t0 t1 Hs He.
  exists (Stats.summary_lines (t1 - t0) cs).
  split; [unfold Stats.summary, Stats.duration; now rewrite He, Hs|].
  unfold Stats.summary_lines.
  split; [cbn; tauto|]. split; [cbn; tauto|].
  split; [cbn; tauto|]. split; [cbn; tauto|]. split.
  - intros source target count Hin.
    apply in_or_app. right. apply in_or_app. left.
    destruct (successful_copies cs) as [|c l] eqn:E; [destruct Hin|].
    right. change (In (Stats.success_line (source, target, count))
                      (map Stats.success_line (c :: l))).
    now apply in_map.
  - intros source target error Hin.
    assert (Hboth : forall line,
               In line (Stats.failure_lines (source, target, error)) ->
               In line
                 (match failed_copies cs with
                  | [] => []
                  | l => (PyStr.newline ++ "Failed Operations:")
                         :: flat_map Stats.failure_lines l
                  end)).
    { intros line Hline.
      destruct (failed_copies cs) as [|c l] eqn:E; [destruct Hin|].
      right. apply in_flat_map. exists (source, target, error). auto. }
    split; (apply in_or_app; right; apply in_or_app; right; apply Hboth;
            cbn; tauto).
Qed.

Lemma summary_lists_every_recorded_outcome_witness :
  let cs := Stats.run [Stats.Start 0; Stats.AddFailure "a" "b" "boom";
                       Stats.Finish 2000000] in
  start_time cs = Some 0
  /\ end_time cs = Some 2000000
  /\ exists lines,
       Stats.summary cs = inr (PyStr.join PyStr.newline lines)
       /\ In "    Error: boom" lines.
Proof.
  intros cs. split; [reflexivity|]. split; [reflexivity|].
  destruct (summary_lists_every_recorded_outcome cs 0 2000000 eq_refl eq_refl)
    as (lines & Hsum & _ & _ & _ & _ & _ & Hfail).
  exists lines. split; [exact Hsum|].
  apply (Hfail "a" "b" "boom"). cbn. auto.
Defined.

(** ** Thousands separators *)

Lemma list_ascii_of_string_app (s1 s2 : string) :
  list_ascii_of_string (s1 ++ s2)
  = (list_ascii_of_string s1 ++ list_ascii_of_string s2)%list.
Proof. induction s1 as [|c s1 IH]; cbn; [reflexivity|now rewrite IH]. Qed.

Lemma group3_keeps_other_characters (l : list ascii) : forall k,
  filter Text.not_comma (PyStr.group3 l k) = filter Text.not_comma l.
Proof.
  induction l as [|c l IH]; intros k; [reflexivity|].
  destruct k as [|k]; cbn; rewrite IH; reflexivity.
Qed.

Lemma drop_trailing_comma_keeps_other_characters (l : list ascii) :
  filter Text.not_comma (PyStr.drop_trailing_comma l)
  = filter Text.not_comma l.
Proof.
  unfold PyStr.drop_trailing_comma.
  destruct (rev l) as [|c rest] eqn:E; [reflexivity|].
  destruct (Ascii.eqb_spec c ","); [|reflexivity]. subst c.
  assert (Hl : l = (rev rest ++ [","%char])%list).
  { rewrite <- (rev_involutive l), E. reflexivity. }
  rewrite Hl, filter_app. cbn. now rewrite app_nil_r.
Qed.

Lemma digits_have_no_comma (d : Decimal.uint) :
  filter Text.not_comma (list_ascii_of_string (NilEmpty.string_of_uint d))
  = list_ascii_of_string (NilEmpty.string_of_uint d).
Proof. induction d; cbn; try rewrite IHd; reflexivity. Qed.

Lemma number_has_no_comma (n : N) :
  filter Text.not_comma (list_ascii_of_string (PyStr.digits n))
  = list_ascii_of_string (PyStr.digits n).
Proof.
  unfold PyStr.digits, NilZero.string_of_uint.
  destruct (N.to_uint n); try apply digits_have_no_comma. reflexivity.
Qed.

Lemma grouped_digits_without_commas (n : N) :
  Text.remove_commas
    (string_of_list_ascii
       (rev (PyStr.drop_trailing_comma
               (PyStr.group3 (rev (list_ascii_of_string (PyStr.digits n))) 2))))
  = PyStr.digits n.
Proof.
  unfold Text.remove_commas.
  rewrite list_ascii_of_string_of_list_ascii.
  rewrite <- (rev_involutive
                (filter Text.not_comma
                   (rev (PyStr.drop_trailing_comma
                           (PyStr.group3
                              (rev (list_ascii_of_string (PyStr.digits n))) 2))))).
  rewrite <- filter_rev, rev_involutive.
  rewrite drop_trailing_comma_keeps_other_characters,
    group3_keeps_other_characters.
  rewrite filter_rev, rev_involutive, number_has_no_comma.
  apply string_of_list_ascii_of_string.
Qed.

(** X11.  The text that [f"{n:,}"] gives for an integer is the decimal
    text of the integer with commas put in: taking the commas out gives
    [str(n)] back, sign included. *)
Theorem format_commas_only_adds_commas :
  forall z : Z, Text.remove_commas (PyStr.format_commas z) = PyStr.of_int z.
Proof.
  intros z. unfold PyStr.format_commas, PyStr.of_int.
  destruct (Z.ltb_spec z 0) as [Hneg|Hpos].
  - replace (Z.abs z) with (- z) by lia.
    assert (H := grouped_digits_without_commas (Z.to_N (- z))).
    unfold Text.remove_commas in *.
    rewrite list_ascii_of_string_app. cbn [list_ascii_of_string app filter].
    change (Text.not_comma "-") with true. cbn [string_of_list_ascii].
    now rewrite H.
  - replace (Z.abs z) with z by lia.
    apply (grouped_digits_without_commas (Z.to_N z)).
Qed.

(** ** The host names of a copier *)

Lemma rstrip_char_drops_one_more (ch : ascii) (s : string) :
  PyStr.rstrip_char ch (s ++ String ch EmptyString) = PyStr.rstrip_char ch s.
Proof.
  induction s as [|c s IH]; cbn.
  - now rewrite Ascii.eqb_refl.
  - now rewrite IH.
Qed.

Lemma rstrip_char_has_no_trailing (ch : ascii) (s : string) :
  forall t, PyStr.rstrip_char ch s <> t ++ String ch EmptyString.
Proof.
  induction s as [|c s IH]; intros t; cbn.
  - destruct t; discriminate.
  - destruct (Ascii.eqb_spec c ch) as [->|Hne]; cbn.
    + destruct (PyStr.rstrip_char ch s) as [|c' r] eqn:E; cbn.
      * destruct t; discriminate.
      * destruct t as [|c0 t]; cbn; [discriminate|].
        intros H. inversion H; subst. apply (IH t). assumption.
    + destruct t as [|c0 t]; cbn.
      * intros H. inversion H; subst. contradiction.
      * intros H. inversion H; subst. apply (IH t). assumption.
Qed.

(** X12.  A copier keeps its two host names without their trailing
    slashes: adding a slash at the end of a host name that is given changes
    nothing, and a host name that is kept never ends with a slash, so that
    the URLs built from it have one slash between host and path. *)
Theorem init_drops_trailing_slashes :
  forall source dest source_auth dest_auth size policy,
    Copier.init (source ++ "/") (dest ++ "/") source_auth dest_auth size policy
    = Copier.init source dest source_auth dest_auth size policy
    /\ (forall t, source_host (Copier.init source dest source_auth dest_auth
                                 size policy) <> t ++ "/")
    /\ (forall t, dest_host (Copier.init source dest source_auth dest_auth
                               size policy) <> t ++ "/").
Proof.
  intros. unfold Copier.init. cbn [source_host dest_host].
  rewrite !rstrip_char_drops_one_more.
  split; [reflexivity|].
  split; intros t; apply rstrip_char_has_no_trailing.
Qed.

(** ** The work list: which specifications are taken *)

Lemma split_length (ch : ascii) (s : string) :
  length (PyStr.split ch s) = S (Count.occurrences ch s).
Proof.
  induction s as [|c s IH]; [reflexivity|]. cbn.
  destruct (Ascii.eqb c ch); cbn; [now rewrite IH|].
  destruct (PyStr.split ch s); cbn in *; lia.
Qed.

Lemma contains_occurrences (ch : ascii) (s : string) :
  PyStr.contains ch s = negb (Nat.eqb (Count.occurrences ch s) 0).
Proof.
  induction s as [|c s IH]; [reflexivity|]. cbn.
  destruct (Ascii.eqb c ch); cbn; [reflexivity|exact IH].
Qed.

Ltac split_byte_tests H :=
  repeat match type of H with
         | context [Z.eqb (PyStr.byte ?c) ?k] =>
             is_var c; destruct (Z.eqb (PyStr.byte c) k)
         | context [Z.leb (PyStr.byte ?c) ?k] =>
             is_var c; destruct (Z.leb (PyStr.byte c) k)
         | context [Z.leb ?k (PyStr.byte ?c)] =>
             is_var c; destruct (Z.leb k (PyStr.byte c))
         end.

(** No byte of a white-space character is a colon. *)
Lemma space_is_not_colon (c : ascii) :
  PyStr.is_space c = true -> Ascii.eqb c ":" = false.
Proof.
  intros H. destruct (Ascii.eqb_spec c ":") as [->|]; [discriminate|reflexivity].
Qed.

Lemma space2_has_no_colon (c1 c2 : ascii) :
  PyStr.is_space2 c1 c2 = true ->
  Ascii.eqb c1 ":" = false /\ Ascii.eqb c2 ":" = false.
Proof.
  intros H. unfold PyStr.is_space2 in H.
  split; [destruct (Ascii.eqb_spec c1 ":") as [->|]
         |destruct (Ascii.eqb_spec c2 ":") as [->|]];
    try reflexivity;
    change (PyStr.byte ":") with 58 in H; split_byte_tests H; discriminate.
Qed.

Lemma space3_has_no_colon (c1 c2 c3 : ascii) :
  PyStr.is_space3 c1 c2 c3 = true ->
  Ascii.eqb c1 ":" = false /\ Ascii.eqb c2 ":" = false
  /\ Ascii.eqb c3 ":" = false.
Proof.
  intros H. unfold PyStr.is_space3 in H. cbv zeta in H.
  split; [destruct (Ascii.eqb_spec c1 ":") as [->|]
         |split; [destruct (Ascii.eqb_spec c2 ":") as [->|]
                 |destruct (Ascii.eqb_spec c3 ":") as [->|]]];
    try reflexivity;
    change (PyStr.byte ":") with 58 in H; split_byte_tests H; discriminate.
Qed.

Lemma lstrip_keeps_colons (s : string) :
  Count.occurrences ":" (PyStr.lstrip s) = Count.occurrences ":" s.
Proof.
  remember (String.length s) as n eqn:Hn. revert s Hn.
  induction n as [n IH] using lt_wf_ind. intros s Hn.
  destruct s as [|c1 s1]; [reflexivity|]. cbn [PyStr.lstrip].
  destruct (PyStr.is_space c1) eqn:H1.
  { rewrite (IH (String.length s1)) by (subst; cbn; lia || reflexivity).
    cbn. now rewrite (space_is_not_colon c1 H1). }
  destruct s1 as [|c2 s2]; [reflexivity|].
  destruct (PyStr.is_space2 c1 c2) eqn:H2.
  { rewrite (IH (String.length s2)) by (subst; cbn; lia || reflexivity).
    destruct (space2_has_no_colon c1 c2 H2) as [E1 E2].
    cbn. now rewrite E1, E2. }
  destruct s2 as [|c3 s3]; [reflexivity|].
  destruct (PyStr.is_space3 c1 c2 c3) eqn:H3; [|reflexivity].
  rewrite (IH (String.length s3)) by (subst; cbn; lia || reflexivity).
  destruct (space3_has_no_colon c1 c2 c3 H3) as (E1 & E2 & E3).
  cbn. now rewrite E1, E2, E3.
Qed.

Lemma rstrip_keeps_colons (s : string) :
  Count.occurrences ":" (PyStr.rstrip s) = Count.occurrences ":" s.
Proof.
  induction s as [|c s IH]; [reflexivity|]. cbn [PyStr.rstrip].
  destruct (PyStr.lstrip (String c s)) as [|c' r] eqn:E; cbn [PyStr.is_empty].
  - rewrite <- (lstrip_keeps_colons (String c s)), E. reflexivity.
  - cbn. now rewrite IH.
Qed.

Lemma strip_keeps_colons (s : string) :
  Count.occurrences ":" (PyStr.strip s) = Count.occurrences ":" s.
Proof.
  unfold PyStr.strip. now rewrite rstrip_keeps_colons, lstrip_keeps_colons.
Qed.

(** An entry is refused exactly when it has more than one colon. *)
Lemma entry_pair_raises (entry : string) :
  (exists e, IndexMap.entry_pair entry = inl e)
  <-> (2 <= Count.occurrences ":" entry)%nat.
Proof.
  unfold IndexMap.entry_pair. rewrite contains_occurrences.
  assert (Hlen := split_length ":" (PyStr.strip entry)).
  rewrite strip_keeps_colons in Hlen.
  destruct (Count.occurrences ":" entry) as [|[|n]]; cbn [Nat.eqb negb].
  - split; [intros [e H]; discriminate|lia].
  - destruct (PyStr.split ":" (PyStr.strip entry)) as [|a [|b [|c l]]];
      cbn in Hlen; try lia.
    split; [intros [e H]; discriminate|lia].
  - destruct (PyStr.split ":" (PyStr.strip entry)) as [|a [|b [|c l]]];
      cbn in Hlen; try lia.
    split; [lia|eauto].
Qed.

Lemma loop_raises entries : forall m0,
  (exists e, IndexMap.loop entries m0 = inl e)
  <-> exists entry e, In entry entries /\ IndexMap.entry_pair entry = inl e.
Proof.
  induction entries as [|entry entries IH]; intros m0; cbn.
  - split; [intros [e H]; discriminate|intros (entry & e & [] & _)].
  - destruct (IndexMap.entry_pair entry) as [e|[s t]] eqn:He.
    + split; eauto.
    + rewrite IH. split.
      * intros (en & e & Hin & H). eauto.
      * intros (en & e & [<-|Hin] & H); [congruence|eauto].
Qed.

Lemma loop_keys entries : forall m0 m,
  IndexMap.loop entries m0 = inr m ->
  forall k,
    In k (map fst m)
    <-> In k (map fst m0)
        \/ exists entry target,
             In entry entries /\ IndexMap.entry_pair entry = inr (k, target).
Proof.
  induction entries as [|entry entries IH]; intros m0 m H k; cbn in H.
  - inversion H; subst. split; [auto|].
    intros [Hin|(entry & t & [] & _)]. exact Hin.
  - destruct (IndexMap.entry_pair entry) as [e|[s t]] eqn:He; [discriminate|].
    rewrite (IH _ _ H k), in_keys_set. split.
    + intros [[->|Hin]|(en & tg & Hin & Hp)].
      * right. exists entry, t. split; [now left|exact He].
      * now left.
      * right. exists en, tg. split; [now right|exact Hp].
    + intros [Hin|(en & tg & [<-|Hin] & Hp)].
      * left. now right.
      * left. left. congruence.
      * right. eauto.
Qed.

(** X13.  For a specification that is not empty, [parse_index_mapping]
    raises exactly when one of its comma-separated entries has more than one
    colon; there is then no work list at all.  Every other specification is
    taken, empty names included. *)
Theorem parse_index_mapping_raises_on_second_colon :
  forall indices_str,
    indices_str <> EmptyString ->
    ((exists e, IndexMap.parse_index_mapping indices_str = inl e)
     <-> exists entry,
           In entry (PyStr.split "," indices_str)
           /\ (2 <= Count.occurrences ":" entry)%nat).
Proof.
  intros s Hne. unfold IndexMap.parse_index_mapping.
  destruct s as [|c s]; [congruence|]. cbn [PyStr.is_empty].
  rewrite loop_raises. split.
  - intros (entry & e & Hin & He). exists entry. split; [exact Hin|].
    apply entry_pair_raises. eauto.
  - intros (entry & Hin & Hc). apply entry_pair_raises in Hc.
    destruct Hc as [e He]. eauto.
Qed.

Lemma parse_index_mapping_raises_on_second_colon_witness :
  "a:b,c:d:e" <> EmptyString
  /\ exists e, IndexMap.parse_index_mapping "a:b,c:d:e" = inl e.
Proof.
  split; [discriminate|].
  apply (proj2 (parse_index_mapping_raises_on_second_colon "a:b,c:d:e"
                  ltac:(discriminate))).
  exists "c:d:e". split; [cbn; auto|cbn; lia].
Defined.

(** X14.  When [parse_index_mapping] returns for a specification that is
    not empty, the work list is not empty and its sources are exactly the
    sources of the entries: no entry is dropped and none is invented.  So
    the test [if not index_map] of [main] never fires. *)
Theorem parse_index_mapping_keeps_every_source :
  forall indices_str index_map,
    indices_str <> EmptyString ->
    IndexMap.parse_index_mapping indices_str = inr index_map ->
    index_map <> []
    /\ forall source,
         In source (map fst index_map)
         <-> exists entry target,
               In entry (PyStr.split "," indices_str)
               /\ IndexMap.entry_pair entry = inr (source, target).
Proof.
  intros s m Hne H. unfold IndexMap.parse_index_mapping in H.
  destruct s as [|c s]; [congruence|]. cbn [PyStr.is_empty] in H.
  assert (Hkeys := loop_keys _ _ _ H).
  split.
  - assert (Hlen := split_length "," (String c s)).
    destruct (PyStr.split "," (String c s)) as [|entry rest] eqn:E;
      [cbn in Hlen; lia|].
    cbn in H. destruct (IndexMap.entry_pair entry) as [e|[src tg]] eqn:He;
      [discriminate|].
    intros ->. apply (proj2 (Hkeys src)).
    right. exists entry, tg. split; [now left|exact He].
  - intros source. rewrite (Hkeys source). cbn. tauto.
Qed.

Lemma parse_index_mapping_keeps_every_source_witness :
  let spaced := "a," ++ Fixture.nbsp ++ "b" in
  spaced <> EmptyString
  /\ IndexMap.parse_index_mapping spaced = inr [("a", "a"); ("b", "b")]
  /\ In "b" (map fst [("a", "a"); ("b", "b")]).
Proof.
  intros spaced. split; [discriminate|]. split; [reflexivity|].
  apply (proj2 (parse_index_mapping_keeps_every_source spaced
                  [("a", "a"); ("b", "b")] ltac:(discriminate) eq_refl) "b").
  exists (Fixture.nbsp ++ "b"), "b". split; [cbn; auto|reflexivity].
Defined.

(** ** Every pair of the work list is attempted *)




Section AddsOnly.

Variable P : event -> bool.






Lemma adds_only_catch {A} (c : Eff.M A) (h : exn -> Eff.M A) :
  Attempt.adds_only P c -> (forall e, Attempt.adds_only P (h e)) ->
  Attempt.adds_only P (Eff.catch c h).
Proof.
  intros Hc Hh st. unfold Eff.catch.
  destruct (Hc st) as (new1 & Ht1 & Hf1).
  destruct (c st) as [[e|a] st1]; cbn in *.
  - destruct (Hh e st1) as (new2 & Ht2 & Hf2).
    exists (new1 ++ new2)%list. rewrite Ht2, Ht1, app_assoc.
    split; [reflexivity|now apply Forall_app].
  - exists new1. auto.
Qed.

Variable rq : request.




End AddsOnly.









(** The console is the same all along. *)
Section KeepsConsole.













End KeepsConsole.



(** ** The two scripts side by side *)



Section LoopAgree.

Variable bulk_rq : list json -> request.
Variable next_rq : json -> request.
Variable index : string.
Variables check1 check2 : Response -> result unit * list event.

Hypothesis same_outcome : forall r, fst (check1 r) = fst (check2 r).
Hypothesis logs1 : forall r,
  Forall (fun ev => Trace.is_log ev = true) (snd (check1 r)).
Hypothesis logs2 : forall r,
  Forall (fun ev => Trace.is_log ev = true) (snd (check2 r)).


End LoopAgree.




(** ** What the copier writes and what it reads *)

(** X17.  Settings that the copier has written never hold a limit where
    the copier reads one: whatever the policy and the source, reading the
    field limit of the settings it computed gives nothing, so a copy under
    the policy "use the source" from an index made by the copier leaves the
    limit out. *)
Theorem written_settings_have_no_readable_limit :
  forall policy source_settings written,
    Copier.destination_settings policy source_settings = inr written ->
    Copier.source_total_fields written = inr None
    /\ exists again,
         Copier.destination_settings (Some (-1)) written = inr again
         /\ Settings.has_field_limit_key again = false.
Proof.
  intros policy ss written H. unfold Copier.destination_settings in H.
  destruct (Copier.source_total_fields ss) as [e|lim]; [discriminate|].
  destruct (Copier.index_setting ss "number_of_shards" (JStr "1"))
    as [e|shards]; [discriminate|].
  destruct (Copier.index_setting ss "number_of_replicas" (JStr "1"))
    as [e|replicas]; [discriminate|].
  cbn in H. inversion H; subst; clear H.
  assert (Hread : Copier.source_total_fields
                    (JObj [("index",
                            JObj (("number_of_shards", shards)
                                  :: ("number_of_replicas", replicas)
                                  :: Copier.limit_members policy lim))])
                  = inr None).
  { unfold Copier.limit_members.
    destruct policy as [n|]; [|reflexivity].
    destruct (n =? -1).
    - destruct lim as [v|]; [|reflexivity].
      destruct (Py.truthy v); reflexivity.
    - destruct (negb (n =? 0) && (n >? 0)); reflexivity. }
  split; [exact Hread|].
  unfold Copier.destination_settings at 1. rewrite Hread.
  cbn. eexists. split; reflexivity.
Qed.

Lemma written_settings_have_no_readable_limit_witness :
  exists written,
    Copier.destination_settings (Some (-1)) Fixture.settings_5000 = inr written
    /\ Settings.field_limit written = Some (JStr "5000")
    /\ Copier.source_total_fields written = inr None.
Proof.
  eexists. split; [reflexivity|]. split; [reflexivity|].
  apply (written_settings_have_no_readable_limit (Some (-1))
           Fixture.settings_5000 _ eq_refl).
Defined.

Lemma migration_settings_are_policy_2000_witness :
  Settings.well_formed Fixture.settings_5000 = true
  /\ Migration.destination_settings Fixture.settings_5000
     = Copier.destination_settings (Some 2000) Fixture.settings_5000.
Proof.
  split; [reflexivity|].
  apply (migration_settings_are_policy_2000 Fixture.settings_5000 eq_refl).
Defined.

(** ** main *)



(** X20.  The field limit that [main] gives to the copier is the argument
    of the command line when that is a number other than 0, read without
    looking at the environment; with no argument or the argument 0 it is
    the value of the environment, 2000 when the variable is not set.  The
    copier of [main] therefore always has a policy: the argument 0 does not
    turn the limit off, and with neither argument nor variable every
    destination gets the limit 2000. *)
Theorem main_limit_defaults_to_2000 :
  forall args env,
    (forall n, Main.arg_total_fields_limit args = Some n -> n <> 0 ->
               Main.policy args env = inr n)
    /\ (Main.arg_total_fields_limit args = None
        \/ Main.arg_total_fields_limit args = Some 0 ->
        Main.TOTAL_FIELDS_LIMIT env = None ->
        Main.policy args env = inr 2000
        /\ forall source_settings,
             Settings.well_formed source_settings = true ->
             exists settings,
               Copier.destination_settings (Some 2000) source_settings
               = inr settings
               /\ Settings.field_limit settings = Some (JNum 2000)).
Proof.
  intros args env. unfold Main.policy, Main.int_setting. split.
  - intros n -> Hn. destruct (Z.eqb_spec n 0); [contradiction|reflexivity].
  - intros Harg Henv. rewrite Henv. split.
    + destruct Harg as [->| ->]; reflexivity.
    + intros ss Hwf.
      destruct (well_formed_reads ss Hwf)
        as (lim & shards & replicas & Hl & Hs & Hr).
      rewrite (destination_settings_shape (Some 2000) ss lim shards replicas
                 Hl Hs Hr).
      eexists. split; reflexivity.
Qed.

Lemma main_limit_defaults_to_2000_witness :
  let args := Main.mkArgs (Some "a:b") None (Some 0) in
  let env := Main.mkEnv None (Some "http://dest:9200") None (Some "s") None
                        (Some "d") None None None in
  Main.policy args env = inr 2000
  /\ Main.policy (Main.mkArgs None None (Some (-1)))
       (Main.mkEnv None None None None None None None None
          (Some (inl (ValueError "invalid literal for int() with base 10: 'x'"))))
     = inr (-1).
Proof.
  intros args env.
  destruct (main_limit_defaults_to_2000 args env) as [_ Hdef].
  split; [apply (Hdef (or_intror eq_refl) eq_refl)|].
  apply (proj1 (main_limit_defaults_to_2000
                  (Main.mkArgs None None (Some (-1)))
                  (Main.mkEnv None None None None None None None None
                     (Some (inl (ValueError
                        "invalid literal for int() with base 10: 'x'")))))
               (-1) eq_refl).
  discriminate.
Defined.
